(** * Queue4Download client: configuration, message handling, transfer
      dispatch and reconnection back-off

    A shallow embedding of [app/config.py] ([Q4DConfig]), [app/transfer.py]
    ([FileTransfer.transfer_file]) and [app/mqtt_handler.py] ([MQTTHandler])
    together with the properties their specification states about them.

    Conventions of the embedding.
    - A Python [str] is a [string] holding its UTF-8 encoding; [bytes] are
      [list byte].  [bytes.decode()] is strict UTF-8 validation.
    - Python integers are [Z].
    - The type-to-directory dict is a [gmap string string].
    - What the configuration reads (the environment, the parsed file, the
      file system) is a record of [settings]; every read of a property of
      [Q4DConfig] runs [_get], with its log records and its exceptions.
    - Everything the code asks of the operating system, of [lftp] and of the
      MQTT client is answered by a [world] of oracles; every such request and
      every log record is written to the trace of the call.
    - A call is a function from the mutable state to an outcome (a value or a
      raised exception), the new state and the events of the call. *)

From Stdlib Require Import ZArith Ascii String List Bool Lia.
From stdpp Require Import gmap strings list pretty.
Import ListNotations.
Open Scope Z_scope.
Open Scope string_scope.

(** ** Strings and bytes *)

Definition TAB : ascii := "009"%char.
Definition SLASH : ascii := "/"%char.
Definition DQUOTE : string := String "034"%char EmptyString.

(** [s.split(sep)] for a one-character separator: one more field than there
    are separators, empty fields kept. *)
Fixpoint split (sep : ascii) (s : string) : list string :=
  match s with
  | EmptyString => [EmptyString]
  | String c r =>
      if Ascii.eqb c sep then EmptyString :: split sep r
      else match split sep r with
           | f :: fs => String c f :: fs
           | [] => [String c EmptyString]
           end
  end.

(** [os.path.basename]: what follows the last slash. *)
Definition basename (p : string) : string := List.last (split SLASH p) EmptyString.

(** [os.path.join(a, b)] on POSIX. *)
Definition path_join (a b : string) : string :=
  match b with
  | String c _ =>
      if Ascii.eqb c SLASH then b
      else match a with
           | EmptyString => b
           | _ => if Ascii.eqb (List.last (list_ascii_of_string a) SLASH) SLASH
                  then a +:+ b else a +:+ "/" +:+ b
           end
  | EmptyString =>
      match a with
      | EmptyString => b
      | _ => if Ascii.eqb (List.last (list_ascii_of_string a) SLASH) SLASH
             then a else a +:+ "/"
      end
  end.

(** Truthiness of a [str]: only the empty string is falsy. *)
Definition str_truthy (s : string) : bool :=
  match s with EmptyString => false | _ => true end.

(** Truthiness of a value that is a [str] or [None]. *)
Definition opt_truthy (o : option string) : bool :=
  match o with Some s => str_truthy s | None => false end.

(** [str(n)] for an [int]. *)
Definition str_of_int (n : Z) : string := pretty n.

Definition continuation (b : N) : bool := ((128 <=? b) && (b <=? 191))%N.
Definition between (lo hi b : N) : bool := ((lo <=? b) && (b <=? hi))%N.

(** Well-formed UTF-8, as the strict decoder of CPython accepts it: shortest
    form only, no surrogates, nothing above U+10FFFF. *)
Fixpoint utf8_valid (bs : list N) : bool :=
  match bs with
  | [] => true
  | b0 :: r0 =>
      if (b0 <? 128)%N then utf8_valid r0
      else if between 194 223 b0 then
        match r0 with
        | b1 :: r1 => continuation b1 && utf8_valid r1
        | _ => false
        end
      else if between 224 239 b0 then
        match r0 with
        | b1 :: b2 :: r2 =>
            (if (b0 =? 224)%N then between 160 191 b1
             else if (b0 =? 237)%N then between 128 159 b1
             else continuation b1)
            && continuation b2 && utf8_valid r2
        | _ => false
        end
      else if between 240 244 b0 then
        match r0 with
        | b1 :: b2 :: b3 :: r3 =>
            (if (b0 =? 240)%N then between 144 191 b1
             else if (b0 =? 244)%N then between 128 143 b1
             else continuation b1)
            && continuation b2 && continuation b3 && utf8_valid r3
        | _ => false
        end
      else false
  end.

(** ** Exceptions, events, outcomes *)

Inductive exn : Type :=
  | UnicodeDecodeError
  | OSError
  | ValueError
  | RuntimeError
  | CalledProcessError (returncode : Z) (stdout stderr : string)
  | InterpolationError
  | Q4DConfigError (msg : string).

Inductive level : Type := DEBUG | INFO | WARNING | ERROR.

(** What a call does to the outside.  A log record keeps the logger's name,
    the level and the format string; the arguments are not kept. *)
Inductive event : Type :=
  | Log (logger : string) (lv : level) (fmt : string)
  | IsDir (path : string)
  | Chdir (path : string)
  | Which (prog : string)
  | Run (argv : list string)
  | Chmod (path : string) (mode : Z)
  | Connect (host : string) (port keepalive : Z)
  | Subscribe (topic : string) (qos : Z)
  | Publish (topic payload : string) (qos : Z)
  | LoopStart
  | LoopStop
  | Disconnect
  | Sleep (seconds : Z).

(** What a Python call returns when the source gives it no [bool]. *)
Inductive pyval : Type := PyNone | PyBool (b : bool).

Inductive result (A : Type) : Type :=
  | Ret (a : A)
  | Raise (e : exn).
Arguments Ret {A} a.
Arguments Raise {A} e.

(** ** The mutable state *)

(** The fields of [MQTTHandler] that change, and the two facts about the
    process that [transfer_file] changes: its working directory and how many
    times it has called [subprocess.run] so far. *)
Record state : Type := mkState {
  connected : bool;
  running : bool;
  reconnect_delay : Z;
  max_reconnect_delay : Z;
  current_reconnect_delay : Z;
  cwd : string;
  spawned : nat
}.

Definition set_connected (b : bool) (s : state) : state :=
  mkState b (running s) (reconnect_delay s) (max_reconnect_delay s)
          (current_reconnect_delay s) (cwd s) (spawned s).
Definition set_running (b : bool) (s : state) : state :=
  mkState (connected s) b (reconnect_delay s) (max_reconnect_delay s)
          (current_reconnect_delay s) (cwd s) (spawned s).
Definition set_current_reconnect_delay (d : Z) (s : state) : state :=
  mkState (connected s) (running s) (reconnect_delay s) (max_reconnect_delay s)
          d (cwd s) (spawned s).
Definition set_cwd (d : string) (s : state) : state :=
  mkState (connected s) (running s) (reconnect_delay s) (max_reconnect_delay s)
          (current_reconnect_delay s) d (spawned s).
Definition incr_spawned (s : state) : state :=
  mkState (connected s) (running s) (reconnect_delay s) (max_reconnect_delay s)
          (current_reconnect_delay s) (cwd s) (S (spawned s)).

(** [MQTTHandler.__init__]: the fields it sets, in a process whose working
    directory is [dir]. *)
Definition init (dir : string) : state :=
  mkState false false 5 60 5 dir 0.

(** ** The monad of calls *)

Definition M (A : Type) : Type := state -> result A * state * list event.

Definition ret {A} (a : A) : M A := fun s => (Ret a, s, []).
Definition raise {A} (e : exn) : M A := fun s => (Raise e, s, []).
Definition bind {A B} (m : M A) (f : A -> M B) : M B :=
  fun s =>
    match m s with
    | (Ret a, s1, t1) =>
        match f a s1 with (r, s2, t2) => (r, s2, (t1 ++ t2)%list) end
    | (Raise e, s1, t1) => (Raise e, s1, t1)
    end.

(** [try: m  except ... as e: h e]; [h e = None] when no clause matches. *)
Definition try_except {A} (m : M A) (h : exn -> option (M A)) : M A :=
  fun s =>
    match m s with
    | (Ret a, s1, t1) => (Ret a, s1, t1)
    | (Raise e, s1, t1) =>
        match h e with
        | Some k => match k s1 with (r, s2, t2) => (r, s2, (t1 ++ t2)%list) end
        | None => (Raise e, s1, t1)
        end
    end.

Definition emit (e : event) : M unit := fun s => (Ret tt, s, [e]).
Definition get {A} (f : state -> A) : M A := fun s => (Ret (f s), s, []).
Definition modify (f : state -> state) : M unit := fun s => (Ret tt, f s, []).
Definition when (b : bool) (m : M unit) : M unit := if b then m else ret tt.

Declare Scope py_scope.
Delimit Scope py_scope with py.
Notation "x <- m ;; k" := (bind m (fun x => k))
  (at level 100, m at next level, right associativity) : py_scope.
Notation "m ;; k" := (bind m (fun _ => k))
  (at level 100, right associativity) : py_scope.
Open Scope py_scope.

(** The three projections of a finished call. *)
Definition outcome {A} (x : result A * state * list event) : result A := fst (fst x).
Definition final {A} (x : result A * state * list event) : state := snd (fst x).
Definition events {A} (x : result A * state * list event) : list event := snd x.

(** ** The monad of configuration calls *)

(** A call of the configuration code: its outcome and its log records.  It
    changes nothing it reads, so it has no state to pass on. *)
Definition C (A : Type) : Type := result A * list event.

Definition cret {A} (a : A) : C A := (Ret a, []).
Definition craise {A} (e : exn) : C A := (Raise e, []).
Definition cbind {A B} (c : C A) (f : A -> C B) : C B :=
  match c with
  | (Ret a, t1) => match f a with (r, t2) => (r, (t1 ++ t2)%list) end
  | (Raise e, t1) => (Raise e, t1)
  end.
Definition ctry {A} (c : C A) (h : exn -> option (C A)) : C A :=
  match c with
  | (Ret a, t1) => (Ret a, t1)
  | (Raise e, t1) =>
      match h e with
      | Some k => match k with (r, t2) => (r, (t1 ++ t2)%list) end
      | None => (Raise e, t1)
      end
  end.
Declare Scope cfg_scope.
Delimit Scope cfg_scope with cfg.
Notation "x <- c ;; k" := (cbind c (fun x => k))
  (at level 100, c at next level, right associativity) : cfg_scope.
Notation "c ;; k" := (cbind c (fun _ => k))
  (at level 100, right associativity) : cfg_scope.

Definition coutcome {A} (x : C A) : result A := fst x.
Definition clogs {A} (x : C A) : list event := snd x.

(** ** [app/config.py] *)

Module Config.

#[local] Open Scope cfg_scope.

Definition log (lv : level) (fmt : string) : C unit :=
  (Ret tt, [Log "Config" lv fmt]).

Definition NEWLINE : string := String "010"%char EmptyString.

(** How [Path.mkdir(parents=True, exist_ok=True)] ends: the directory is
    there, or [OSError] with the text [str(e)], or [ValueError] for a path
    that holds a NUL. *)
Inductive mkdir_outcome : Type :=
  | Created
  | Refused (text : string)
  | BadPath.

(** What the configuration code reads: the environment, the [DEFAULT]
    section of the parsed file, the default of [PATH], and the answers of the
    built-ins and of the file system. *)
Record settings : Type := mkSettings {
  (** [os.environ] *)
  environ : gmap string string;
  (** [self._config.has_option('DEFAULT', key)] *)
  has_option : string -> bool;
  (** [self._config.get('DEFAULT', key)]: the value after interpolation;
      [None] is [InterpolationError], as for a value with a stray [%] *)
  get_option : string -> option string;
  (** [DEFAULTS['PATH']] *)
  default_path : string;
  (** [int(v)]: [None] is [ValueError] *)
  int_of : string -> option Z;
  (** [str(v).lower()] *)
  str_lower : string -> string;
  (** [str(Path(v).expanduser())]: [None] is [RuntimeError], no home
      directory is known *)
  expanduser : string -> option string;
  (** [q4d_path.exists()] for the expanded path: [None] is [OSError] *)
  path_exists : string -> option bool;
  (** [q4d_path.mkdir(parents=True, exist_ok=True)] for the expanded path *)
  path_mkdir : string -> mkdir_outcome
}.

Section Q4DConfig.

Context (E : settings).

(** [self._config.get('DEFAULT', key)] *)
Definition config_get (key : string) : C string :=
  match get_option E key with
  | Some value => cret value
  | None => craise InterpolationError
  end.

(** [Q4DConfig._get(key)] *)
Definition _get (key : string) : C string :=
  let env_key := "Q4D_" +:+ key in
  log DEBUG "Getting config value for key: %s (env var: %s)" ;;
  match environ E !! env_key with
  | Some value =>
      log DEBUG "Found %s in environment: %s" ;;
      cret value
  | None =>
      if has_option E key then
        value <- config_get key ;;
        log DEBUG "Found %s in config file: %s" ;;
        cret value
      else if String.eqb key "PATH" then
        let value := default_path E in
        log DEBUG "Using default for %s: %s" ;;
        cret value
      else
        log ERROR "Missing required configuration value: %s" ;;
        craise (Q4DConfigError ("Missing required configuration value: " +:+ key))
  end.

(** [int(v)] *)
Definition int_ (v : string) : C Z :=
  match int_of E v with
  | Some n => cret n
  | None => craise ValueError
  end.

(** Lines 74-82: the check of [BUS_PORT]. *)
Definition check_port (errors : list string) : C (list string) :=
  ctry
    (v <- _get "BUS_PORT" ;;
     port <- int_ v ;;
     log DEBUG "Validating BUS_PORT: %s" ;;
     if negb ((1 <=? port)%Z && (port <=? 65535)%Z)
     then cret (errors ++ ["BUS_PORT must be between 1 and 65535, got "
                           +:+ str_of_int port])%list
     else cret errors)
    (fun e =>
       match e with
       | ValueError =>
           Some (log DEBUG "BUS_PORT validation failed: %s" ;;
                 v <- _get "BUS_PORT" ;;
                 cret (errors ++ ["BUS_PORT must be an integer, got '"
                                  +:+ v +:+ "'"])%list)
       | _ => None
       end).

(** Lines 84-102: the check of [THREADS] and of [SEGMENTS], which differ in
    the name only. *)
Definition check_positive (name : string) (errors : list string)
  : C (list string) :=
  ctry
    (v <- _get name ;;
     n <- int_ v ;;
     log DEBUG ("Validating " +:+ name +:+ ": %s") ;;
     if (n <? 1)%Z
     then cret (errors ++ [name +:+ " must be a positive integer, got "
                           +:+ str_of_int n])%list
     else cret errors)
    (fun e =>
       match e with
       | ValueError =>
           Some (log DEBUG (name +:+ " validation failed: %s") ;;
                 v <- _get name ;;
                 cret (errors ++ [name +:+ " must be an integer, got '"
                                  +:+ v +:+ "'"])%list)
       | _ => None
       end).

(** Lines 104-116: the check of [PATH].  [expanduser()] and [exists()] are
    outside the [try]; the [try] around [mkdir] catches [OSError] only. *)
Definition check_path (errors : list string) : C (list string) :=
  v <- _get "PATH" ;;
  q4d_path <- match expanduser E v with
              | Some p => cret p
              | None => craise RuntimeError
              end ;;
  log DEBUG "Validating Q4D_PATH: %s" ;;
  there <- match path_exists E q4d_path with
           | Some b => cret b
           | None => craise OSError
           end ;;
  if negb there then
    log DEBUG "Creating Q4D_PATH directory: %s" ;;
    match path_mkdir E q4d_path with
    | Created =>
        log DEBUG "Successfully created Q4D_PATH: %s" ;;
        cret errors
    | Refused text =>
        log DEBUG "Failed to create Q4D_PATH: %s" ;;
        cret (errors ++ ["Q4D_PATH '" +:+ q4d_path
                         +:+ "' cannot be created: " +:+ text])%list
    | BadPath => craise ValueError
    end
  else
    log DEBUG "Q4D_PATH already exists: %s" ;;
    cret errors.

(** One debug record for each error (lines 120-121). *)
Fixpoint log_errors (errors : list string) : C unit :=
  match errors with
  | [] => cret tt
  | _ :: errors' => log DEBUG "Validation error: %s" ;; log_errors errors'
  end.

(** [Q4DConfig._validate_config()] *)
Definition _validate_config : C unit :=
  errors <- check_port [] ;;
  errors <- check_positive "THREADS" errors ;;
  errors <- check_positive "SEGMENTS" errors ;;
  errors <- check_path errors ;;
  match errors with
  | [] => cret tt
  | _ :: _ =>
      log ERROR "Configuration validation failed with %d errors" ;;
      log_errors errors ;;
      craise (Q4DConfigError
                ("Configuration validation failed:" +:+ NEWLINE +:+
                 String.concat NEWLINE (List.map (fun error => "  - " +:+ error) errors)))
  end.

(** The property [bus_host] *)
Definition bus_host : C string := _get "BUS_HOST".

(** The property [bus_port] *)
Definition bus_port : C Z := v <- _get "BUS_PORT" ;; int_ v.

(** The property [user] *)
Definition user : C string := _get "USER".

(** The property [pw] *)
Definition pw : C string := _get "PW".

(** The property [labelling] *)
Definition labelling : C bool :=
  val <- _get "LABELLING" ;;
  let result := existsb (String.eqb (str_lower E val)) ["1"; "true"; "yes"; "on"] in
  log DEBUG "Labelling config: '%s' -> %s" ;;
  cret result.

(** The property [creds] *)
Definition creds : C string := _get "CREDS".

(** The property [host] *)
Definition host : C string := _get "HOST".

(** The property [threads] *)
Definition threads : C Z := v <- _get "THREADS" ;; int_ v.

(** The property [segments] *)
Definition segments : C Z := v <- _get "SEGMENTS" ;; int_ v.

End Q4DConfig.

(** What [_get(key)] comes to: the environment before the file, the file
    before the default, which only [PATH] has. *)
Definition found (E : settings) (key : string) : result string :=
  match environ E !! ("Q4D_" +:+ key) with
  | Some value => Ret value
  | None =>
      if has_option E key then
        match get_option E key with
        | Some value => Ret value
        | None => Raise InterpolationError
        end
      else if String.eqb key "PATH" then Ret (default_path E)
      else Raise (Q4DConfigError ("Missing required configuration value: " +:+ key))
  end.

(** Whether the value of an integer key passes its check. *)
Definition port_ok (E : settings) : bool :=
  match found E "BUS_PORT" with
  | Ret v => match int_of E v with
             | Some n => (1 <=? n)%Z && (n <=? 65535)%Z
             | None => false
             end
  | Raise _ => false
  end.

Definition positive_ok (E : settings) (name : string) : bool :=
  match found E name with
  | Ret v => match int_of E v with
             | Some n => (1 <=? n)%Z
             | None => false
             end
  | Raise _ => false
  end.

(** What the check of [PATH] raises, if it raises. *)
Definition path_raises (E : settings) : option exn :=
  match found E "PATH" with
  | Raise e => Some e
  | Ret v =>
      match expanduser E v with
      | None => Some RuntimeError
      | Some p =>
          match path_exists E p with
          | None => Some OSError
          | Some true => None
          | Some false =>
              match path_mkdir E p with
              | BadPath => Some ValueError
              | _ => None
              end
          end
      end
  end.

(** Whether the directory of [PATH] is there after its check. *)
Definition path_ok (E : settings) : bool :=
  match found E "PATH" with
  | Raise _ => false
  | Ret v =>
      match expanduser E v with
      | None => false
      | Some p =>
          match path_exists E p with
          | None => false
          | Some true => true
          | Some false =>
              match path_mkdir E p with
              | Created => true
              | _ => false
              end
          end
      end
  end.

(** The number of checks of the four that fail. *)
Definition failures (E : settings) : nat :=
  ((if port_ok E then 0 else 1) +
   (if positive_ok E "THREADS" then 0 else 1) +
   (if positive_ok E "SEGMENTS" then 0 else 1) +
   (if path_ok E then 0 else 1))%nat.

(** Settings for an environment and a parsed file whose values need no
    interpolation, in a file system where every path exists.  [int()] knows
    the numerals used below, and the values are in lower case already. *)
Definition sample_int (v : string) : option Z :=
  if String.eqb v "1883" then Some 1883
  else if String.eqb v "70000" then Some 70000
  else if String.eqb v "4" then Some 4
  else if String.eqb v "8" then Some 8
  else if String.eqb v "0" then Some 0
  else None.

Definition plain (env file : gmap string string) : settings :=
  mkSettings env
             (fun key => match file !! key with Some _ => true | None => false end)
             (fun key => file !! key)
             "/home/q4d/.Q4D" sample_int (fun v => v) (fun v => Some v)
             (fun _ => Some true) (fun _ => Created).

Definition sample_file : gmap string string :=
  <["BUS_HOST" := "broker.example"]>
  (<["BUS_PORT" := "70000"]>
  (<["USER" := "q4d"]>
  (<["PW" := "secret"]>
  (<["LABELLING" := "true"]>
  (<["CREDS" := "user:pass"]>
  (<["HOST" := "seedbox.example"]>
  (<["THREADS" := "4"]>
  (<["SEGMENTS" := "8"]> ∅)))))))).

(** The environment gives the port, the file everything else. *)
Definition sample : settings :=
  plain (<["Q4D_BUS_PORT" := "1883"]> ∅) sample_file.

(** As [sample], but the port is out of range, the threads are zero and the
    segments are not a number. *)
Definition sample_bad : settings :=
  plain (<["Q4D_BUS_PORT" := "70000"]> ∅)
        (<["THREADS" := "0"]> (<["SEGMENTS" := "many"]> sample_file)).

(** As [sample_bad], but [SEGMENTS] is not set at all. *)
Definition sample_missing : settings :=
  plain (<["Q4D_BUS_PORT" := "70000"]> ∅)
        (<["THREADS" := "0"]> (delete "SEGMENTS" sample_file)).

(** As [sample], but the file has [THREADS = 50%], which the parser cannot
    interpolate. *)
Definition sample_percent : settings :=
  mkSettings (environ sample) (has_option sample)
             (fun key => if String.eqb key "THREADS" then None
                         else get_option sample key)
             (default_path sample) (int_of sample) (str_lower sample)
             (expanduser sample) (path_exists sample) (path_mkdir sample).

End Config.

(** A read of the configuration inside a call of the handler or of the
    transfer: the outcome and the log records of the read, the state as it
    was. *)
Definition lift {A} (c : C A) : M A :=
  fun s => (coutcome c, s, clogs c).

(** ** The outside world *)

(** How [subprocess.run(argv, capture_output=True, text=True, check=True)]
    ends.  The child ran, exited, and its output was decoded as text; or it
    ran and exited but its output is no text in the encoding of the locale,
    and the call raises [UnicodeDecodeError] before it looks at the exit
    status; or the child could not be started ([OSError]); or an argument
    holds a NUL ([ValueError]). *)
Inductive run_outcome : Type :=
  | Exited (returncode : Z) (stdout stderr : string)
  | Undecodable (returncode : Z)
  | SpawnError
  | BadArgument.

(** How [client.subscribe] ends: the pair [(result, mid)], or an
    exception. *)
Inductive subscribe_outcome : Type :=
  | Subscribed (rc mid : Z)
  | SubscribeError (e : exn).

(** How [client.publish] ends: a message info with [rc] and [mid], or an
    exception. *)
Inductive publish_outcome : Type :=
  | MessageInfo (rc mid : Z)
  | PublishError.

Record world : Type := mkWorld {
  (** [os.path.isdir(path)] in working directory [cwd] *)
  os_path_isdir : string -> string -> bool;
  (** [os.chdir(path)] in working directory [cwd]: [false] is [OSError] *)
  os_chdir : string -> string -> bool;
  (** [shutil.which(prog)] *)
  shutil_which : string -> option string;
  (** the [n]-th [subprocess.run] of the process, in [cwd], with [argv] *)
  subprocess_run : nat -> string -> list string -> run_outcome;
  (** [os.chmod(path, mode)] in [cwd]: [false] is [OSError] *)
  os_chmod : string -> string -> Z -> bool;
  (** [client.subscribe(topic, qos)] *)
  client_subscribe : string -> Z -> subscribe_outcome;
  (** [client.publish(topic, payload, qos)] *)
  client_publish : string -> string -> Z -> publish_outcome
}.

(** ** [app/transfer.py] *)

Module Transfer.

Definition HOSTKEYFIX : string := "set sftp:auto-confirm yes".

Section FileTransfer.

Context (w : world) (cfg : Config.settings) (type_to_dir : gmap string string).

Definition log (lv : level) (fmt : string) : M unit := emit (Log "Transfer" lv fmt).

(** [os.path.isdir(p)] *)
Definition isdir (p : string) : M bool :=
  emit (IsDir p) ;; c <- get cwd ;; ret (os_path_isdir w c p).

(** [os.chdir(p)] *)
Definition chdir (p : string) : M unit :=
  emit (Chdir p) ;;
  c <- get cwd ;;
  if os_chdir w c p then modify (set_cwd (path_join c p)) else raise OSError.

(** [shutil.which(prog)] *)
Definition which (prog : string) : M (option string) :=
  emit (Which prog) ;; ret (shutil_which w prog).

(** [subprocess.run(argv, capture_output=True, text=True, check=True)]:
    the captured output, or [CalledProcessError] on a nonzero exit status of
    a child whose output was decoded. *)
Definition run_checked (argv : list string) : M (string * string) :=
  emit (Run argv) ;;
  n <- get spawned ;;
  c <- get cwd ;;
  modify incr_spawned ;;
  match subprocess_run w n c argv with
  | Exited rc out err =>
      if Z.eqb rc 0 then ret (out, err) else raise (CalledProcessError rc out err)
  | Undecodable _ => raise UnicodeDecodeError
  | SpawnError => raise OSError
  | BadArgument => raise ValueError
  end.

(** [os.chmod(p, mode)] *)
Definition chmod (p : string) (mode : Z) : M unit :=
  emit (Chmod p mode) ;;
  c <- get cwd ;;
  if os_chmod w c p mode then ret tt else raise OSError.

(** Lines 71-75: the list [mirror_cmd]; the four properties are read in the
    order the list names them. *)
Definition mirror_cmd (target : string) : C (list string) :=
  (creds <- Config.creds cfg ;;
   host <- Config.host cfg ;;
   threads <- Config.threads cfg ;;
   segments <- Config.segments cfg ;;
   cret
     [ "lftp"; "-u"; creds; "sftp://" +:+ host +:+ "/"; "-e";
       HOSTKEYFIX +:+ "; mirror -c  --parallel=" +:+ str_of_int threads
         +:+ " --use-pget-n=" +:+ str_of_int segments
         +:+ " " +:+ DQUOTE +:+ target +:+ DQUOTE +:+ " ;quit" ])%cfg.

(** Lines 97-100: the list [pget_cmd]. *)
Definition pget_cmd (target : string) : C (list string) :=
  (creds <- Config.creds cfg ;;
   host <- Config.host cfg ;;
   threads <- Config.threads cfg ;;
   cret
     [ "lftp"; "-u"; creds; "sftp://" +:+ host +:+ "/"; "-e";
       HOSTKEYFIX +:+ "; pget -n " +:+ str_of_int threads
         +:+ " " +:+ DQUOTE +:+ target +:+ DQUOTE +:+ " ;quit" ])%cfg.

(** Lines 105-120: the pget attempt. *)
Definition run_pget (pget_cmd : list string) : M bool :=
  try_except
    (r <- run_checked pget_cmd ;;
     log DEBUG "Pget command completed successfully" ;;
     when (str_truthy (fst r)) (log DEBUG "Pget stdout: %s") ;;
     when (str_truthy (snd r)) (log DEBUG "Pget stderr: %s") ;;
     ret true)
    (fun e =>
       match e with
       | CalledProcessError _ _ _ =>
           Some (log DEBUG "Pget also failed with return code %d" ;;
                 log DEBUG "Pget stderr: %s" ;;
                 log DEBUG "Pget stdout: %s" ;;
                 ret false)
       | _ => None
       end).

(** Lines 92-120: the [except subprocess.CalledProcessError] clause of the
    mirror attempt, with the pget attempt inside it. *)
Definition pget_fallback (target : string) : M bool :=
  log DEBUG "Mirror failed with return code %d" ;;
  log DEBUG "Mirror stderr: %s" ;;
  log DEBUG "Mirror stdout: %s" ;;
  pget_cmd <- lift (pget_cmd target) ;;
  log INFO "Mirror failed, trying pget command in %s: %s" ;;
  _ <- lift (Config.threads cfg) ;;
  log DEBUG "Pget command details - threads: %d" ;;
  run_pget pget_cmd.

(** Lines 80-120: the mirror attempt and its [except] clause. *)
Definition run_mirror (mirror_cmd : list string) (target : string) : M bool :=
  try_except
    (r <- run_checked mirror_cmd ;;
     log DEBUG "Mirror command completed successfully" ;;
     when (str_truthy (fst r)) (log DEBUG "Mirror stdout: %s") ;;
     when (str_truthy (snd r)) (log DEBUG "Mirror stderr: %s") ;;
     ret true)
    (fun e =>
       match e with
       | CalledProcessError _ _ _ => Some (pget_fallback target)
       | _ => None
       end).

(** Lines 70-120: the mirror command, the mirror attempt and its fallback;
    the value is the variable [transferred]. *)
Definition attempt (target : string) : M bool :=
  mirror_cmd <- lift (mirror_cmd target) ;;
  log INFO "Running mirror command in %s: %s" ;;
  _ <- lift (Config.threads cfg) ;;
  _ <- lift (Config.segments cfg) ;;
  log DEBUG "Mirror command details - parallel: %d, segments: %d" ;;
  run_mirror mirror_cmd target.

(** Lines 122-138: permissions, the closing log records and the return. *)
Definition finish (target dest_dir : string) (transferred : bool) : M bool :=
  let base := basename target in
  log DEBUG "Setting permissions on: %s" ;;
  try_except
    (chmod base 438 ;;
     log DEBUG "Successfully set permissions 666 on %s")
    (fun e =>
       match e with
       | OSError => Some (log WARNING "Could not chmod %s: %s")
       | _ => None
       end) ;;
  (if transferred
   then log INFO "Transfer of %s to %s completed successfully" ;;
        log DEBUG "Transfer success"
   else log ERROR "Transfer of %s to %s failed") ;;
  log DEBUG "Transfer function returning: %s" ;;
  ret transferred.

(** Lines 63-138: from the search for [lftp] on, in the destination
    directory. *)
Definition transfer_here (target dest_dir : string) : M bool :=
  lftp_path <- which "lftp" ;;
  log DEBUG "LFTP path: %s" ;;
  if negb (opt_truthy lftp_path) then
    log ERROR "lftp is not installed or not in PATH. Cannot perform transfer." ;;
    ret false
  else
    transferred <- attempt target ;;
    finish target dest_dir transferred.

(** Lines 49-138: what [transfer_file] does once [dest_dir] is bound.
    [os.getcwd()] only feeds a log record and is taken to succeed. *)
Definition transfer_to (target typecode dest_dir : string) : M bool :=
  log DEBUG "Checking if destination directory exists: %s" ;;
  d <- isdir dest_dir ;;
  if negb d then
    log ERROR "Destination directory does not exist: %s (typecode: %s)" ;;
    ret false
  else
    log DEBUG "Current working directory: %s" ;;
    changed <- try_except
      (chdir dest_dir ;;
       log DEBUG "Changed to destination directory: %s" ;;
       ret true)
      (fun e =>
         match e with
         | OSError => Some (log ERROR "Failed to change directory to %s: %s" ;;
                            ret false)
         | _ => None
         end) ;;
    if negb changed then ret false
    else transfer_here target dest_dir.

(** [FileTransfer.transfer_file(target, hash_, typecode)] *)
Definition transfer_file (target hash_ typecode : string) : M bool :=
  log DEBUG "Starting transfer - target: %s, hash: %s, typecode: %s" ;;
  let dest_dir := type_to_dir !! typecode in
  log DEBUG "Type mapping lookup - typecode: %s -> dest_dir: %s" ;;
  if negb (opt_truthy dest_dir) then
    match type_to_dir !! "ERR" with
    | Some dest_dir =>
        log WARNING "Unknown typecode: %s. Falling back to ERR: %s" ;;
        log DEBUG "Using ERR fallback directory: %s" ;;
        transfer_to target typecode dest_dir
    | None =>
        log ERROR "Unknown typecode: %s and no ERR fallback available. Available types: %s" ;;
        ret false
    end
  else
    match dest_dir with
    | Some dest_dir => transfer_to target typecode dest_dir
    | None => ret false (* not reached: [None] is falsy *)
    end.

End FileTransfer.

End Transfer.

(** ** [app/mqtt_handler.py] *)

Module MQTT.

Definition ACK : string := "DONE".
Definition NACK : string := "NOPE".
Definition LABEL_CHANNEL : string := "Label".
Definition queue_channel : string := "Down".
Definition MQTT_ERR_SUCCESS : Z := 0.

(** [payload.decode()]: strict UTF-8. *)
Definition bytes_decode (payload : list Byte.byte) : M string :=
  if utf8_valid (map Byte.to_N payload)
  then ret (string_of_list_byte payload)
  else raise UnicodeDecodeError.

Section MQTTHandler.

Context (w : world) (cfg : Config.settings) (type_to_dir : gmap string string).

Definition log (lv : level) (fmt : string) : M unit := emit (Log "MQTT" lv fmt).

(** [self.client.publish(topic, payload, qos=qos)] *)
Definition publish (topic payload : string) (qos : Z) : M (Z * Z) :=
  emit (Publish topic payload qos) ;;
  match client_publish w topic payload qos with
  | MessageInfo rc mid => ret (rc, mid)
  | PublishError => raise ValueError
  end.

(** [_client.subscribe(topic, qos=qos)] *)
Definition subscribe (topic : string) (qos : Z) : M (Z * Z) :=
  emit (Subscribe topic qos) ;;
  match client_subscribe w topic qos with
  | Subscribed rc mid => ret (rc, mid)
  | SubscribeError e => raise e
  end.

(** [MQTTHandler.publish_label_event(hash_, success)] *)
Definition publish_label_event (hash_ : string) (success : bool) : M pyval :=
  c <- get connected ;;
  if negb c then
    log WARNING "Cannot publish label event - MQTT not connected" ;;
    ret PyNone
  else
    let label := if success then ACK else NACK in
    let event := hash_ +:+ String TAB EmptyString +:+ label in
    log INFO "Publishing label event: %s to %s" ;;
    log DEBUG "Label event details - hash: %s, success: %s, label: %s" ;;
    try_except
      (r <- publish LABEL_CHANNEL event 2 ;;
       log DEBUG "Publish result - message ID: %d, return code: %d" ;;
       if Z.eqb (fst r) MQTT_ERR_SUCCESS
       then log DEBUG "Label event queued for publishing"
       else log WARNING "Failed to publish label event, return code: %d")
      (fun e =>
         Some (log ERROR "Exception while publishing label event: %s" ;;
               log DEBUG "Publish exception details:")) ;;
    ret PyNone.

(** Lines 208-215 of [on_message]: what follows the transfer.  The property
    [labelling] is read for the test, and once more for the log record of
    the [else] branch. *)
Definition acknowledge (hash_ : string) (success : bool) : M pyval :=
  log DEBUG "Transfer completed with success: %s" ;;
  labelling <- lift (Config.labelling cfg) ;;
  (if labelling && negb (String.eqb hash_ "NotUsed")
   then log DEBUG "Labelling enabled and hash is not 'NotUsed', publishing label event" ;;
        _ <- publish_label_event hash_ success ;;
        ret tt
   else _ <- lift (Config.labelling cfg) ;;
        log DEBUG "Skipping label event - labelling: %s, hash: %s") ;;
  ret PyNone.

(** [MQTTHandler.on_message(_client, _userdata, msg)], as a function of
    [msg.payload]; topic, QoS and the retain flag only reach a log record. *)
Definition on_message (payload : list Byte.byte) : M pyval :=
  event_str <- bytes_decode payload ;;
  log INFO "Event received: %s" ;;
  log DEBUG "Message topic: %s, QoS: %d, retain: %s" ;;
  let event := split TAB event_str in
  if (length event <? 3)%nat then
    log ERROR "Malformed event: %s" ;;
    log DEBUG "Expected at least 3 fields, got %d: %s" ;;
    ret PyNone
  else
    match firstn 3 event with
    | [filename; hash_; typecode] =>
        log DEBUG "Parsed event - filename: %s, hash: %s, typecode: %s" ;;
        when (3 <? length event)%nat
             (log DEBUG "Additional event fields ignored: %s") ;;
        log DEBUG "Starting file transfer" ;;
        success <- Transfer.transfer_file w cfg type_to_dir filename hash_ typecode ;;
        acknowledge hash_ success
    | _ => raise ValueError (* not reached: three fields are there *)
    end.

(** Lines 93-97: the body of the [try] of the connect loop.  The host and
    the port are read for the log record and once more for the call;
    [ok] tells whether [client.connect] returns or raises. *)
Definition connect (ok : bool) : M unit :=
  _ <- lift (Config.bus_host cfg) ;;
  _ <- lift (Config.bus_port cfg) ;;
  log DEBUG "Attempting MQTT connection to %s:%s" ;;
  host <- lift (Config.bus_host cfg) ;;
  port <- lift (Config.bus_port cfg) ;;
  emit (Connect host port 60) ;;
  if ok then ret tt else raise OSError.

(** Lines 99-110: the [except Exception] clause of the connect loop. *)
Definition back_off : M unit :=
  log ERROR "Failed to connect to MQTT broker: %s" ;;
  log DEBUG "Connection attempt failed, waiting %d seconds before retry" ;;
  d <- get current_reconnect_delay ;;
  emit (Sleep d) ;;
  d <- get current_reconnect_delay ;;
  m <- get max_reconnect_delay ;;
  modify (set_current_reconnect_delay (Z.min (d * 2) m)) ;;
  log DEBUG "Next reconnect delay: %d seconds".

(** [MQTTHandler._connect_with_retry()].  [answers] say, for the successive
    turns of the loop, whether [client.connect] returns ([true]) or raises
    ([false]) when the turn comes to it.  The value is [true] when the loop
    has been left and [false] when it is still going after the last listed
    answer. *)
Fixpoint _connect_with_retry (answers : list bool) : M bool :=
  r <- get running ;;
  c <- get connected ;;
  if r && negb c then
    match answers with
    | [] => ret false
    | ok :: answers' =>
        left <- try_except
                  (connect ok ;; ret true)
                  (fun e => Some (back_off ;; ret false)) ;;
        if left then ret true else _connect_with_retry answers'
    end
  else ret true.

(** [MQTTHandler.on_connect(_client, _userdata, flags, rc)] *)
Definition on_connect (rc : Z) : M pyval :=
  if Z.eqb rc 0 then
    modify (set_connected true) ;;
    d <- get reconnect_delay ;;
    modify (set_current_reconnect_delay d) ;;
    log INFO "Connected to MQTT broker. Subscribing to %s" ;;
    log DEBUG "Connection flags: %s" ;;
    r <- subscribe queue_channel 2 ;;
    (if Z.eqb (fst r) MQTT_ERR_SUCCESS
     then log DEBUG "Subscription request sent for %s (message ID: %d)"
     else log ERROR "Failed to subscribe to %s, error code: %d") ;;
    ret PyNone
  else
    modify (set_connected false) ;;
    log ERROR "Failed to connect to MQTT broker: %s" ;;
    ret PyNone.

(** [MQTTHandler.on_disconnect(_client, _userdata, rc)] *)
Definition on_disconnect (rc : Z) : M pyval :=
  modify (set_connected false) ;;
  (if Z.eqb rc 0 then log INFO "MQTT client disconnected normally"
   else
     log WARNING "Unexpected MQTT disconnection: %s (code: %d)" ;;
     r <- get running ;;
     when r (log INFO "Will attempt to reconnect...")) ;;
  ret PyNone.

(** [MQTTHandler.stop()] *)
Definition stop : M pyval :=
  log INFO "Stopping MQTT handler" ;;
  modify (set_running false) ;;
  emit LoopStop ;;
  c <- get connected ;;
  when c (emit Disconnect ;; log DEBUG "MQTT client disconnected") ;;
  log INFO "MQTT handler stopped" ;;
  ret PyNone.

(** What happens to a handler over its life: the calls the main thread and
    the transport make on it, one after the other.  [Start] is [start()] up
    to its supervising loop, [Poll] one turn of that loop; a call whose
    connect loop is still going when its answers run out does nothing
    more. *)
Inductive call : Type :=
  | Start (answers : list bool)
  | Poll (answers : list bool)
  | OnConnect (rc : Z)
  | OnDisconnect (rc : Z)
  | OnMessage (payload : list Byte.byte)
  | Stop.

Definition perform (c : call) : M unit :=
  match c with
  | Start answers =>
      _ <- lift (Config.bus_host cfg) ;;
      _ <- lift (Config.bus_port cfg) ;;
      _ <- lift (Config.user cfg) ;;
      log INFO "Starting MQTT handler - connecting to %s:%s as %s" ;;
      log DEBUG "Queue channel: %s" ;;
      log DEBUG "Label channel: %s" ;;
      log DEBUG "Reconnection settings - initial delay: %ds, max delay: %ds" ;;
      modify (set_running true) ;;
      left <- _connect_with_retry answers ;;
      when left
        (emit LoopStart ;;
         log DEBUG "MQTT network loop started")
  | Poll answers =>
      r <- get running ;;
      when r
        (c <- get connected ;;
         left <- (if negb c
                  then log WARNING "MQTT connection lost, attempting to reconnect..." ;;
                       _connect_with_retry answers
                  else ret true) ;;
         when left (emit (Sleep 1)))
  | OnConnect rc => _ <- on_connect rc ;; ret tt
  | OnDisconnect rc => _ <- on_disconnect rc ;; ret tt
  | OnMessage payload => _ <- on_message payload ;; ret tt
  | Stop => _ <- stop ;; ret tt
  end.

(** A sequence of calls; an exception ends it. *)
Fixpoint session (cs : list call) : M unit :=
  match cs with
  | [] => ret tt
  | c :: cs' => perform c ;; session cs'
  end.

End MQTTHandler.

End MQTT.

(** ** Observing calls *)

(** A finished call with the events [t] put before its own. *)
Definition prepend {A} (t : list event) (x : result A * state * list event)
  : result A * state * list event :=
  (outcome x, final x, (t ++ events x)%list).

Definition is_publish (e : event) : bool :=
  match e with Publish _ _ _ => true | _ => false end.
Definition is_run (e : event) : bool :=
  match e with Run _ => true | _ => false end.
Definition is_chdir (e : event) : bool :=
  match e with Chdir _ => true | _ => false end.
Definition is_sleep (e : event) : bool :=
  match e with Sleep _ => true | _ => false end.
Definition is_chmod (e : event) : bool :=
  match e with Chmod _ _ => true | _ => false end.
Definition is_connect (e : event) : bool :=
  match e with Connect _ _ _ => true | _ => false end.
Definition is_subscribe (e : event) : bool :=
  match e with Subscribe _ _ => true | _ => false end.
Definition is_disconnect (e : event) : bool :=
  match e with Disconnect => true | _ => false end.
Definition is_log (e : event) : bool :=
  match e with Log _ _ _ => true | _ => false end.

(** What a call asks of the outside, its log records left out. *)
Definition requests (t : list event) : list event :=
  List.filter (fun e => negb (is_log e)) t.

(** The fields of the handler, without those of the process. *)
Definition handler_fields (s : state) : bool * bool * Z * Z * Z :=
  (connected s, running s, reconnect_delay s, max_reconnect_delay s,
   current_reconnect_delay s).

(** The world [w] with another answer to [os.chmod]. *)
Definition with_chmod (f : string -> string -> Z -> bool) (w : world) : world :=
  mkWorld (os_path_isdir w) (os_chdir w) (shutil_which w) (subprocess_run w)
          f (client_subscribe w) (client_publish w).

(** The number of tab bytes of a payload. *)
Definition tabs (payload : list Byte.byte) : nat :=
  length (List.filter (Byte.eqb Byte.x09) payload).

(** The log records of the configuration. *)
Definition config_event (e : event) : bool :=
  match e with
  | Log logger _ _ => String.eqb logger "Config"
  | _ => false
  end.

(** A configuration call that writes only log records of the
    configuration. *)
Definition quiet {A} (c : C A) : Prop :=
  Forall (fun e => config_event e = true) (clogs c).

(** The events [transfer_file] can produce: log records of its own logger
    and of the configuration it reads, and requests to the operating
    system. *)
Definition transfer_event (e : event) : bool :=
  match e with
  | Log logger _ _ => String.eqb logger "Transfer" || String.eqb logger "Config"
  | IsDir _ | Chdir _ | Which _ | Run _ | Chmod _ _ => true
  | _ => false
  end.

(** The events of the handler itself that are neither a publish nor a
    wait. *)
Definition handler_event (e : event) : bool :=
  match e with
  | Log logger _ _ => String.eqb logger "MQTT" || String.eqb logger "Config"
  | Connect _ _ _ | Subscribe _ _ | LoopStart | LoopStop | Disconnect => true
  | _ => false
  end.

(** What [subprocess.run] raises besides [CalledProcessError]. *)
Definition escapes (o : run_outcome) : option exn :=
  match o with
  | Exited _ _ _ => None
  | Undecodable _ => Some UnicodeDecodeError
  | SpawnError => Some OSError
  | BadArgument => Some ValueError
  end.

(** The exit status of a child that ran. *)
Definition exit_status (o : run_outcome) : option Z :=
  match o with
  | Exited rc _ _ => Some rc
  | Undecodable rc => Some rc
  | SpawnError | BadArgument => None
  end.

(** The directory that lines 33-47 of [transfer_file] leave in [dest_dir];
    [None] when they return [False]. *)
Definition destination (type_to_dir : gmap string string) (typecode : string)
  : option string :=
  let dest_dir := type_to_dir !! typecode in
  if opt_truthy dest_dir then dest_dir else type_to_dir !! "ERR".

(** The log records of lines 29-43 on the way to [dest_dir]. *)
Definition resolution_log (type_to_dir : gmap string string) (typecode : string)
  : list event :=
  [ Log "Transfer" DEBUG "Starting transfer - target: %s, hash: %s, typecode: %s";
    Log "Transfer" DEBUG "Type mapping lookup - typecode: %s -> dest_dir: %s" ]
  ++ (if opt_truthy (type_to_dir !! typecode) then []
      else [ Log "Transfer" WARNING "Unknown typecode: %s. Falling back to ERR: %s";
             Log "Transfer" DEBUG "Using ERR fallback directory: %s" ]).

(** A call keeps the invariant [I] of the state and produces only events
    in [E]. *)
Definition respects (I : state -> Prop) (E : event -> Prop) {A} (m : M A) : Prop :=
  forall s, I s -> I (final (m s)) /\ Forall E (events (m s)).

(** The back-off fields as [__init__] sets them, with the current delay
    between the initial and the maximal one. *)
Definition backoff_ok (s : state) : Prop :=
  reconnect_delay s = 5 /\ max_reconnect_delay s = 60 /\
  5 <= current_reconnect_delay s <= 60.

(** The waits a handler may make: the poll interval or a back-off within
    bounds. *)
Definition wait_ok (e : event) : Prop :=
  forall d, e = Sleep d -> d = 1 \/ 5 <= d <= 60.

(** A value of [publish_label_event] tells its caller that nothing was sent
    when no call that hands a message to the transport returns it. *)
Definition failure_indicator (v : pyval) : Prop :=
  forall (w : world) (hash_ : string) (success : bool) (s : state),
    existsb is_publish (events (MQTT.publish_label_event w hash_ success s)) = true ->
    outcome (MQTT.publish_label_event w hash_ success s) <> Ret v.

(** The log records and requests of [transfer_file] from the directory
    check to the search for [lftp], when all of them succeed. *)
Definition entering_log (d : string) : list event :=
  [ Log "Transfer" DEBUG "Checking if destination directory exists: %s";
    IsDir d;
    Log "Transfer" DEBUG "Current working directory: %s";
    Chdir d;
    Log "Transfer" DEBUG "Changed to destination directory: %s";
    Which "lftp";
    Log "Transfer" DEBUG "LFTP path: %s" ].

(** The log records of [on_message] before the transfer, for a payload of
    three fields followed by [rest]. *)
Definition dispatch_log (rest : list string) : list event :=
  [ Log "MQTT" INFO "Event received: %s";
    Log "MQTT" DEBUG "Message topic: %s, QoS: %d, retain: %s";
    Log "MQTT" DEBUG "Parsed event - filename: %s, hash: %s, typecode: %s" ]
  ++ (match rest with
      | [] => []
      | _ => [ Log "MQTT" DEBUG "Additional event fields ignored: %s" ]
      end)
  ++ [ Log "MQTT" DEBUG "Starting file transfer" ].

(** What a publish event of [on_message] must look like for the hash
    [hash_]: sent to ["Label"] at QoS 2, the hash and one of the two
    outcome tokens, under a configuration whose [labelling] reads true and
    for a hash other than ["NotUsed"]. *)
Definition label_event_ok (cfg : Config.settings) (hash_ : string) (e : event) : Prop :=
  is_publish e = true ->
  coutcome (Config.labelling cfg) = Ret true /\ hash_ <> "NotUsed" /\
  (e = Publish MQTT.LABEL_CHANNEL (hash_ +:+ String TAB EmptyString +:+ MQTT.ACK) 2 \/
   e = Publish MQTT.LABEL_CHANNEL (hash_ +:+ String TAB EmptyString +:+ MQTT.NACK) 2).

(** A file name in Latin-1: the byte [0xE9] starts no UTF-8 sequence here. *)
Definition latin1_payload : list Byte.byte :=
  [ Byte.x63; Byte.x61; Byte.x66; Byte.xe9; Byte.x2e; Byte.x6d; Byte.x6b; Byte.x76;
    Byte.x09; Byte.x68; Byte.x31; Byte.x09; Byte.x4d; Byte.x4f; Byte.x56 ].

(** ** Sample inputs *)

Module Sample.

Definition cfg : Config.settings := Config.sample.

(** As [cfg], with [LABELLING = no]. *)
Definition cfg_unlabelled : Config.settings :=
  Config.plain (Config.environ Config.sample)
               (<["LABELLING" := "no"]> Config.sample_file).

(** As [cfg], but [CREDS] is set nowhere. *)
Definition cfg_no_creds : Config.settings :=
  Config.plain (Config.environ Config.sample)
               (delete "CREDS" Config.sample_file).

(** As [cfg], but [BUS_HOST] is set nowhere. *)
Definition cfg_no_host : Config.settings :=
  Config.plain (Config.environ Config.sample)
               (delete "BUS_HOST" Config.sample_file).

(** The commands that lines 71-75 and 97-100 build under [cfg] for the
    target ["movie.mkv"]. *)
Definition mirror_movie : list string :=
  [ "lftp"; "-u"; "user:pass"; "sftp://seedbox.example/"; "-e";
    "set sftp:auto-confirm yes; mirror -c  --parallel=4 --use-pget-n=8 "
      +:+ DQUOTE +:+ "movie.mkv" +:+ DQUOTE +:+ " ;quit" ].

Definition pget_movie : list string :=
  [ "lftp"; "-u"; "user:pass"; "sftp://seedbox.example/"; "-e";
    "set sftp:auto-confirm yes; pget -n 4 "
      +:+ DQUOTE +:+ "movie.mkv" +:+ DQUOTE +:+ " ;quit" ].

Definition types : gmap string string :=
  <["MOV" := "/d/movies"]> (<["ERR" := "/d/err"]> ∅).

Definition types_no_err : gmap string string :=
  <["MOV" := "/d/movies"]> ∅.

Definition types_empty_entry : gmap string string :=
  <["TV" := ""]> types.

(** Every directory exists, [lftp] is installed, the mirror exits with
    status 1 and every later child with status 0; the broker accepts. *)
Definition world_pget : world :=
  mkWorld (fun _ _ => true) (fun _ _ => true)
          (fun _ => Some "/usr/bin/lftp")
          (fun n _ _ => match n with
                        | O => Exited 1 "" "mirror: not a directory"
                        | _ => Exited 0 "" ""
                        end)
          (fun _ _ _ => true)
          (fun _ _ => Subscribed 0 1)
          (fun _ _ _ => MessageInfo 0 7).

(** As [world_pget], but the mirror, which exits with status 1, writes a
    file name in Latin-1 to its standard error: bytes that are no text in a
    UTF-8 locale. *)
Definition world_undecodable : world :=
  mkWorld (fun _ _ => true) (fun _ _ => true)
          (fun _ => Some "/usr/bin/lftp")
          (fun n _ _ => match n with
                        | O => Undecodable 1
                        | _ => Exited 0 "" ""
                        end)
          (fun _ _ _ => true)
          (fun _ _ => Subscribed 0 1)
          (fun _ _ _ => MessageInfo 0 7).

(** As [world_pget], but no child process can be started. *)
Definition world_no_spawn : world :=
  mkWorld (fun _ _ => true) (fun _ _ => true)
          (fun _ => Some "/usr/bin/lftp")
          (fun _ _ _ => SpawnError)
          (fun _ _ _ => true)
          (fun _ _ => Subscribed 0 1)
          (fun _ _ _ => MessageInfo 0 7).

(** As [world_pget], but no directory exists. *)
Definition world_no_dir : world :=
  mkWorld (fun _ _ => false) (fun _ _ => false)
          (fun _ => Some "/usr/bin/lftp")
          (fun _ _ _ => Exited 0 "" "")
          (fun _ _ _ => true)
          (fun _ _ => Subscribed 0 1)
          (fun _ _ _ => MessageInfo 0 7).

(** As [world_pget], but no directory can be entered. *)
Definition world_no_entry : world :=
  mkWorld (fun _ _ => true) (fun _ _ => false)
          (fun _ => Some "/usr/bin/lftp")
          (fun _ _ _ => Exited 0 "" "")
          (fun _ _ _ => true)
          (fun _ _ => Subscribed 0 1)
          (fun _ _ _ => MessageInfo 0 7).

(** As [world_pget], but [lftp] is not installed. *)
Definition world_no_lftp : world :=
  mkWorld (fun _ _ => true) (fun _ _ => true)
          (fun _ => None)
          (fun _ _ _ => Exited 0 "" "")
          (fun _ _ _ => true)
          (fun _ _ => Subscribed 0 1)
          (fun _ _ _ => MessageInfo 0 7).

(** As [world_pget], but the transport raises on every publish. *)
Definition world_publish_error : world :=
  mkWorld (fun _ _ => true) (fun _ _ => true)
          (fun _ => Some "/usr/bin/lftp")
          (fun _ _ _ => Exited 0 "" "")
          (fun _ _ _ => true)
          (fun _ _ => Subscribed 0 1)
          (fun _ _ _ => PublishError).

(** As [world_pget], but the client raises on every subscribe. *)
Definition world_subscribe_error : world :=
  mkWorld (fun _ _ => true) (fun _ _ => true)
          (fun _ => Some "/usr/bin/lftp")
          (fun _ _ _ => Exited 0 "" "")
          (fun _ _ _ => true)
          (fun _ _ => SubscribeError OSError)
          (fun _ _ _ => MessageInfo 0 7).

Definition online : state := set_connected true (set_running true (init "/home/q4d")).
Definition offline : state := set_running true (init "/home/q4d").

Definition movie : list Byte.byte :=
  list_byte_of_string ("movie.mkv" +:+ String TAB "hash123" +:+ String TAB "MOV").

Definition unused : list Byte.byte :=
  list_byte_of_string ("movie.mkv" +:+ String TAB "NotUsed" +:+ String TAB "MOV").

Definition movie_extra : list Byte.byte :=
  list_byte_of_string ("movie.mkv" +:+ String TAB "hash123" +:+ String TAB "MOV"
                       +:+ String TAB "extra" +:+ String TAB "fields").

Definition short : list Byte.byte :=
  list_byte_of_string ("incomplete" +:+ String TAB "event").

End Sample.

(** The commands of the sample are what the code builds. *)
Example sample_commands :
  coutcome (Transfer.mirror_cmd Sample.cfg "movie.mkv") = Ret Sample.mirror_movie /\
  coutcome (Transfer.pget_cmd Sample.cfg "movie.mkv") = Ret Sample.pget_movie /\
  coutcome (Config.labelling Sample.cfg) = Ret true /\
  coutcome (Config.labelling Sample.cfg_unlabelled) = Ret false /\
  coutcome (Config._validate_config Sample.cfg) = Ret tt /\
  coutcome (Config.creds Sample.cfg_no_creds) =
    Raise (Q4DConfigError "Missing required configuration value: CREDS").
Proof. repeat split; vm_compute; reflexivity. Qed.

(** ** Lemmas on configuration calls *)

Lemma coutcome_cbind {A B} (c : C A) (f : A -> C B) :
  coutcome (cbind c f) =
  match coutcome c with
  | Ret a => coutcome (f a)
  | Raise e => Raise e
  end.
Proof.
  unfold cbind, coutcome. destruct c as [[a|e] t1]; cbn; [|reflexivity].
  destruct (f a) as [r t2]. reflexivity.
Qed.

Lemma coutcome_ctry {A} (c : C A) (h : exn -> option (C A)) :
  coutcome (ctry c h) =
  match coutcome c with
  | Ret a => Ret a
  | Raise e => match h e with
               | Some k => coutcome k
               | None => Raise e
               end
  end.
Proof.
  unfold ctry, coutcome. destruct c as [[a|e] t1]; cbn; [reflexivity|].
  destruct (h e) as [[r t2]|]; reflexivity.
Qed.

Lemma quiet_cret {A} (a : A) : quiet (cret a).
Proof. constructor. Qed.

Lemma quiet_craise {A} (e : exn) : quiet (@craise A e).
Proof. constructor. Qed.

Lemma quiet_log (lv : level) (fmt : string) : quiet (Config.log lv fmt).
Proof. repeat constructor. Qed.

Lemma quiet_cbind {A B} (c : C A) (f : A -> C B) :
  quiet c -> (forall a, quiet (f a)) -> quiet (cbind c f).
Proof.
  unfold quiet, cbind, clogs. intros Hc Hf.
  destruct c as [[a|e] t1]; cbn in *; [|exact Hc].
  specialize (Hf a). destruct (f a) as [r t2]; cbn in *.
  apply Forall_app; split; assumption.
Qed.

Lemma quiet_ctry {A} (c : C A) (h : exn -> option (C A)) :
  quiet c ->
  (forall e, match h e with Some k => quiet k | None => True end) ->
  quiet (ctry c h).
Proof.
  unfold quiet, ctry, clogs. intros Hc Hh.
  destruct c as [[a|e] t1]; cbn in *; [exact Hc|].
  specialize (Hh e). destruct (h e) as [[r t2]|]; cbn in *; [|exact Hc].
  apply Forall_app; split; assumption.
Qed.

(** Breaks a [quiet] goal down along the structure of the call. *)
Ltac quiet_split :=
  repeat match goal with
    | |- quiet (cret _) => apply quiet_cret
    | |- quiet (craise _) => apply quiet_craise
    | |- quiet (Config.log _ _) => apply quiet_log
    | |- quiet (cbind _ _) => apply quiet_cbind; [ | intros ? ]
    | |- quiet (ctry _ _) =>
        apply quiet_ctry;
        [ | let e := fresh "e" in
            intros e; destruct e; cbv beta iota; try exact Logic.I ]
    | |- quiet (if ?b then _ else _) => destruct b
    | |- quiet (match ?x with _ => _ end) => destruct x
    end.

Section ConfigFacts.

Context (E : Config.settings).

(** [_get] comes to what [found] says. *)
Lemma get_found (key : string) :
  coutcome (Config._get E key) = Config.found E key.
Proof.
  unfold Config._get, Config.found, Config.config_get.
  rewrite coutcome_cbind. cbn.
  destruct (Config.environ E !! ("Q4D_" +:+ key)); [reflexivity|].
  destruct (Config.has_option E key).
  - destruct (Config.get_option E key); reflexivity.
  - destruct (String.eqb key "PATH"); reflexivity.
Qed.

Lemma quiet_get (key : string) : quiet (Config._get E key).
Proof. unfold Config._get, Config.config_get. quiet_split. Qed.

Lemma quiet_int (v : string) : quiet (Config.int_ E v).
Proof. unfold Config.int_. quiet_split. Qed.

Lemma quiet_bus_host : quiet (Config.bus_host E).
Proof. apply quiet_get. Qed.

Lemma quiet_bus_port : quiet (Config.bus_port E).
Proof. apply quiet_cbind; [apply quiet_get|intros; apply quiet_int]. Qed.

Lemma quiet_user : quiet (Config.user E).
Proof. apply quiet_get. Qed.

Lemma quiet_labelling : quiet (Config.labelling E).
Proof.
  unfold Config.labelling.
  apply quiet_cbind; [apply quiet_get|intros]. quiet_split.
Qed.

Lemma quiet_creds : quiet (Config.creds E).
Proof. apply quiet_get. Qed.

Lemma quiet_host : quiet (Config.host E).
Proof. apply quiet_get. Qed.

Lemma quiet_threads : quiet (Config.threads E).
Proof. apply quiet_cbind; [apply quiet_get|intros; apply quiet_int]. Qed.

Lemma quiet_segments : quiet (Config.segments E).
Proof. apply quiet_cbind; [apply quiet_get|intros; apply quiet_int]. Qed.

Lemma quiet_mirror_cmd (target : string) : quiet (Transfer.mirror_cmd E target).
Proof.
  unfold Transfer.mirror_cmd.
  apply quiet_cbind; [apply quiet_creds|intros].
  apply quiet_cbind; [apply quiet_host|intros].
  apply quiet_cbind; [apply quiet_threads|intros].
  apply quiet_cbind; [apply quiet_segments|intros]. apply quiet_cret.
Qed.

Lemma quiet_pget_cmd (target : string) : quiet (Transfer.pget_cmd E target).
Proof.
  unfold Transfer.pget_cmd.
  apply quiet_cbind; [apply quiet_creds|intros].
  apply quiet_cbind; [apply quiet_host|intros].
  apply quiet_cbind; [apply quiet_threads|intros]. apply quiet_cret.
Qed.

(** The mirror command is built exactly when its four reads return. *)
Lemma mirror_cmd_built (target : string) (mirror : list string) :
  coutcome (Transfer.mirror_cmd E target) = Ret mirror ->
  exists creds host threads segments,
    coutcome (Config.creds E) = Ret creds /\
    coutcome (Config.host E) = Ret host /\
    coutcome (Config.threads E) = Ret threads /\
    coutcome (Config.segments E) = Ret segments.
Proof.
  unfold Transfer.mirror_cmd. rewrite coutcome_cbind.
  destruct (coutcome (Config.creds E)) as [c|]; [|discriminate].
  rewrite coutcome_cbind.
  destruct (coutcome (Config.host E)) as [h|]; [|discriminate].
  rewrite coutcome_cbind.
  destruct (coutcome (Config.threads E)) as [t|]; [|discriminate].
  rewrite coutcome_cbind.
  destruct (coutcome (Config.segments E)) as [g|]; [|discriminate].
  intros _. exists c, h, t, g. auto.
Qed.

(** Once the mirror command is built, so is the pget command: it reads
    three of the same four properties. *)
Lemma pget_cmd_built (target : string) (mirror : list string) :
  coutcome (Transfer.mirror_cmd E target) = Ret mirror ->
  exists pget, coutcome (Transfer.pget_cmd E target) = Ret pget.
Proof.
  intros H. destruct (mirror_cmd_built target mirror H)
    as (c & h & t & g & Hc & Hh & Ht & _).
  unfold Transfer.pget_cmd.
  rewrite coutcome_cbind, Hc, coutcome_cbind, Hh, coutcome_cbind, Ht.
  eexists. reflexivity.
Qed.

End ConfigFacts.

Create HintDb quiet.
#[local] Hint Resolve quiet_get quiet_int quiet_bus_host quiet_bus_port quiet_user
  quiet_labelling quiet_creds quiet_host quiet_threads quiet_segments
  quiet_mirror_cmd quiet_pget_cmd : quiet.

Lemma quiet_requests {A} (c : C A) : quiet c -> requests (clogs c) = [].
Proof.
  unfold quiet, requests. intros H. induction H as [|e t He _ IH]; [reflexivity|].
  destruct e; try discriminate He. cbn. exact IH.
Qed.

(** ** Lemmas on calls *)

Section Respects.

Context (I : state -> Prop) (E : event -> Prop).

Lemma respects_ret {A} (a : A) : respects I E (ret a).
Proof. intros s Hs; split; [exact Hs | constructor]. Qed.

Lemma respects_raise {A} (e : exn) : respects I E (@raise A e).
Proof. intros s Hs; split; [exact Hs | constructor]. Qed.

Lemma respects_get {A} (f : state -> A) : respects I E (get f).
Proof. intros s Hs; split; [exact Hs | constructor]. Qed.

Lemma respects_emit (e : event) : E e -> respects I E (emit e).
Proof. intros He s Hs; split; [exact Hs | repeat constructor; exact He]. Qed.

Lemma respects_modify (f : state -> state) :
  (forall s, I s -> I (f s)) -> respects I E (modify f).
Proof. intros Hf s Hs; split; [apply Hf, Hs | constructor]. Qed.

Lemma respects_lift {A} (c : C A) :
  quiet c -> (forall e, config_event e = true -> E e) -> respects I E (lift c).
Proof.
  intros Hq HE s Hs. split; [exact Hs|].
  unfold lift, events; cbn [snd].
  eapply List.Forall_impl; [|exact Hq]. exact HE.
Qed.

Lemma respects_bind {A B} (m : M A) (f : A -> M B) :
  respects I E m -> (forall a, respects I E (f a)) -> respects I E (bind m f).
Proof.
  intros Hm Hf s Hs. unfold bind.
  destruct (Hm s Hs) as [H1 H2].
  destruct (m s) as [[[a|e] s1] t1]; cbn in *.
  - destruct (Hf a s1 H1) as [H3 H4].
    destruct (f a s1) as [[r s2] t2]; cbn in *.
    split; [exact H3 | apply Forall_app; split; assumption].
  - split; assumption.
Qed.

Lemma respects_try {A} (m : M A) (h : exn -> option (M A)) :
  respects I E m ->
  (forall e, match h e with Some k => respects I E k | None => True end) ->
  respects I E (try_except m h).
Proof.
  intros Hm Hh s Hs. unfold try_except.
  destruct (Hm s Hs) as [H1 H2].
  destruct (m s) as [[[a|e] s1] t1]; cbn in *.
  - split; assumption.
  - specialize (Hh e). destruct (h e) as [k|]; cbn.
    + destruct (Hh s1 H1) as [H3 H4].
      destruct (k s1) as [[r s2] t2]; cbn in *.
      split; [exact H3 | apply Forall_app; split; assumption].
    + split; assumption.
Qed.

Lemma respects_when (b : bool) (m : M unit) :
  respects I E m -> respects I E (when b m).
Proof. intros Hm; destruct b; [exact Hm | apply respects_ret]. Qed.

End Respects.

(** Breaks a [respects] goal down along the structure of the call. *)
Ltac respects_split :=
  repeat match goal with
    | |- respects _ _ (ret _) => apply respects_ret
    | |- respects _ _ (raise _) => apply respects_raise
    | |- respects _ _ (get _) => apply respects_get
    | |- respects _ _ (when _ _) => apply respects_when
    | |- respects _ _ (lift _) => apply respects_lift; [auto with quiet | ]
    | |- respects _ _ (bind _ _) => apply respects_bind; [ | intros ? ]
    | |- respects _ _ (try_except _ _) =>
        apply respects_try;
        [ | let e := fresh "e" in
            intros e; destruct e; cbv beta iota; try exact Logic.I ]
    | |- respects _ _ (if ?b then _ else _) => destruct b
    | |- respects _ _ (match ?x with _ => _ end) => destruct x
    end.

Lemma config_is_transfer_event (e : event) :
  config_event e = true -> transfer_event e = true.
Proof.
  destruct e; try discriminate. cbn. intros ->. apply orb_true_r.
Qed.

Lemma config_is_handler_event (e : event) :
  config_event e = true -> handler_event e = true.
Proof.
  destruct e; try discriminate. cbn. intros ->. apply orb_true_r.
Qed.

Section TransferFacts.

Context (w : world) (cfg : Config.settings) (type_to_dir : gmap string string).

(** [transfer_file] touches only the working directory and the count of
    child processes, and produces only events of its own. *)
Lemma transfer_file_respects (I : state -> Prop) (E : event -> Prop)
    (target hash_ typecode : string) :
  (forall d s, I s -> I (set_cwd d s)) ->
  (forall s, I s -> I (incr_spawned s)) ->
  (forall e, transfer_event e = true -> E e) ->
  respects I E (Transfer.transfer_file w cfg type_to_dir target hash_ typecode).
Proof.
  intros Hcwd Hspawn HE.
  assert (HC : forall e, config_event e = true -> E e)
    by (intros e He; apply HE, config_is_transfer_event, He).
  unfold Transfer.transfer_file, Transfer.transfer_to, Transfer.transfer_here,
    Transfer.attempt, Transfer.run_mirror, Transfer.pget_fallback,
    Transfer.run_pget, Transfer.finish, Transfer.isdir,
    Transfer.chdir, Transfer.which, Transfer.run_checked, Transfer.chmod,
    Transfer.log.
  respects_split;
    solve [ apply respects_emit, HE; reflexivity
          | apply respects_modify; auto
          | exact HC ].
Qed.

End TransferFacts.

(** Unfolds the monad under a call whose oracles' answers are known. *)
Ltac run_monad :=
  cbv beta iota zeta delta
    [bind try_except ret raise emit get modify when prepend outcome final
     events fst snd app negb Transfer.log MQTT.log].

Section Resolution.

Context (w : world) (cfg : Config.settings) (type_to_dir : gmap string string).

(** Once lines 33-47 have bound [dest_dir], the call goes on with it. *)
Lemma transfer_file_resolved (target hash_ typecode d : string) (s : state) :
  destination type_to_dir typecode = Some d ->
  Transfer.transfer_file w cfg type_to_dir target hash_ typecode s =
  prepend (resolution_log type_to_dir typecode)
          (Transfer.transfer_to w cfg target typecode d s).
Proof.
  unfold destination, resolution_log, Transfer.transfer_file.
  destruct (type_to_dir !! typecode) as [[|c r]|]; cbn [opt_truthy str_truthy];
    intros Hd; try rewrite Hd; try (injection Hd as <-);
    run_monad;
    destruct (Transfer.transfer_to w cfg target typecode _ s) as [[r0 s0] t0];
    reflexivity.
Qed.

(** When they bind nothing, the call returns [False] at line 47. *)
Lemma transfer_file_unresolved (target hash_ typecode : string) (s : state) :
  destination type_to_dir typecode = None ->
  Transfer.transfer_file w cfg type_to_dir target hash_ typecode s =
  (Ret false, s,
   [ Log "Transfer" DEBUG "Starting transfer - target: %s, hash: %s, typecode: %s";
     Log "Transfer" DEBUG "Type mapping lookup - typecode: %s -> dest_dir: %s";
     Log "Transfer" ERROR "Unknown typecode: %s and no ERR fallback available. Available types: %s" ]).
Proof.
  unfold destination, Transfer.transfer_file.
  destruct (type_to_dir !! typecode) as [[|c r]|]; cbn [opt_truthy str_truthy];
    intros Hd; try discriminate Hd; rewrite Hd; reflexivity.
Qed.

End Resolution.

#[local] Arguments Transfer.mirror_cmd : simpl never.
#[local] Arguments Transfer.pget_cmd : simpl never.
#[local] Arguments Config.threads : simpl never.
#[local] Arguments Config.segments : simpl never.
#[local] Arguments Config.labelling : simpl never.
#[local] Arguments Config.bus_host : simpl never.
#[local] Arguments Config.bus_port : simpl never.
#[local] Arguments Config.user : simpl never.
#[local] Arguments basename : simpl never.
#[local] Arguments path_join : simpl never.
#[local] Arguments Transfer.transfer_to : simpl never.
#[local] Arguments Transfer.transfer_here : simpl never.
#[local] Arguments Transfer.attempt : simpl never.
#[local] Arguments Transfer.run_mirror : simpl never.
#[local] Arguments Transfer.pget_fallback : simpl never.
#[local] Arguments Transfer.run_pget : simpl never.
#[local] Arguments Transfer.finish : simpl never.
#[local] Arguments Transfer.transfer_file : simpl never.

Section Stages.

Context (w : world) (cfg : Config.settings).

(** The directory exists and the process can enter it: the call goes on in
    it. *)
Lemma transfer_to_changed (target typecode d : string) (s : state) :
  os_path_isdir w (cwd s) d = true ->
  os_chdir w (cwd s) d = true ->
  Transfer.transfer_to w cfg target typecode d s =
  prepend
    [ Log "Transfer" DEBUG "Checking if destination directory exists: %s";
      IsDir d;
      Log "Transfer" DEBUG "Current working directory: %s";
      Chdir d;
      Log "Transfer" DEBUG "Changed to destination directory: %s" ]
    (Transfer.transfer_here w cfg target d (set_cwd (path_join (cwd s) d) s)).
Proof.
  intros Hdir Hch.
  unfold Transfer.transfer_to, Transfer.isdir, Transfer.chdir, Transfer.log,
    bind, try_except, ret, raise, emit, get, modify, prepend, outcome, final,
    events.
  cbn. rewrite Hdir. cbn. rewrite Hch. cbn.
  match goal with
  | |- context [Transfer.transfer_here w cfg target d ?s1] =>
      destruct (Transfer.transfer_here w cfg target d s1) as [[r0 s0] t0]
  end.
  reflexivity.
Qed.

(** [lftp] is on the path: the mirror is tried and the call finishes. *)
Lemma transfer_here_found (target d : string) (s : state) :
  opt_truthy (shutil_which w "lftp") = true ->
  Transfer.transfer_here w cfg target d s =
  prepend
    [ Which "lftp"; Log "Transfer" DEBUG "LFTP path: %s" ]
    (bind (Transfer.attempt w cfg target) (Transfer.finish w target d) s).
Proof.
  intros Hw.
  unfold Transfer.transfer_here, Transfer.which, Transfer.log.
  unfold bind at 1 2 3. unfold emit, ret, prepend, outcome, final, events.
  cbn. rewrite Hw. cbn.
  match goal with
  | |- context [bind ?m ?f s] => destruct (bind m f s) as [[r0 s0] t0]
  end.
  reflexivity.
Qed.

End Stages.

Section Preconditions.

Context (w : world) (cfg : Config.settings).

(** The destination is not a directory: the call ends at line 53. *)
Lemma transfer_to_missing (target typecode d : string) (s : state) :
  os_path_isdir w (cwd s) d = false ->
  Transfer.transfer_to w cfg target typecode d s =
  (Ret false, s,
   [ Log "Transfer" DEBUG "Checking if destination directory exists: %s";
     IsDir d;
     Log "Transfer" ERROR "Destination directory does not exist: %s (typecode: %s)" ]).
Proof.
  intros Hdir.
  unfold Transfer.transfer_to, Transfer.isdir, Transfer.log,
    bind, ret, emit, get.
  cbn. rewrite Hdir. reflexivity.
Qed.

(** The destination cannot be entered: the call ends at line 61. *)
Lemma transfer_to_unentered (target typecode d : string) (s : state) :
  os_path_isdir w (cwd s) d = true ->
  os_chdir w (cwd s) d = false ->
  Transfer.transfer_to w cfg target typecode d s =
  (Ret false, s,
   [ Log "Transfer" DEBUG "Checking if destination directory exists: %s";
     IsDir d;
     Log "Transfer" DEBUG "Current working directory: %s";
     Chdir d;
     Log "Transfer" ERROR "Failed to change directory to %s: %s" ]).
Proof.
  intros Hdir Hch.
  unfold Transfer.transfer_to, Transfer.isdir, Transfer.chdir, Transfer.log,
    bind, try_except, ret, raise, emit, get, modify.
  cbn. rewrite Hdir. cbn. rewrite Hch. reflexivity.
Qed.

(** [lftp] is not found: the call ends at line 68. *)
Lemma transfer_here_no_lftp (target d : string) (s : state) :
  opt_truthy (shutil_which w "lftp") = false ->
  Transfer.transfer_here w cfg target d s =
  (Ret false, s,
   [ Which "lftp";
     Log "Transfer" DEBUG "LFTP path: %s";
     Log "Transfer" ERROR "lftp is not installed or not in PATH. Cannot perform transfer." ]).
Proof.
  intros Hw.
  unfold Transfer.transfer_here, Transfer.which, Transfer.log,
    bind, ret, emit.
  cbn. rewrite Hw. reflexivity.
Qed.

End Preconditions.

(** ** From the call to the transfer attempt *)

Lemma prepend_prepend {A} (a b : list event) (x : result A * state * list event) :
  prepend a (prepend b x) = prepend (a ++ b)%list x.
Proof. unfold prepend, outcome, final, events; cbn. now rewrite <- app_assoc. Qed.

Lemma outcome_prepend {A} (t : list event) (x : result A * state * list event) :
  outcome (prepend t x) = outcome x.
Proof. reflexivity. Qed.

Lemma final_prepend {A} (t : list event) (x : result A * state * list event) :
  final (prepend t x) = final x.
Proof. reflexivity. Qed.

Lemma events_prepend {A} (t : list event) (x : result A * state * list event) :
  events (prepend t x) = (t ++ events x)%list.
Proof. reflexivity. Qed.

Lemma bind_eq {A B} (c : M A) (f : A -> M B) (s : state) :
  bind c f s =
  match c s with
  | (Ret a, s1, t1) => prepend t1 (f a s1)
  | (Raise e, s1, t1) => (Raise e, s1, t1)
  end.
Proof.
  unfold bind, prepend, outcome, final, events.
  destruct (c s) as [[[a|e] s1] t1]; [|reflexivity].
  destruct (f a s1) as [[r s2] t2]. reflexivity.
Qed.

Lemma requests_app (a b : list event) :
  requests (a ++ b) = (requests a ++ requests b)%list.
Proof. apply List.filter_app. Qed.

Lemma requests_resolution_log (m : gmap string string) (t : string) :
  requests (resolution_log m t) = [].
Proof. unfold resolution_log. now destruct (opt_truthy (m !! t)). Qed.

Lemma requests_entering_log (d : string) :
  requests (entering_log d) = [IsDir d; Chdir d; Which "lftp"].
Proof. reflexivity. Qed.

Lemma filter_run_requests (t : list event) :
  List.filter is_run (requests t) = List.filter is_run t.
Proof.
  induction t as [|e t IH]; [reflexivity|].
  unfold requests in *. destruct e; cbn; rewrite ?IH; reflexivity.
Qed.

Lemma filter_chdir_requests (t : list event) :
  List.filter is_chdir (requests t) = List.filter is_chdir t.
Proof.
  induction t as [|e t IH]; [reflexivity|].
  unfold requests in *. destruct e; cbn; rewrite ?IH; reflexivity.
Qed.

Lemma filter_publish_requests (t : list event) :
  List.filter is_publish (requests t) = List.filter is_publish t.
Proof.
  induction t as [|e t IH]; [reflexivity|].
  unfold requests in *. destruct e; cbn; rewrite ?IH; reflexivity.
Qed.

Lemma filter_run_resolution_log (m : gmap string string) (t : string) :
  List.filter is_run (resolution_log m t) = [].
Proof. unfold resolution_log. now destruct (opt_truthy (m !! t)). Qed.

Lemma filter_chdir_resolution_log (m : gmap string string) (t : string) :
  List.filter is_chdir (resolution_log m t) = [].
Proof. unfold resolution_log. now destruct (opt_truthy (m !! t)). Qed.

(** With the directory bound, present and entered, and [lftp] found, the
    call comes to the mirror attempt in the destination directory. *)
Lemma transfer_file_reaches_attempt
    (w : world) (cfg : Config.settings) (m : gmap string string)
    (target hash_ typecode d : string) (s : state) :
  destination m typecode = Some d ->
  os_path_isdir w (cwd s) d = true ->
  os_chdir w (cwd s) d = true ->
  opt_truthy (shutil_which w "lftp") = true ->
  Transfer.transfer_file w cfg m target hash_ typecode s =
  prepend (resolution_log m typecode ++ entering_log d)%list
    (bind (Transfer.attempt w cfg target) (Transfer.finish w target d)
          (set_cwd (path_join (cwd s) d) s)).
Proof.
  intros Hd Hdir Hch Hw.
  rewrite (transfer_file_resolved w cfg m target hash_ typecode d s Hd).
  rewrite (transfer_to_changed w cfg target typecode d s Hdir Hch).
  rewrite (transfer_here_found w cfg target d _ Hw).
  rewrite !prepend_prepend, <- app_assoc. reflexivity.
Qed.

Section Attempt.

Context (w : world) (cfg : Config.settings) (target : string).

(** A read that returns: its log records, then what follows. *)
Lemma bind_lift_ret {A B} (c : C A) (a : A) (f : A -> M B) (s : state) :
  coutcome c = Ret a ->
  bind (lift c) f s = prepend (clogs c) (f a s).
Proof.
  intros H. rewrite bind_eq. unfold lift. rewrite H. reflexivity.
Qed.

(** A read that raises ends the call. *)
Lemma bind_lift_raise {A B} (c : C A) (e : exn) (f : A -> M B) (s : state) :
  coutcome c = Raise e ->
  bind (lift c) f s = (Raise e, s, clogs c).
Proof.
  intros H. rewrite bind_eq. unfold lift. rewrite H. reflexivity.
Qed.

Lemma bind_log {B} (lv : level) (fmt : string) (f : unit -> M B) (s : state) :
  bind (Transfer.log lv fmt) f s = prepend [Log "Transfer" lv fmt] (f tt s).
Proof. rewrite bind_eq. reflexivity. Qed.

(** The mirror command cannot be built: the call raises what the read of
    the configuration raises, before any child process. *)
Lemma attempt_unbuilt (e : exn) (s : state) :
  coutcome (Transfer.mirror_cmd cfg target) = Raise e ->
  Transfer.attempt w cfg target s =
  (Raise e, s, clogs (Transfer.mirror_cmd cfg target)).
Proof.
  intros H. unfold Transfer.attempt. apply bind_lift_raise, H.
Qed.

(** The mirror command is built: after log records only, the call comes to
    the mirror. *)
Lemma attempt_built (mirror : list string) (s : state) :
  coutcome (Transfer.mirror_cmd cfg target) = Ret mirror ->
  exists t,
    requests t = [] /\
    Transfer.attempt w cfg target s =
    prepend t (Transfer.run_mirror w cfg mirror target s).
Proof.
  intros H.
  destruct (mirror_cmd_built cfg target mirror H)
    as (c & h & n & g & _ & _ & Hn & Hg).
  unfold Transfer.attempt.
  rewrite (bind_lift_ret _ mirror _ _ H), bind_log,
    (bind_lift_ret _ n _ _ Hn), (bind_lift_ret _ g _ _ Hg), bind_log.
  rewrite !prepend_prepend.
  eexists. split; [|reflexivity].
  rewrite !requests_app, !quiet_requests by auto with quiet. reflexivity.
Qed.

(** The pget command is built: after log records only, the fallback comes
    to the pget. *)
Lemma pget_fallback_built (pget : list string) (s : state) :
  coutcome (Transfer.pget_cmd cfg target) = Ret pget ->
  exists t,
    requests t = [] /\
    Transfer.pget_fallback w cfg target s =
    prepend t (Transfer.run_pget w pget s).
Proof.
  intros H.
  assert (Hn : exists n, coutcome (Config.threads cfg) = Ret n).
  { revert H. unfold Transfer.pget_cmd. rewrite coutcome_cbind.
    destruct (coutcome (Config.creds cfg)); [|discriminate].
    rewrite coutcome_cbind.
    destruct (coutcome (Config.host cfg)); [|discriminate].
    rewrite coutcome_cbind.
    destruct (coutcome (Config.threads cfg)) as [n|]; [|discriminate]. eauto. }
  destruct Hn as [n Hn].
  unfold Transfer.pget_fallback.
  rewrite !bind_log, (bind_lift_ret _ pget _ _ H), bind_log,
    (bind_lift_ret _ n _ _ Hn), bind_log.
  rewrite !prepend_prepend.
  eexists. split; [|reflexivity].
  rewrite !requests_app, !quiet_requests by auto with quiet. reflexivity.
Qed.

(** The pget attempt, by what [subprocess.run] does. *)
Lemma run_pget_result (pget : list string) (s : state) :
  outcome (Transfer.run_pget w pget s) =
    match subprocess_run w (spawned s) (cwd s) pget with
    | Exited rc _ _ => Ret (Z.eqb rc 0)
    | Undecodable _ => Raise UnicodeDecodeError
    | SpawnError => Raise OSError
    | BadArgument => Raise ValueError
    end /\
  final (Transfer.run_pget w pget s) = incr_spawned s /\
  requests (events (Transfer.run_pget w pget s)) = [Run pget].
Proof.
  unfold Transfer.run_pget, Transfer.run_checked, Transfer.log,
    bind, try_except, ret, raise, emit, get, modify, when,
    outcome, final, events, requests.
  cbn.
  destruct (subprocess_run w (spawned s) (cwd s) pget) as [rc out err|rc| |];
    cbn; try (repeat split; fail).
  destruct rc as [|p|p]; cbn;
    try (destruct (str_truthy out), (str_truthy err); cbn; repeat split; fail);
    repeat split.
Qed.

(** The mirror attempt, by what [subprocess.run] does: the mirror alone
    when it exits with status 0 or when the call raises, the fallback after
    any other exit status. *)
Lemma run_mirror_result (mirror : list string) (s : state) :
  match subprocess_run w (spawned s) (cwd s) mirror with
  | Exited rc out err =>
      if Z.eqb rc 0 then
        outcome (Transfer.run_mirror w cfg mirror target s) = Ret true /\
        final (Transfer.run_mirror w cfg mirror target s) = incr_spawned s /\
        requests (events (Transfer.run_mirror w cfg mirror target s)) = [Run mirror]
      else
        exists t,
          requests t = [Run mirror] /\
          Transfer.run_mirror w cfg mirror target s =
          prepend t (Transfer.pget_fallback w cfg target (incr_spawned s))
  | o =>
      exists e,
        escapes o = Some e /\
        outcome (Transfer.run_mirror w cfg mirror target s) = Raise e /\
        final (Transfer.run_mirror w cfg mirror target s) = incr_spawned s /\
        requests (events (Transfer.run_mirror w cfg mirror target s)) = [Run mirror]
  end.
Proof.
  unfold Transfer.run_mirror, Transfer.run_checked, Transfer.log,
    bind, try_except, ret, raise, emit, get, modify, when,
    outcome, final, events, requests, prepend.
  cbn.
  destruct (subprocess_run w (spawned s) (cwd s) mirror) as [rc out err|rc| |];
    cbn; try (eexists; repeat split; fail).
  destruct rc as [|p|p]; cbn;
    try (destruct (str_truthy out), (str_truthy err); cbn; repeat split; fail);
    destruct (Transfer.pget_fallback w cfg target (incr_spawned s)) as [[r1 s1] t1];
    cbn; exists [Run mirror]; split; reflexivity.
Qed.

End Attempt.

(** The ways through lines 70-120: the mirror command cannot be built; the
    mirror exits with status 0; [subprocess.run] raises for the mirror; or
    the mirror exits with another status and the pget exits, or
    [subprocess.run] raises for the pget. *)
Lemma attempt_paths (w : world) (cfg : Config.settings) (target : string) (s : state) :
  (exists e,
     coutcome (Transfer.mirror_cmd cfg target) = Raise e /\
     outcome (Transfer.attempt w cfg target s) = Raise e /\
     final (Transfer.attempt w cfg target s) = s /\
     requests (events (Transfer.attempt w cfg target s)) = []) \/
  (exists mirror pget,
     coutcome (Transfer.mirror_cmd cfg target) = Ret mirror /\
     coutcome (Transfer.pget_cmd cfg target) = Ret pget /\
     ((exists out err,
         subprocess_run w (spawned s) (cwd s) mirror = Exited 0 out err /\
         outcome (Transfer.attempt w cfg target s) = Ret true /\
         final (Transfer.attempt w cfg target s) = incr_spawned s /\
         requests (events (Transfer.attempt w cfg target s)) = [Run mirror]) \/
      (exists e,
         escapes (subprocess_run w (spawned s) (cwd s) mirror) = Some e /\
         outcome (Transfer.attempt w cfg target s) = Raise e /\
         final (Transfer.attempt w cfg target s) = incr_spawned s /\
         requests (events (Transfer.attempt w cfg target s)) = [Run mirror]) \/
      (exists rc out err,
         subprocess_run w (spawned s) (cwd s) mirror = Exited rc out err /\
         rc <> 0 /\
         ((exists rc' out' err',
             subprocess_run w (S (spawned s)) (cwd s) pget = Exited rc' out' err' /\
             outcome (Transfer.attempt w cfg target s) = Ret (Z.eqb rc' 0) /\
             final (Transfer.attempt w cfg target s) = incr_spawned (incr_spawned s) /\
             requests (events (Transfer.attempt w cfg target s)) =
               [Run mirror; Run pget]) \/
          (exists e,
             escapes (subprocess_run w (S (spawned s)) (cwd s) pget) = Some e /\
             outcome (Transfer.attempt w cfg target s) = Raise e /\
             final (Transfer.attempt w cfg target s) = incr_spawned (incr_spawned s) /\
             requests (events (Transfer.attempt w cfg target s)) =
               [Run mirror; Run pget]))))).
Proof.
  destruct (coutcome (Transfer.mirror_cmd cfg target)) as [mirror|e] eqn:Hm.
  2:{ left. exists e. rewrite (attempt_unbuilt w cfg target e s Hm).
      unfold outcome, final, events; cbn [fst snd].
      rewrite quiet_requests by auto with quiet. auto. }
  right.
  destruct (pget_cmd_built cfg target mirror Hm) as [pget Hp].
  exists mirror, pget. split; [reflexivity|split; [exact Hp|]].
  destruct (attempt_built w cfg target mirror s Hm) as (t & Ht & ->).
  rewrite outcome_prepend, final_prepend, events_prepend, requests_app, Ht.
  cbn [app].
  pose proof (run_mirror_result w cfg target mirror s) as R.
  destruct (subprocess_run w (spawned s) (cwd s) mirror) as [rc out err|rc| |] eqn:Em.
  - destruct (Z.eqb_spec rc 0) as [->|Hrc].
    + left. exists out, err. split; [reflexivity|exact R].
    + right; right. exists rc, out, err. split; [reflexivity|split; [exact Hrc|]].
      destruct R as (t1 & Ht1 & ->).
      destruct (pget_fallback_built w cfg target pget (incr_spawned s) Hp)
        as (t2 & Ht2 & ->).
      rewrite !outcome_prepend, !final_prepend, !events_prepend, !requests_app,
        Ht1, Ht2.
      cbn [app].
      destruct (run_pget_result w pget (incr_spawned s)) as (Ho & Hf & Hr).
      rewrite Ho, Hf, Hr.
      change (spawned (incr_spawned s)) with (S (spawned s)).
      change (cwd (incr_spawned s)) with (cwd s).
      destruct (subprocess_run w (S (spawned s)) (cwd s) pget)
        as [rc' out' err'|rc'| |].
      * left. exists rc', out', err'. auto.
      * right. exists UnicodeDecodeError. auto.
      * right. exists OSError. auto.
      * right. exists ValueError. auto.
  - right; left. exact R.
  - right; left. exact R.
  - right; left. exact R.
Qed.

(** Lines 122-138 return the value of [transferred] whatever [os.chmod]
    does, and ask for the permission once. *)
Lemma finish_outcome (w : world) (target d : string) (b : bool) (s : state) :
  outcome (Transfer.finish w target d b s) = Ret b /\
  final (Transfer.finish w target d b s) = s /\
  requests (events (Transfer.finish w target d b s)) =
  [Chmod (basename target) 438].
Proof.
  unfold Transfer.finish, Transfer.chmod, Transfer.log,
    bind, try_except, ret, raise, emit, get, outcome, final, events.
  cbn. destruct (os_chmod w (cwd s) (basename target) 438), b; cbn;
    repeat split.
Qed.

(** The attempt and lines 122-138 together, by the outcome of the
    attempt. *)
Lemma core_cases (w : world) (cfg : Config.settings) (target d : string) (s : state) :
  (exists b s1 t1,
     Transfer.attempt w cfg target s = (Ret b, s1, t1) /\
     outcome (bind (Transfer.attempt w cfg target) (Transfer.finish w target d) s) = Ret b /\
     final (bind (Transfer.attempt w cfg target) (Transfer.finish w target d) s) = s1 /\
     requests (events (bind (Transfer.attempt w cfg target)
                            (Transfer.finish w target d) s)) =
     (requests t1 ++ [Chmod (basename target) 438])%list) \/
  (exists e s1 t1,
     Transfer.attempt w cfg target s = (Raise e, s1, t1) /\
     bind (Transfer.attempt w cfg target) (Transfer.finish w target d) s =
     (Raise e, s1, t1)).
Proof.
  rewrite bind_eq.
  destruct (Transfer.attempt w cfg target s) as [[[b|e] s1] t1].
  - left. exists b, s1, t1. split; [reflexivity|].
    destruct (finish_outcome w target d b s1) as (Ho & Hf & Hr).
    rewrite outcome_prepend, final_prepend, events_prepend, requests_app, Hr.
    auto.
  - right. exists e, s1, t1. auto.
Qed.

(** What is observed of the attempt followed by lines 122-138: the outcome
    and the state of the attempt, and its requests followed by one [chmod]
    when it returns. *)
Lemma core_observed (w : world) (cfg : Config.settings) (target d : string) (s : state) :
  outcome (bind (Transfer.attempt w cfg target) (Transfer.finish w target d) s) =
    outcome (Transfer.attempt w cfg target s) /\
  final (bind (Transfer.attempt w cfg target) (Transfer.finish w target d) s) =
    final (Transfer.attempt w cfg target s) /\
  requests (events (bind (Transfer.attempt w cfg target)
                         (Transfer.finish w target d) s)) =
    (requests (events (Transfer.attempt w cfg target s)) ++
     match outcome (Transfer.attempt w cfg target s) with
     | Ret _ => [Chmod (basename target) 438]
     | Raise _ => []
     end)%list.
Proof.
  destruct (core_cases w cfg target d s)
    as [(b & s1 & t1 & Ea & Ho & Hf & Hr)|(e & s1 & t1 & Ea & Hc)].
  - rewrite Ho, Hf, Hr, Ea. repeat split.
  - rewrite Hc, Ea. unfold outcome, final, events; cbn [fst snd].
    rewrite app_nil_r. repeat split.
Qed.

(** Takes apart the cases of a lemma on the ways through a call. *)
Ltac open_cases :=
  repeat match goal with
         | H : _ \/ _ |- _ => destruct H
         | H : exists _, _ |- _ => destruct H
         | H : _ /\ _ |- _ => destruct H
         end.

(** The five ways through [transfer_file] up to the transfer attempt: no
    destination, no directory, no entry, no [lftp], or the attempt followed
    by lines 122-138. *)
Lemma transfer_file_cases
    (w : world) (cfg : Config.settings) (m : gmap string string)
    (target hash_ typecode : string) (s : state) :
  (destination m typecode = None /\
   outcome (Transfer.transfer_file w cfg m target hash_ typecode s) = Ret false /\
   final (Transfer.transfer_file w cfg m target hash_ typecode s) = s /\
   requests (events (Transfer.transfer_file w cfg m target hash_ typecode s)) = []) \/
  (exists d, destination m typecode = Some d /\
   os_path_isdir w (cwd s) d = false /\
   outcome (Transfer.transfer_file w cfg m target hash_ typecode s) = Ret false /\
   final (Transfer.transfer_file w cfg m target hash_ typecode s) = s /\
   requests (events (Transfer.transfer_file w cfg m target hash_ typecode s)) =
     [IsDir d]) \/
  (exists d, destination m typecode = Some d /\
   os_path_isdir w (cwd s) d = true /\ os_chdir w (cwd s) d = false /\
   outcome (Transfer.transfer_file w cfg m target hash_ typecode s) = Ret false /\
   final (Transfer.transfer_file w cfg m target hash_ typecode s) = s /\
   requests (events (Transfer.transfer_file w cfg m target hash_ typecode s)) =
     [IsDir d; Chdir d]) \/
  (exists d, destination m typecode = Some d /\
   os_path_isdir w (cwd s) d = true /\ os_chdir w (cwd s) d = true /\
   opt_truthy (shutil_which w "lftp") = false /\
   outcome (Transfer.transfer_file w cfg m target hash_ typecode s) = Ret false /\
   final (Transfer.transfer_file w cfg m target hash_ typecode s) =
     set_cwd (path_join (cwd s) d) s /\
   requests (events (Transfer.transfer_file w cfg m target hash_ typecode s)) =
     [IsDir d; Chdir d; Which "lftp"]) \/
  (exists d, destination m typecode = Some d /\
   os_path_isdir w (cwd s) d = true /\ os_chdir w (cwd s) d = true /\
   opt_truthy (shutil_which w "lftp") = true /\
   Transfer.transfer_file w cfg m target hash_ typecode s =
   prepend (resolution_log m typecode ++ entering_log d)%list
     (bind (Transfer.attempt w cfg target) (Transfer.finish w target d)
           (set_cwd (path_join (cwd s) d) s))).
Proof.
  destruct (destination m typecode) as [d|] eqn:Hd.
  2:{ left. rewrite (transfer_file_unresolved w cfg m target hash_ typecode s Hd).
      repeat split; assumption. }
  right.
  destruct (os_path_isdir w (cwd s) d) eqn:Hdir.
  2:{ left. exists d.
      rewrite (transfer_file_resolved w cfg m target hash_ typecode d s Hd).
      rewrite (transfer_to_missing w cfg target typecode d s Hdir).
      unfold prepend, outcome, final, events. cbn [fst snd].
      rewrite requests_app, requests_resolution_log. repeat split; assumption. }
  right.
  destruct (os_chdir w (cwd s) d) eqn:Hch.
  2:{ left. exists d.
      rewrite (transfer_file_resolved w cfg m target hash_ typecode d s Hd).
      rewrite (transfer_to_unentered w cfg target typecode d s Hdir Hch).
      unfold prepend, outcome, final, events. cbn [fst snd].
      rewrite requests_app, requests_resolution_log. repeat split; assumption. }
  right.
  destruct (opt_truthy (shutil_which w "lftp")) eqn:Hw.
  - right. exists d. repeat (split; [first [reflexivity | assumption]|]).
    apply transfer_file_reaches_attempt; assumption.
  - left. exists d.
    rewrite (transfer_file_resolved w cfg m target hash_ typecode d s Hd).
    rewrite (transfer_to_changed w cfg target typecode d s Hdir Hch).
    rewrite (transfer_here_no_lftp w cfg target d _ Hw).
    unfold prepend, outcome, final, events. cbn [fst snd].
    rewrite !requests_app, requests_resolution_log. repeat split; assumption.
Qed.

(** From the search for [lftp] on, the working directory stays and no
    directory is entered. *)
Lemma transfer_here_respects (w : world) (cfg : Config.settings) (target d : string)
    (I : state -> Prop) (E : event -> Prop) :
  (forall s, I s -> I (incr_spawned s)) ->
  (forall e, transfer_event e = true -> is_chdir e = false -> E e) ->
  respects I E (Transfer.transfer_here w cfg target d).
Proof.
  intros Hspawn HE.
  assert (HC : forall e, config_event e = true -> E e).
  { intros e He. apply HE; [apply config_is_transfer_event, He|].
    destruct e; try discriminate He; reflexivity. }
  unfold Transfer.transfer_here, Transfer.attempt, Transfer.run_mirror,
    Transfer.pget_fallback, Transfer.run_pget,
    Transfer.finish, Transfer.which, Transfer.run_checked, Transfer.chmod,
    Transfer.log.
  respects_split;
    solve [ apply respects_emit, HE; reflexivity
          | apply respects_modify; auto
          | exact HC ].
Qed.

Lemma filter_none {A} (p : A -> bool) (l : list A) :
  Forall (fun x => p x = false) l -> List.filter p l = [].
Proof.
  induction 1 as [|x l Hx _ IH]; cbn; [reflexivity|]. now rewrite Hx.
Qed.

Lemma path_join_absolute (a r : string) :
  path_join a (String SLASH r) = String SLASH r.
Proof. reflexivity. Qed.

(** ** The transfer executor *)

(** C7.  A type code that the map does not have, in a map without ["ERR"]:
    [transfer_file] returns [False], changes nothing and produces log
    records only, so no child process is started. *)
Theorem transfer_file_unknown_type_fails
    (w : world) (cfg : Config.settings) (m : gmap string string)
    (target hash_ typecode : string) (s : state) :
  m !! typecode = None ->
  m !! "ERR" = None ->
  outcome (Transfer.transfer_file w cfg m target hash_ typecode s) = Ret false /\
  final (Transfer.transfer_file w cfg m target hash_ typecode s) = s /\
  List.filter is_run
    (events (Transfer.transfer_file w cfg m target hash_ typecode s)) = [] /\
  forall e, In e (events (Transfer.transfer_file w cfg m target hash_ typecode s)) ->
            exists lv fmt, e = Log "Transfer" lv fmt.
Proof.
  intros Ht Herr.
  rewrite transfer_file_unresolved
    by (unfold destination; rewrite Ht; cbn; exact Herr).
  repeat split.
  intros e He; cbn in He.
  destruct He as [<-|[<-|[<-|[]]]]; eauto.
Qed.

Lemma transfer_file_unknown_type_fails_witness :
  outcome (Transfer.transfer_file Sample.world_pget Sample.cfg Sample.types_no_err
             "show.mkv" "hash9" "TV" Sample.online) = Ret false.
Proof.
  exact (proj1 (transfer_file_unknown_type_fails Sample.world_pget Sample.cfg
                  Sample.types_no_err "show.mkv" "hash9" "TV" Sample.online
                  eq_refl eq_refl)).
Defined.

(** C6.  A type code that the map does not have, in a map with ["ERR"]:
    the destination is the directory of ["ERR"], and [transfer_file] goes on
    to that directory instead of returning at the lookup. *)
Theorem transfer_file_err_fallback
    (w : world) (cfg : Config.settings) (m : gmap string string)
    (target hash_ typecode d : string) (s : state) :
  m !! typecode = None ->
  m !! "ERR" = Some d ->
  destination m typecode = Some d /\
  Transfer.transfer_file w cfg m target hash_ typecode s =
  prepend
    [ Log "Transfer" DEBUG "Starting transfer - target: %s, hash: %s, typecode: %s";
      Log "Transfer" DEBUG "Type mapping lookup - typecode: %s -> dest_dir: %s";
      Log "Transfer" WARNING "Unknown typecode: %s. Falling back to ERR: %s";
      Log "Transfer" DEBUG "Using ERR fallback directory: %s" ]
    (Transfer.transfer_to w cfg target typecode d s).
Proof.
  intros Ht Herr.
  assert (Hd : destination m typecode = Some d)
    by (unfold destination; rewrite Ht; cbn; exact Herr).
  split; [exact Hd|].
  rewrite (transfer_file_resolved w cfg m target hash_ typecode d s Hd).
  unfold resolution_log. rewrite Ht. reflexivity.
Qed.

Lemma transfer_file_err_fallback_witness :
  destination Sample.types "TV" = Some "/d/err".
Proof.
  exact (proj1 (transfer_file_err_fallback Sample.world_pget Sample.cfg
                  Sample.types "show.mkv" "hash9" "TV" "/d/err" Sample.online
                  eq_refl eq_refl)).
Defined.

(** C9.  A type code that the map sends to the empty string is looked up
    like one the map does not have: with ["ERR"] in the map the call goes on
    to the directory of ["ERR"], without it the call returns [False] with
    log records only; and the call is the same as with any map that lacks
    the type code and agrees on ["ERR"]. *)
Theorem transfer_file_empty_entry_as_absent
    (w : world) (cfg : Config.settings) (m : gmap string string)
    (target hash_ typecode : string) (s : state) :
  m !! typecode = Some "" ->
  (forall d, m !! "ERR" = Some d ->
     Transfer.transfer_file w cfg m target hash_ typecode s =
     prepend
       [ Log "Transfer" DEBUG "Starting transfer - target: %s, hash: %s, typecode: %s";
         Log "Transfer" DEBUG "Type mapping lookup - typecode: %s -> dest_dir: %s";
         Log "Transfer" WARNING "Unknown typecode: %s. Falling back to ERR: %s";
         Log "Transfer" DEBUG "Using ERR fallback directory: %s" ]
       (Transfer.transfer_to w cfg target typecode d s)) /\
  (m !! "ERR" = None ->
     outcome (Transfer.transfer_file w cfg m target hash_ typecode s) = Ret false /\
     final (Transfer.transfer_file w cfg m target hash_ typecode s) = s /\
     List.filter is_run
       (events (Transfer.transfer_file w cfg m target hash_ typecode s)) = []) /\
  (forall m' : gmap string string,
     m' !! typecode = None ->
     m' !! "ERR" = m !! "ERR" ->
     Transfer.transfer_file w cfg m' target hash_ typecode s =
     Transfer.transfer_file w cfg m target hash_ typecode s).
Proof.
  intros Ht.
  assert (Hdest : destination m typecode = m !! "ERR")
    by (unfold destination; rewrite Ht; reflexivity).
  assert (Hlog : forall m' : gmap string string,
             opt_truthy (m' !! typecode) = false ->
             resolution_log m' typecode =
             [ Log "Transfer" DEBUG "Starting transfer - target: %s, hash: %s, typecode: %s";
               Log "Transfer" DEBUG "Type mapping lookup - typecode: %s -> dest_dir: %s";
               Log "Transfer" WARNING "Unknown typecode: %s. Falling back to ERR: %s";
               Log "Transfer" DEBUG "Using ERR fallback directory: %s" ])
    by (intros m' H; unfold resolution_log; rewrite H; reflexivity).
  split; [|split].
  - intros d Herr.
    rewrite (transfer_file_resolved w cfg m target hash_ typecode d s)
      by (rewrite Hdest; exact Herr).
    rewrite Hlog by (rewrite Ht; reflexivity). reflexivity.
  - intros Herr.
    rewrite transfer_file_unresolved by (rewrite Hdest; exact Herr).
    repeat split.
  - intros m' Ht' Herr'.
    assert (Hdest' : destination m' typecode = m !! "ERR")
      by (unfold destination; rewrite Ht'; cbn; exact Herr').
    destruct (m !! "ERR") as [d|] eqn:Herr.
    + rewrite (transfer_file_resolved w cfg m' target hash_ typecode d s Hdest').
      rewrite (transfer_file_resolved w cfg m target hash_ typecode d s Hdest).
      rewrite (Hlog m') by (rewrite Ht'; reflexivity).
      rewrite (Hlog m) by (rewrite Ht; reflexivity).
      reflexivity.
    + rewrite (transfer_file_unresolved w cfg m' target hash_ typecode s Hdest').
      rewrite (transfer_file_unresolved w cfg m target hash_ typecode s Hdest).
      reflexivity.
Qed.

Lemma transfer_file_empty_entry_as_absent_witness :
  Transfer.transfer_file Sample.world_pget Sample.cfg Sample.types
    "show.mkv" "hash9" "TV" Sample.online =
  Transfer.transfer_file Sample.world_pget Sample.cfg Sample.types_empty_entry
    "show.mkv" "hash9" "TV" Sample.online.
Proof.
  exact (proj2 (proj2 (transfer_file_empty_entry_as_absent Sample.world_pget
                         Sample.cfg Sample.types_empty_entry
                         "show.mkv" "hash9" "TV" Sample.online eq_refl))
           Sample.types eq_refl eq_refl).
Defined.

(** Past the search for [lftp], what is observed of [transfer_file] is what
    is observed of the transfer attempt in the destination directory, after
    the three requests that led there and before the [chmod] that follows
    an attempt that returns. *)
Lemma transfer_file_attempted
    (w : world) (cfg : Config.settings) (m : gmap string string)
    (target hash_ typecode d : string) (s : state) :
  destination m typecode = Some d ->
  os_path_isdir w (cwd s) d = true ->
  os_chdir w (cwd s) d = true ->
  opt_truthy (shutil_which w "lftp") = true ->
  let here := set_cwd (path_join (cwd s) d) s in
  outcome (Transfer.transfer_file w cfg m target hash_ typecode s) =
    outcome (Transfer.attempt w cfg target here) /\
  final (Transfer.transfer_file w cfg m target hash_ typecode s) =
    final (Transfer.attempt w cfg target here) /\
  requests (events (Transfer.transfer_file w cfg m target hash_ typecode s)) =
    ([IsDir d; Chdir d; Which "lftp"] ++
     requests (events (Transfer.attempt w cfg target here)) ++
     match outcome (Transfer.attempt w cfg target here) with
     | Ret _ => [Chmod (basename target) 438]
     | Raise _ => []
     end)%list.
Proof.
  intros Hd Hdir Hch Hw here.
  rewrite (transfer_file_reaches_attempt w cfg m target hash_ typecode d s
             Hd Hdir Hch Hw).
  rewrite outcome_prepend, final_prepend, events_prepend, !requests_app,
    requests_resolution_log, requests_entering_log.
  destruct (core_observed w cfg target d here) as (Ho & Hf & Hr).
  fold here. rewrite Ho, Hf, Hr. repeat split.
Qed.

(** C2.  The mirror runs and exits, but what it wrote is no text in the
    encoding of the locale: [subprocess.run] raises [UnicodeDecodeError]
    before it looks at the exit status, the [except] clause of line 91 does
    not catch it, and [transfer_file] raises.  Whatever the exit status of
    the mirror, zero or not, no pget is started, no permission is set and
    no boolean is returned. *)
Theorem transfer_file_undecodable_mirror
    (w : world) (cfg : Config.settings) (m : gmap string string)
    (target hash_ typecode d : string) (s : state)
    (mirror : list string) (rc : Z) :
  destination m typecode = Some d ->
  os_path_isdir w (cwd s) d = true ->
  os_chdir w (cwd s) d = true ->
  opt_truthy (shutil_which w "lftp") = true ->
  coutcome (Transfer.mirror_cmd cfg target) = Ret mirror ->
  subprocess_run w (spawned s) (path_join (cwd s) d) mirror = Undecodable rc ->
  outcome (Transfer.transfer_file w cfg m target hash_ typecode s) =
    Raise UnicodeDecodeError /\
  requests (events (Transfer.transfer_file w cfg m target hash_ typecode s)) =
    [IsDir d; Chdir d; Which "lftp"; Run mirror] /\
  List.filter is_run
    (events (Transfer.transfer_file w cfg m target hash_ typecode s)) =
    [Run mirror].
Proof.
  intros Hd Hdir Hch Hw Hm Hrun.
  destruct (transfer_file_attempted w cfg m target hash_ typecode d s
              Hd Hdir Hch Hw) as (Ho & _ & Hr).
  cbv zeta in Ho, Hr.
  rewrite <- filter_run_requests, Ho, Hr.
  destruct (attempt_paths w cfg target (set_cwd (path_join (cwd s) d) s)) as [P|P];
    open_cases; try congruence;
    match goal with
    | H1 : coutcome (Transfer.mirror_cmd cfg target) = Ret ?m1 |- _ =>
        assert (m1 = mirror) by congruence; subst m1
    end;
    cbn [cwd spawned set_cwd] in *;
    match goal with
    | H : context [subprocess_run w (spawned s) (path_join (cwd s) d) mirror] |- _ =>
        rewrite Hrun in H; cbn in H; try discriminate H
    end.
  match goal with
  | H : Some _ = Some _ |- _ => injection H as <-
  end.
  repeat match goal with
         | H : outcome _ = _ |- _ => rewrite H
         | H : requests _ = _ |- _ => rewrite H
         end.
  repeat split.
Qed.

Lemma transfer_file_undecodable_mirror_witness :
  exit_status (subprocess_run Sample.world_undecodable 0 "/d/movies"
                 Sample.mirror_movie) = Some 1 /\
  outcome (Transfer.transfer_file Sample.world_undecodable Sample.cfg Sample.types
             "movie.mkv" "hash123" "MOV" Sample.online) = Raise UnicodeDecodeError /\
  List.filter is_run
    (events (Transfer.transfer_file Sample.world_undecodable Sample.cfg Sample.types
               "movie.mkv" "hash123" "MOV" Sample.online)) =
  [Run Sample.mirror_movie].
Proof.
  split; [reflexivity|].
  pose proof (transfer_file_undecodable_mirror Sample.world_undecodable Sample.cfg
                Sample.types "movie.mkv" "hash123" "MOV" "/d/movies" Sample.online
                Sample.mirror_movie 1 eq_refl eq_refl eq_refl eq_refl
                ltac:(vm_compute; reflexivity) eq_refl) as (H1 & _ & H3).
  split; assumption.
Defined.

(** Unifies the commands of two readings of the same configuration. *)
Ltac same_commands :=
  repeat match goal with
         | H1 : coutcome (Transfer.mirror_cmd ?cfg ?target) = Ret ?m1,
           H2 : coutcome (Transfer.mirror_cmd ?cfg ?target) = Ret ?m2 |- _ =>
             assert (m2 = m1) by congruence; subst m2; clear H2
         | H1 : coutcome (Transfer.pget_cmd ?cfg ?target) = Ret ?p1,
           H2 : coutcome (Transfer.pget_cmd ?cfg ?target) = Ret ?p2 |- _ =>
             assert (p2 = p1) by congruence; subst p2; clear H2
         end.

(** Rewrites with what is known of the outcome, the state and the
    requests of a call. *)
Ltac observed :=
  repeat match goal with
         | H : outcome _ = _ |- _ => rewrite H in *; clear H
         | H : final _ = _ |- _ => rewrite H in *; clear H
         | H : requests _ = _ |- _ => rewrite H in *; clear H
         end.

(** X27.  The mirror and the pget when the output of both is text.  Past the
    lookup, the directory check, the change of directory and the search for
    [lftp], and with the two commands built: a mirror that exits with a
    nonzero status is followed by exactly one pget; a mirror that exits with
    status 0 is followed by none; [transfer_file] returns [True] exactly
    when the mirror, or else the pget, exits with status 0; and it returns
    whenever [subprocess.run] raises nothing but [CalledProcessError]. *)
Theorem transfer_file_mirror_then_pget
    (w : world) (cfg : Config.settings) (m : gmap string string)
    (target hash_ typecode d : string) (s : state)
    (mirror_cmd pget_cmd : list string) :
  destination m typecode = Some d ->
  os_path_isdir w (cwd s) d = true ->
  os_chdir w (cwd s) d = true ->
  opt_truthy (shutil_which w "lftp") = true ->
  coutcome (Transfer.mirror_cmd cfg target) = Ret mirror_cmd ->
  coutcome (Transfer.pget_cmd cfg target) = Ret pget_cmd ->
  let here := path_join (cwd s) d in
  let mirror := subprocess_run w (spawned s) here mirror_cmd in
  let pget := subprocess_run w (S (spawned s)) here pget_cmd in
  let call := Transfer.transfer_file w cfg m target hash_ typecode s in
  (forall rc out err, mirror = Exited rc out err -> rc <> 0 ->
     List.filter is_run (events call) = [Run mirror_cmd; Run pget_cmd]) /\
  (forall out err, mirror = Exited 0 out err ->
     List.filter is_run (events call) = [Run mirror_cmd]) /\
  (outcome call = Ret true <->
     (exists out err, mirror = Exited 0 out err) \/
     ((exists rc out err, mirror = Exited rc out err /\ rc <> 0) /\
      (exists out err, pget = Exited 0 out err))) /\
  (escapes mirror = None -> escapes pget = None -> exists b, outcome call = Ret b).
Proof.
  intros Hd Hdir Hch Hw Hm Hp here mirror pget call.
  destruct (transfer_file_attempted w cfg m target hash_ typecode d s
              Hd Hdir Hch Hw) as (Ho & _ & Hr).
  cbv zeta in Ho, Hr. subst call.
  rewrite <- filter_run_requests, Ho, Hr. clear Ho Hr.
  assert (Em : mirror = subprocess_run w (spawned s) here mirror_cmd) by reflexivity.
  assert (Ep : pget = subprocess_run w (S (spawned s)) here pget_cmd) by reflexivity.
  clearbody mirror pget. subst here.
  destruct (attempt_paths w cfg target (set_cwd (path_join (cwd s) d) s)) as [P|P];
    open_cases; try congruence; same_commands;
    cbn [cwd spawned set_cwd] in *;
    repeat match goal with
           | H : subprocess_run _ _ _ _ = _ |- _ => rewrite H in *
           | H : context [escapes (subprocess_run _ _ _ _)] |- _ =>
               rewrite <- ?Em, <- ?Ep in H
           end;
    subst; observed.
  - (* the mirror exits with status 0 *)
    split; [intros ? ? ? H Hrc; injection H as <- _ _; contradiction|].
    split; [intros; reflexivity|].
    split; [split; eauto|eauto].
  - (* [subprocess.run] raises for the mirror *)
    match goal with
    | H : escapes _ = Some _ |- _ => rename H into He
    end.
    split; [intros ? ? ? H; rewrite H in He; discriminate He|].
    split; [intros ? ? H; rewrite H in He; discriminate He|].
    split; [|intros H; rewrite H in He; discriminate He].
    split; [discriminate|].
    intros [(o & e & H)|[(r & o & e & H & _) _]]; rewrite H in He;
      discriminate He.
  - (* the mirror exits with another status, the pget exits *)
    split; [intros; reflexivity|].
    split; [intros ? ? H; injection H as H _ _; contradiction|].
    split; [|eauto].
    split.
    + intros H. injection H as H. apply Z.eqb_eq in H. subst.
      right. split; eauto 10.
    + intros [(o & e & H)|[_ (o & e & H)]].
      * injection H as H _ _. contradiction.
      * injection H as -> _ _. reflexivity.
  - (* the mirror exits with another status, [subprocess.run] raises for
       the pget *)
    match goal with
    | H : escapes _ = Some _ |- _ => rename H into He
    end.
    split; [intros; reflexivity|].
    split; [intros ? ? H; injection H as H _ _; contradiction|].
    split; [|intros _ H; rewrite H in He; discriminate He].
    split; [discriminate|].
    intros [(o & e & H)|[_ (o & e & H)]].
    + injection H as H _ _. contradiction.
    + rewrite H in He. discriminate He.
Qed.

Lemma transfer_file_mirror_then_pget_witness :
  List.filter is_run
    (events (Transfer.transfer_file Sample.world_pget Sample.cfg Sample.types
               "movie.mkv" "hash123" "MOV" Sample.online)) =
  [Run Sample.mirror_movie; Run Sample.pget_movie].
Proof.
  exact (proj1 (transfer_file_mirror_then_pget Sample.world_pget Sample.cfg
                  Sample.types "movie.mkv" "hash123" "MOV" "/d/movies"
                  Sample.online Sample.mirror_movie Sample.pget_movie
                  eq_refl eq_refl eq_refl eq_refl
                  ltac:(vm_compute; reflexivity) ltac:(vm_compute; reflexivity))
           1 "" "mirror: not a directory" eq_refl ltac:(discriminate)).
Defined.

(** C10.  Once [transfer_file] has entered the destination directory, the
    working directory of the process is that directory when the call ends,
    whatever its outcome, and the call enters no other directory. *)
Theorem transfer_file_stays_in_destination
    (w : world) (cfg : Config.settings) (m : gmap string string)
    (target hash_ typecode d : string) (s : state) :
  destination m typecode = Some d ->
  os_path_isdir w (cwd s) d = true ->
  os_chdir w (cwd s) d = true ->
  let call := Transfer.transfer_file w cfg m target hash_ typecode s in
  cwd (final call) = path_join (cwd s) d /\
  List.filter is_chdir (events call) = [Chdir d] /\
  (forall r, d = String SLASH r -> cwd (final call) = d).
Proof.
  intros Hd Hdir Hch call.
  assert (Hcall : call =
            prepend (resolution_log m typecode ++
                     [ Log "Transfer" DEBUG "Checking if destination directory exists: %s";
                       IsDir d;
                       Log "Transfer" DEBUG "Current working directory: %s";
                       Chdir d;
                       Log "Transfer" DEBUG "Changed to destination directory: %s" ])%list
                    (Transfer.transfer_here w cfg target d
                       (set_cwd (path_join (cwd s) d) s))).
  { subst call.
    rewrite (transfer_file_resolved w cfg m target hash_ typecode d s Hd).
    rewrite (transfer_to_changed w cfg target typecode d s Hdir Hch).
    apply prepend_prepend. }
  destruct (transfer_here_respects w cfg target d
              (fun s' => cwd s' = path_join (cwd s) d)
              (fun e => is_chdir e = false)
              ltac:(intros s' H; exact H) ltac:(intros e _ H; exact H)
              (set_cwd (path_join (cwd s) d) s) eq_refl) as [Hcwd Hev].
  assert (H1 : cwd (final call) = path_join (cwd s) d)
    by (rewrite Hcall; exact Hcwd).
  split; [exact H1|split].
  - rewrite Hcall. unfold prepend at 1. unfold events at 1. cbn [snd].
    rewrite !List.filter_app, filter_chdir_resolution_log.
    rewrite (filter_none _ _ Hev). reflexivity.
  - intros r ->. rewrite H1. apply path_join_absolute.
Qed.

Lemma transfer_file_stays_in_destination_witness :
  cwd (final (Transfer.transfer_file Sample.world_pget Sample.cfg Sample.types
                "movie.mkv" "hash123" "MOV" Sample.online)) = "/d/movies".
Proof.
  exact (proj1 (transfer_file_stays_in_destination Sample.world_pget Sample.cfg
                  Sample.types "movie.mkv" "hash123" "MOV" "/d/movies"
                  Sample.online eq_refl eq_refl eq_refl)).
Defined.

(** ** The request dispatcher *)

#[local] Arguments MQTT.acknowledge : simpl never.
#[local] Arguments MQTT.publish_label_event : simpl never.

Lemma three_fields (l : list string) :
  (length l <? 3)%nat = false ->
  exists f h t rest, l = f :: h :: t :: rest.
Proof.
  destruct l as [|f [|h [|t rest]]]; cbn; try discriminate; eauto.
Qed.

Section Dispatch.

Context (w : world) (cfg : Config.settings) (m : gmap string string).

(** A payload that is not UTF-8 makes [on_message] raise at once. *)
Lemma on_message_undecodable (payload : list Byte.byte) (s : state) :
  utf8_valid (map Byte.to_N payload) = false ->
  MQTT.on_message w cfg m payload s = (Raise UnicodeDecodeError, s, []).
Proof.
  intros Hv. unfold MQTT.on_message, MQTT.bytes_decode, bind.
  rewrite Hv. reflexivity.
Qed.

(** A payload of fewer than three fields is logged and dropped. *)
Lemma on_message_malformed (payload : list Byte.byte) (s : state) :
  utf8_valid (map Byte.to_N payload) = true ->
  (length (split TAB (string_of_list_byte payload)) <? 3)%nat = true ->
  MQTT.on_message w cfg m payload s =
  (Ret PyNone, s,
   [ Log "MQTT" INFO "Event received: %s";
     Log "MQTT" DEBUG "Message topic: %s, QoS: %d, retain: %s";
     Log "MQTT" ERROR "Malformed event: %s";
     Log "MQTT" DEBUG "Expected at least 3 fields, got %d: %s" ]).
Proof.
  intros Hv Hlen. unfold MQTT.on_message, MQTT.bytes_decode.
  rewrite Hv. unfold bind at 1. unfold ret at 1. cbv beta iota.
  unfold bind at 1. unfold MQTT.log at 1, emit at 1. cbv beta iota.
  unfold bind at 1. unfold MQTT.log at 1, emit at 1. cbv beta iota zeta.
  rewrite Hlen. reflexivity.
Qed.

(** A payload of three fields or more is handed to [transfer_file], and
    what follows is [acknowledge]. *)
Lemma on_message_dispatch (payload : list Byte.byte) (s : state)
    (f h t : string) (rest : list string) :
  utf8_valid (map Byte.to_N payload) = true ->
  split TAB (string_of_list_byte payload) = f :: h :: t :: rest ->
  MQTT.on_message w cfg m payload s =
  prepend (dispatch_log rest)
    (bind (Transfer.transfer_file w cfg m f h t) (MQTT.acknowledge w cfg h) s).
Proof.
  intros Hv Hsplit. unfold MQTT.on_message, MQTT.bytes_decode.
  rewrite Hv.
  unfold prepend, dispatch_log, outcome, final, events, bind, ret, emit, when,
    MQTT.log.
  cbv beta iota zeta. rewrite Hsplit.
  destruct rest; cbn;
    destruct (Transfer.transfer_file w cfg m f h t s) as [[[b|e] s1] t1]; cbn;
    try reflexivity;
    destruct (MQTT.acknowledge w cfg h b s1) as [[r2 s2] t2]; reflexivity.
Qed.

End Dispatch.

Lemma bind_mqtt_log {B} (lv : level) (fmt : string) (f : unit -> M B) (s : state) :
  bind (MQTT.log lv fmt) f s = prepend [Log "MQTT" lv fmt] (f tt s).
Proof. rewrite bind_eq. reflexivity. Qed.

Section HandlerFacts.

Context (w : world) (cfg : Config.settings) (m : gmap string string).

(** [publish_label_event] changes nothing and, besides log records, sends
    at most the label of the outcome. *)
Lemma publish_label_event_respects (I : state -> Prop) (E : event -> Prop)
    (hash_ : string) (success : bool) :
  (forall e, handler_event e = true -> E e) ->
  E (Publish MQTT.LABEL_CHANNEL
       (hash_ +:+ String TAB EmptyString +:+ (if success then MQTT.ACK else MQTT.NACK)) 2) ->
  respects I E (MQTT.publish_label_event w hash_ success).
Proof.
  intros HE Hpub.
  unfold MQTT.publish_label_event, MQTT.publish, MQTT.log.
  respects_split;
    solve [ apply respects_emit, HE; reflexivity
          | apply respects_emit; exact Hpub ].
Qed.

(** [acknowledge] publishes only when [labelling] reads true, and never for
    the hash ["NotUsed"]. *)
Lemma acknowledge_respects (I : state -> Prop) (E : event -> Prop)
    (hash_ : string) (success : bool) :
  (forall e, handler_event e = true -> E e) ->
  (coutcome (Config.labelling cfg) = Ret true -> hash_ <> "NotUsed" ->
   E (Publish MQTT.LABEL_CHANNEL
        (hash_ +:+ String TAB EmptyString +:+ (if success then MQTT.ACK else MQTT.NACK)) 2)) ->
  respects I E (MQTT.acknowledge w cfg hash_ success).
Proof.
  intros HE Hpub.
  assert (HC : forall e, config_event e = true -> E e)
    by (intros e He; apply HE, config_is_handler_event, He).
  unfold MQTT.acknowledge.
  apply respects_bind; [apply respects_emit, HE; reflexivity|intros _].
  intros s Hs.
  destruct (coutcome (Config.labelling cfg)) as [b|e] eqn:Hl.
  2:{ rewrite (bind_lift_raise _ e _ _ Hl). split; [exact Hs|].
      unfold events; cbn [snd].
      eapply List.Forall_impl; [exact HC|apply quiet_labelling]. }
  rewrite (bind_lift_ret _ b _ _ Hl).
  rewrite final_prepend, events_prepend.
  assert (H : respects I E
            (bind (if b && negb (String.eqb hash_ "NotUsed")
                   then bind (MQTT.log DEBUG "Labelling enabled and hash is not 'NotUsed', publishing label event")
                          (fun _ => bind (MQTT.publish_label_event w hash_ success)
                                      (fun _ => ret tt))
                   else bind (lift (Config.labelling cfg))
                          (fun _ => MQTT.log DEBUG "Skipping label event - labelling: %s, hash: %s"))
                  (fun _ => ret PyNone))).
  { apply respects_bind; [|intros _; apply respects_ret].
    destruct b; cbn [andb];
      [destruct (String.eqb_spec hash_ "NotUsed") as [Heq|Hne]; cbn [negb]|].
    - unfold MQTT.log. respects_split;
        solve [exact HC | apply respects_emit, HE; reflexivity].
    - apply respects_bind; [apply respects_emit, HE; reflexivity|intros _].
      apply respects_bind; [|intros _; apply respects_ret].
      apply publish_label_event_respects; auto.
    - unfold MQTT.log. respects_split;
        solve [exact HC | apply respects_emit, HE; reflexivity]. }
  destruct (H s Hs) as [H1 H2]. split; [exact H1|].
  apply Forall_app. split; [|exact H2].
  eapply List.Forall_impl; [exact HC|apply quiet_labelling].
Qed.

(** [on_message] touches only the working directory and the count of child
    processes. *)
Lemma on_message_respects (I : state -> Prop) (E : event -> Prop)
    (payload : list Byte.byte) :
  (forall d s, I s -> I (set_cwd d s)) ->
  (forall s, I s -> I (incr_spawned s)) ->
  (forall e, transfer_event e = true -> E e) ->
  (forall e, handler_event e = true -> E e) ->
  (forall e, is_publish e = true -> E e) ->
  respects I E (MQTT.on_message w cfg m payload).
Proof.
  intros Hcwd Hspawn HT HH HP.
  unfold MQTT.on_message, MQTT.bytes_decode.
  respects_split;
    try solve [ apply respects_emit, HH; reflexivity ].
  - apply transfer_file_respects; assumption.
  - apply acknowledge_respects; [assumption|].
    intros _ _. apply HP. reflexivity.
Qed.

(** The body of the [try] of the connect loop changes nothing, and makes
    no request but the call of [client.connect]. *)
Lemma connect_respects (I : state -> Prop) (E : event -> Prop) (ok : bool) :
  (forall e, handler_event e = true -> E e) ->
  respects I E (MQTT.connect cfg ok).
Proof.
  intros HE.
  assert (HC : forall e, config_event e = true -> E e)
    by (intros e He; apply HE, config_is_handler_event, He).
  unfold MQTT.connect, MQTT.log.
  respects_split;
    solve [ exact HC | apply respects_emit, HE; reflexivity ].
Qed.

Lemma connect_final (ok : bool) (s : state) :
  final (MQTT.connect cfg ok s) = s.
Proof.
  exact (proj1 (connect_respects (fun s' => s' = s) (fun _ => True) ok
                  (fun _ _ => Logic.I) s eq_refl)).
Qed.

(** With the host and the port read, [client.connect] is called with them,
    once, and the body ends as this call ends. *)
Lemma connect_called (ok : bool) (s : state) (host : string) (port : Z) :
  coutcome (Config.bus_host cfg) = Ret host ->
  coutcome (Config.bus_port cfg) = Ret port ->
  outcome (MQTT.connect cfg ok s) = (if ok then Ret tt else Raise OSError) /\
  requests (events (MQTT.connect cfg ok s)) = [Connect host port 60].
Proof.
  intros Hh Hp. unfold MQTT.connect.
  rewrite (bind_lift_ret _ host _ _ Hh), (bind_lift_ret _ port _ _ Hp),
    bind_mqtt_log, (bind_lift_ret _ host _ _ Hh), (bind_lift_ret _ port _ _ Hp).
  rewrite !outcome_prepend, !events_prepend, !requests_app,
    !quiet_requests by auto with quiet.
  destruct ok; split; reflexivity.
Qed.

(** With the host or the port not read, the body raises what the read
    raises and [client.connect] is not called. *)
Lemma connect_uncalled (ok : bool) (s : state) :
  (forall host port, coutcome (Config.bus_host cfg) = Ret host ->
                     coutcome (Config.bus_port cfg) = Ret port -> False) ->
  (exists e, outcome (MQTT.connect cfg ok s) = Raise e) /\
  requests (events (MQTT.connect cfg ok s)) = [].
Proof.
  intros Hno. unfold MQTT.connect.
  destruct (coutcome (Config.bus_host cfg)) as [host|e] eqn:Hh.
  2:{ rewrite (bind_lift_raise _ e _ _ Hh).
      unfold outcome, events; cbn [fst snd].
      rewrite quiet_requests by auto with quiet. eauto. }
  destruct (coutcome (Config.bus_port cfg)) as [port|e] eqn:Hp.
  { destruct (Hno host port eq_refl eq_refl). }
  rewrite (bind_lift_ret _ host _ _ Hh), (bind_lift_raise _ e _ _ Hp).
  rewrite outcome_prepend, events_prepend.
  unfold outcome, events; cbn [fst snd].
  rewrite requests_app, !quiet_requests by auto with quiet. eauto.
Qed.

(** A [client.connect] that raises makes the body raise. *)
Lemma connect_refused (s : state) :
  exists e, outcome (MQTT.connect cfg false s) = Raise e.
Proof.
  destruct (coutcome (Config.bus_host cfg)) as [host|e] eqn:Hh.
  - destruct (coutcome (Config.bus_port cfg)) as [port|e] eqn:Hp.
    + exists OSError. apply (proj1 (connect_called false s host port Hh Hp)).
    + apply connect_uncalled. intros h p _ H. rewrite Hp in H. discriminate H.
  - apply connect_uncalled. intros h p H. rewrite Hh in H. discriminate H.
Qed.

(** One turn of the connect loop: the loop is left when the body of the
    [try] returns; when it raises, the handler waits for the current delay
    and goes on with the smaller of its double and the maximal delay. *)
Lemma connect_with_retry_turn (ok : bool) (answers : list bool) (s : state) :
  running s = true ->
  connected s = false ->
  MQTT._connect_with_retry cfg (ok :: answers) s =
  match outcome (MQTT.connect cfg ok s) with
  | Ret _ => (Ret true, s, events (MQTT.connect cfg ok s))
  | Raise _ =>
      prepend
        (events (MQTT.connect cfg ok s) ++
         [ Log "MQTT" ERROR "Failed to connect to MQTT broker: %s";
           Log "MQTT" DEBUG "Connection attempt failed, waiting %d seconds before retry";
           Sleep (current_reconnect_delay s);
           Log "MQTT" DEBUG "Next reconnect delay: %d seconds" ])
        (MQTT._connect_with_retry cfg answers
           (set_current_reconnect_delay
              (Z.min (current_reconnect_delay s * 2) (max_reconnect_delay s)) s))
  end.
Proof.
  intros Hr Hc. cbn [MQTT._connect_with_retry].
  pose proof (connect_final ok s) as Hf.
  unfold MQTT.back_off, MQTT.log, bind, try_except, get, emit, modify, ret,
    prepend, outcome, final, events in *.
  rewrite Hr, Hc. cbv beta iota zeta delta [andb negb].
  destruct (MQTT.connect cfg ok s) as [[[u|e] s1] t1]; cbn in Hf; subst s1; cbn.
  - rewrite !app_nil_r. reflexivity.
  - match goal with
    | |- context [MQTT._connect_with_retry cfg answers ?s1] =>
        destruct (MQTT._connect_with_retry cfg answers s1) as [[r2 s2] t2]
    end.
    cbn. rewrite <- app_assoc. reflexivity.
Qed.

(** The loop is not entered when the handler is stopped or connected. *)
Lemma connect_with_retry_skipped (answers : list bool) (s : state) :
  running s && negb (connected s) = false ->
  MQTT._connect_with_retry cfg answers s = (Ret true, s, []).
Proof.
  intros H. destruct answers; cbn [MQTT._connect_with_retry];
    unfold bind, get, ret; rewrite H; reflexivity.
Qed.

(** A failed connect attempt: the handler waits for the current delay and
    goes on with the smaller of its double and the maximal delay. *)
Lemma connect_with_retry_failed (answers : list bool) (s : state) :
  running s = true ->
  connected s = false ->
  MQTT._connect_with_retry cfg (false :: answers) s =
  prepend
    (events (MQTT.connect cfg false s) ++
     [ Log "MQTT" ERROR "Failed to connect to MQTT broker: %s";
       Log "MQTT" DEBUG "Connection attempt failed, waiting %d seconds before retry";
       Sleep (current_reconnect_delay s);
       Log "MQTT" DEBUG "Next reconnect delay: %d seconds" ])
    (MQTT._connect_with_retry cfg answers
       (set_current_reconnect_delay
          (Z.min (current_reconnect_delay s * 2) (max_reconnect_delay s)) s)).
Proof.
  intros Hr Hc. rewrite connect_with_retry_turn by assumption.
  destruct (connect_refused s) as [e ->]. reflexivity.
Qed.

End HandlerFacts.

(** ** The connection supervisor *)

Lemma not_a_wait (e : event) :
  match e with Sleep _ => False | _ => True end -> wait_ok e.
Proof. intros H d ->. destruct H. Qed.

Lemma handler_event_no_wait (e : event) : handler_event e = true -> wait_ok e.
Proof.
  intros He. apply not_a_wait. destruct e; try exact Logic.I; discriminate.
Qed.

Lemma backoff_ok_init (dir : string) : backoff_ok (init dir).
Proof. unfold backoff_ok; cbn; lia. Qed.

Lemma backoff_ok_doubled (s : state) :
  backoff_ok s ->
  backoff_ok (set_current_reconnect_delay
                (Z.min (current_reconnect_delay s * 2) (max_reconnect_delay s)) s).
Proof. unfold backoff_ok; cbn. lia. Qed.

Lemma backoff_ok_reset (s : state) :
  backoff_ok s -> backoff_ok (set_current_reconnect_delay (reconnect_delay s) s).
Proof. unfold backoff_ok; cbn. lia. Qed.

(** Checks a list of events one by one; [tac] is for the waits. *)
Ltac waits_ok tac :=
  unfold events; cbn [snd];
  repeat (apply List.Forall_cons;
          [ first [ apply not_a_wait; exact Logic.I | tac ] | ]);
  try apply List.Forall_nil.

Section Supervisor.

Context (w : world) (cfg : Config.settings) (m : gmap string string).

(** However the connect attempts end, the delay stays within bounds and so
    does every wait. *)
Lemma connect_with_retry_respects (answers : list bool) :
  respects backoff_ok wait_ok (MQTT._connect_with_retry cfg answers).
Proof.
  induction answers as [|ok answers IH]; intros s Hs;
    destruct (running s && negb (connected s)) eqn:H;
    try (rewrite connect_with_retry_skipped by exact H; split; [exact Hs|constructor]).
  - cbn [MQTT._connect_with_retry]. unfold bind, get, ret. rewrite H.
    split; [exact Hs|constructor].
  - apply andb_true_iff in H as [Hr Hc]. apply negb_true_iff in Hc.
    rewrite connect_with_retry_turn by assumption.
    destruct (connect_respects cfg backoff_ok wait_ok ok handler_event_no_wait s Hs)
      as [_ Hev].
    destruct (outcome (MQTT.connect cfg ok s)).
    + split; [exact Hs|exact Hev].
    + destruct (IH _ (backoff_ok_doubled s Hs)) as [H1 H2].
      split; [exact H1|].
      rewrite events_prepend.
      apply Forall_app; split; [|exact H2].
      apply Forall_app; split; [exact Hev|].
      waits_ok ltac:(intros d Hd; injection Hd as <-; right;
                     destruct Hs as (_ & _ & Hcur); exact Hcur).
Qed.

(** What [on_connect] leaves behind for result code 0, whatever becomes of
    the subscription. *)
Lemma on_connect_accepted (s : state) :
  final (MQTT.on_connect w 0 s) =
  set_current_reconnect_delay (reconnect_delay s) (set_connected true s) /\
  requests (events (MQTT.on_connect w 0 s)) = [Subscribe MQTT.queue_channel 2] /\
  outcome (MQTT.on_connect w 0 s) =
    match client_subscribe w MQTT.queue_channel 2 with
    | Subscribed _ _ => Ret PyNone
    | SubscribeError e => Raise e
    end.
Proof.
  unfold MQTT.on_connect, MQTT.subscribe, MQTT.log, bind, get, emit, modify, ret,
    raise, outcome, final, events, requests.
  cbn. destruct (client_subscribe w MQTT.queue_channel 2) as [rc mid|e]; cbn.
  - destruct (Z.eqb rc MQTT.MQTT_ERR_SUCCESS); cbn; repeat split.
  - repeat split.
Qed.

(** What [on_connect] leaves behind for any other result code. *)
Lemma on_connect_refused (rc : Z) (s : state) :
  rc <> 0 ->
  MQTT.on_connect w rc s =
  (Ret PyNone, set_connected false s,
   [ Log "MQTT" ERROR "Failed to connect to MQTT broker: %s" ]).
Proof.
  intros Hrc. unfold MQTT.on_connect.
  rewrite (proj2 (Z.eqb_neq rc 0) Hrc). reflexivity.
Qed.

Lemma on_connect_respects (rc : Z) :
  respects backoff_ok wait_ok (MQTT.on_connect w rc).
Proof.
  intros s Hs. destruct (Z.eq_dec rc 0) as [->|Hrc].
  - split.
    + rewrite (proj1 (on_connect_accepted s)).
      apply (backoff_ok_reset (set_connected true s)). exact Hs.
    + unfold MQTT.on_connect, MQTT.subscribe, MQTT.log, bind, get, emit, modify,
        ret, raise.
      cbn. destruct (client_subscribe w MQTT.queue_channel 2) as [r mid|e]; cbn;
        [destruct (Z.eqb r MQTT.MQTT_ERR_SUCCESS); cbn|]; waits_ok fail.
  - rewrite on_connect_refused by exact Hrc. split; [exact Hs|].
    waits_ok fail.
Qed.

Lemma perform_respects (c : MQTT.call) :
  respects backoff_ok wait_ok (MQTT.perform w cfg m c).
Proof.
  assert (HH : forall e, handler_event e = true -> wait_ok e)
    by exact handler_event_no_wait.
  assert (HC : forall e, config_event e = true -> wait_ok e)
    by (intros e He; apply HH, config_is_handler_event, He).
  destruct c as [answers|answers|rc|rc|payload|];
    unfold MQTT.perform, MQTT.on_disconnect, MQTT.stop, MQTT.log;
    respects_split;
    try solve [ exact HC
              | apply respects_emit, HH; reflexivity
              | apply respects_modify; intros s Hs; exact Hs
              | apply connect_with_retry_respects
              | apply on_connect_respects ].
  - apply respects_emit. intros d Hd. injection Hd as <-. left; reflexivity.
  - apply on_message_respects.
    + intros d s Hs; exact Hs.
    + intros s Hs; exact Hs.
    + intros e He; apply not_a_wait; destruct e; try exact Logic.I; discriminate.
    + exact HH.
    + intros e He; apply not_a_wait; destruct e; try exact Logic.I; discriminate.
Qed.

Lemma session_respects (cs : list MQTT.call) :
  respects backoff_ok wait_ok (MQTT.session w cfg m cs).
Proof.
  induction cs as [|c cs IH]; cbn [MQTT.session].
  - apply respects_ret.
  - apply respects_bind; [apply perform_respects|intros _; exact IH].
Qed.

End Supervisor.

(** Three connect attempts fail and the fourth returns: the handler waits
    5, 10 and 20 seconds, and the connect acknowledgment sets the delay back
    to 5 seconds. *)
Example backoff_scenario :
  List.filter is_sleep
    (events (MQTT.session Sample.world_pget Sample.cfg Sample.types
               [MQTT.Start [false; false; false; true]; MQTT.OnConnect 0]
               (init "/home/q4d"))) =
  [Sleep 5; Sleep 10; Sleep 20] /\
  current_reconnect_delay
    (final (MQTT.session Sample.world_pget Sample.cfg Sample.types
              [MQTT.Start [false; false; false; true]]
              (init "/home/q4d"))) = 40 /\
  current_reconnect_delay
    (final (MQTT.session Sample.world_pget Sample.cfg Sample.types
              [MQTT.Start [false; false; false; true]; MQTT.OnConnect 0]
              (init "/home/q4d"))) = 5.
Proof. repeat split; vm_compute; reflexivity. Qed.

(** C3.  A failed connect attempt waits for the current delay and then sets
    the delay to the smaller of its double and the maximum, and the attempt
    itself waits for nothing; a [client.connect] that raises is a failed
    attempt; over any sequence of calls on a handler the delay stays between
    5 and 60 seconds and no wait is longer than 60 seconds; and a connect
    acknowledgment with result code 0 sets the delay to the initial one,
    whatever it was and whatever becomes of the subscription. *)
Theorem reconnect_backoff (w : world) (cfg : Config.settings) (m : gmap string string) :
  (forall ok answers s e,
     running s = true -> connected s = false ->
     outcome (MQTT.connect cfg ok s) = Raise e ->
     MQTT._connect_with_retry cfg (ok :: answers) s =
     prepend
       (events (MQTT.connect cfg ok s) ++
        [ Log "MQTT" ERROR "Failed to connect to MQTT broker: %s";
          Log "MQTT" DEBUG "Connection attempt failed, waiting %d seconds before retry";
          Sleep (current_reconnect_delay s);
          Log "MQTT" DEBUG "Next reconnect delay: %d seconds" ])
       (MQTT._connect_with_retry cfg answers
          (set_current_reconnect_delay
             (Z.min (current_reconnect_delay s * 2) (max_reconnect_delay s)) s))) /\
  (forall ok s,
     List.filter is_sleep (events (MQTT.connect cfg ok s)) = [] /\
     (ok = false -> exists e, outcome (MQTT.connect cfg ok s) = Raise e)) /\
  (forall s, backoff_ok s ->
     Z.min (current_reconnect_delay s * 2) (max_reconnect_delay s) <= 60 /\
     (current_reconnect_delay s * 2 <= 60 ->
      Z.min (current_reconnect_delay s * 2) (max_reconnect_delay s) =
      current_reconnect_delay s * 2)) /\
  (forall cs dir,
     backoff_ok (final (MQTT.session w cfg m cs (init dir))) /\
     Forall wait_ok (events (MQTT.session w cfg m cs (init dir)))) /\
  (forall s,
     current_reconnect_delay (final (MQTT.on_connect w 0 s)) = reconnect_delay s).
Proof.
  split; [|split; [|split; [|split]]].
  - intros ok answers s e Hr Hc He.
    rewrite connect_with_retry_turn by assumption. rewrite He. reflexivity.
  - intros ok s. split.
    + apply filter_none.
      apply (connect_respects cfg (fun _ => True) (fun e => is_sleep e = false) ok);
        [|exact Logic.I].
      intros e He. destruct e; try discriminate He; reflexivity.
    + intros ->. apply connect_refused.
  - intros s (_ & Hmax & Hcur). rewrite Hmax. lia.
  - intros cs dir. apply session_respects, backoff_ok_init.
  - intros s. rewrite (proj1 (on_connect_accepted w s)). reflexivity.
Qed.

Lemma reconnect_backoff_witness :
  current_reconnect_delay
    (final (MQTT._connect_with_retry Sample.cfg [false] Sample.offline)) = 10.
Proof.
  rewrite (proj1 (reconnect_backoff Sample.world_pget Sample.cfg Sample.types)
             false [] Sample.offline OSError eq_refl eq_refl
             ltac:(vm_compute; reflexivity)).
  reflexivity.
Defined.

(** C1.  A payload that is not UTF-8, here a Latin-1 file name: [on_message]
    raises [UnicodeDecodeError] to its caller, before any log record. *)
Theorem on_message_latin1_raises
    (w : world) (cfg : Config.settings) (m : gmap string string) (s : state) :
  MQTT.on_message w cfg m latin1_payload s = (Raise UnicodeDecodeError, s, []).
Proof. apply on_message_undecodable. reflexivity. Qed.

(** An exception of [transfer_file] that is not [CalledProcessError] leaves
    [on_message] the same way: here [lftp] cannot be started. *)
Example on_message_spawn_error_raises :
  outcome (MQTT.on_message Sample.world_no_spawn Sample.cfg Sample.types
             Sample.movie Sample.online) = Raise OSError.
Proof. vm_compute. reflexivity. Qed.

(** C5.  A payload of fewer than three tab-separated fields: [on_message]
    returns after four log records of its own, the state is as before, and
    there is no event of a transfer and no publish. *)
Theorem on_message_short_payload_dropped
    (w : world) (cfg : Config.settings) (m : gmap string string)
    (payload : list Byte.byte) (s : state) :
  utf8_valid (map Byte.to_N payload) = true ->
  (length (split TAB (string_of_list_byte payload)) < 3)%nat ->
  MQTT.on_message w cfg m payload s =
  (Ret PyNone, s,
   [ Log "MQTT" INFO "Event received: %s";
     Log "MQTT" DEBUG "Message topic: %s, QoS: %d, retain: %s";
     Log "MQTT" ERROR "Malformed event: %s";
     Log "MQTT" DEBUG "Expected at least 3 fields, got %d: %s" ]) /\
  List.filter transfer_event (events (MQTT.on_message w cfg m payload s)) = [] /\
  List.filter is_publish (events (MQTT.on_message w cfg m payload s)) = [].
Proof.
  intros Hv Hlen.
  rewrite on_message_malformed
    by (try exact Hv; apply Nat.ltb_lt; exact Hlen).
  repeat split.
Qed.

Lemma on_message_short_payload_dropped_witness :
  List.filter transfer_event
    (events (MQTT.on_message Sample.world_pget Sample.cfg Sample.types
               Sample.short Sample.online)) = [].
Proof.
  exact (proj1 (proj2 (on_message_short_payload_dropped Sample.world_pget
                         Sample.cfg Sample.types Sample.short Sample.online
                         eq_refl ltac:(vm_compute; lia)))).
Defined.

Lemma dispatch_log_quiet (rest : list string) :
  Forall (fun e => is_publish e = false) (dispatch_log rest).
Proof.
  unfold dispatch_log.
  destruct rest; cbn; repeat (apply List.Forall_cons; [reflexivity|]);
    apply List.Forall_nil.
Qed.

(** Every publish of [on_message] is the label of the second field of the
    payload, under labelling and for a hash other than ["NotUsed"]. *)
Lemma on_message_label_events
    (w : world) (cfg : Config.settings) (m : gmap string string)
    (payload : list Byte.byte) (s : state) (e : event) :
  In e (events (MQTT.on_message w cfg m payload s)) ->
  is_publish e = true ->
  exists f h t rest,
    split TAB (string_of_list_byte payload) = f :: h :: t :: rest /\
    coutcome (Config.labelling cfg) = Ret true /\ h <> "NotUsed" /\
    (e = Publish MQTT.LABEL_CHANNEL (h +:+ String TAB EmptyString +:+ MQTT.ACK) 2 \/
     e = Publish MQTT.LABEL_CHANNEL (h +:+ String TAB EmptyString +:+ MQTT.NACK) 2).
Proof.
  intros Hin Hpub.
  destruct (utf8_valid (map Byte.to_N payload)) eqn:Hv.
  2:{ rewrite on_message_undecodable in Hin by exact Hv. destruct Hin. }
  destruct (length (split TAB (string_of_list_byte payload)) <? 3)%nat eqn:Hlen.
  { rewrite on_message_malformed in Hin by assumption.
    cbn in Hin. destruct Hin as [<-|[<-|[<-|[<-|[]]]]]; discriminate Hpub. }
  destruct (three_fields _ Hlen) as (f & h & t & rest & Hsplit).
  exists f, h, t, rest. split; [exact Hsplit|].
  rewrite (on_message_dispatch w cfg m payload s f h t rest Hv Hsplit) in Hin.
  unfold prepend, events at 1 in Hin. cbn [snd] in Hin.
  apply in_app_or in Hin as [Hin|Hin].
  { pose proof (proj1 (List.Forall_forall _ _) (dispatch_log_quiet rest) e Hin) as Hq.
    cbv beta in Hq. congruence. }
  assert (Hr : respects (fun _ => True) (label_event_ok cfg h)
                 (bind (Transfer.transfer_file w cfg m f h t)
                       (MQTT.acknowledge w cfg h))).
  { apply respects_bind.
    - apply transfer_file_respects; [auto|auto|].
      intros e0 He0 Hp0. destruct e0; discriminate.
    - intros success. apply acknowledge_respects.
      + intros e0 He0 Hp0. destruct e0; discriminate.
      + intros Hl Hne _. repeat split; [exact Hl|exact Hne|].
        destruct success; [left|right]; reflexivity. }
  destruct (Hr s Logic.I) as [_ Hall].
  exact (proj1 (List.Forall_forall _ _) Hall e Hin Hpub).
Qed.

Lemma no_publish_filter (l : list event) :
  (forall e, In e l -> is_publish e = true -> False) ->
  List.filter is_publish l = [].
Proof.
  intros H. apply filter_none, List.Forall_forall. intros e He.
  destruct (is_publish e) eqn:Hp; [destruct (H e He Hp)|reflexivity].
Qed.

(** C4.  [on_message] publishes nothing unless the property [labelling]
    reads true, nothing when the hash of the payload is ["NotUsed"], and
    whatever it publishes is the label of the payload's hash, under
    labelling and for a hash other than ["NotUsed"]. *)
Theorem on_message_labels_only_when_enabled
    (w : world) (cfg : Config.settings) (m : gmap string string)
    (payload : list Byte.byte) (s : state) :
  (coutcome (Config.labelling cfg) <> Ret true ->
   List.filter is_publish (events (MQTT.on_message w cfg m payload s)) = []) /\
  (forall f t rest,
     split TAB (string_of_list_byte payload) = f :: "NotUsed" :: t :: rest ->
     List.filter is_publish (events (MQTT.on_message w cfg m payload s)) = []) /\
  (forall e,
     In e (events (MQTT.on_message w cfg m payload s)) ->
     is_publish e = true ->
     coutcome (Config.labelling cfg) = Ret true /\
     exists f h t rest,
       split TAB (string_of_list_byte payload) = f :: h :: t :: rest /\
       h <> "NotUsed" /\
       (e = Publish MQTT.LABEL_CHANNEL (h +:+ String TAB EmptyString +:+ MQTT.ACK) 2 \/
        e = Publish MQTT.LABEL_CHANNEL (h +:+ String TAB EmptyString +:+ MQTT.NACK) 2)).
Proof.
  split; [|split].
  - intros Hoff. apply no_publish_filter. intros e Hin Hpub.
    destruct (on_message_label_events w cfg m payload s e Hin Hpub)
      as (f & h & t & rest & _ & Hl & _).
    congruence.
  - intros f t rest Hsplit. apply no_publish_filter. intros e Hin Hpub.
    destruct (on_message_label_events w cfg m payload s e Hin Hpub)
      as (f' & h & t' & rest' & Hsplit' & _ & Hne & _).
    rewrite Hsplit in Hsplit'. injection Hsplit' as _ <- _ _. congruence.
  - intros e Hin Hpub.
    destruct (on_message_label_events w cfg m payload s e Hin Hpub)
      as (f & h & t & rest & Hsplit & Hl & Hne & He).
    split; [exact Hl|]. exists f, h, t, rest. auto.
Qed.

Lemma on_message_labels_only_when_enabled_witness :
  List.filter is_publish
    (events (MQTT.on_message Sample.world_pget Sample.cfg_unlabelled Sample.types
               Sample.movie Sample.online)) = [] /\
  List.filter is_publish
    (events (MQTT.on_message Sample.world_pget Sample.cfg Sample.types
               Sample.unused Sample.online)) = [].
Proof.
  split.
  - exact (proj1 (on_message_labels_only_when_enabled Sample.world_pget
                    Sample.cfg_unlabelled Sample.types Sample.movie Sample.online)
             ltac:(vm_compute; discriminate)).
  - exact (proj1 (proj2 (on_message_labels_only_when_enabled Sample.world_pget
                           Sample.cfg Sample.types Sample.unused Sample.online))
             "movie.mkv" "MOV" [] eq_refl).
Defined.

(** With labelling on, a hash other than ["NotUsed"] and a connected
    handler, the label is published: the sample message is acknowledged
    with ["DONE"]. *)
Example movie_acknowledged :
  List.filter is_publish
    (events (MQTT.on_message Sample.world_pget Sample.cfg Sample.types
               Sample.movie Sample.online)) =
  [ Publish "Label" ("hash123" +:+ String TAB EmptyString +:+ "DONE") 2 ].
Proof. vm_compute. reflexivity. Qed.

(** [publish_label_event] returns [None] on every path. *)
Lemma publish_label_event_returns_none
    (w : world) (hash_ : string) (success : bool) (s : state) :
  outcome (MQTT.publish_label_event w hash_ success s) = Ret PyNone.
Proof.
  unfold MQTT.publish_label_event, MQTT.publish, MQTT.log, bind, try_except,
    get, emit, ret, raise, outcome.
  destruct (connected s); cbn; [|reflexivity].
  destruct (client_publish w _ _ _) as [rc mid|]; cbn; [|reflexivity].
  destruct (Z.eqb rc MQTT.MQTT_ERR_SUCCESS); reflexivity.
Qed.

(** C8, as stated, fails.  On a handler that is not connected the call
    returns [None], and [None] is also what the call returns on a connected
    handler after the transport has taken the message: the value returned
    tells nothing about a failure. *)
Lemma publish_label_event_offline_no_indicator :
  connected Sample.offline = false /\
  ~ (exists v,
       outcome (MQTT.publish_label_event Sample.world_pget "hash123" true
                  Sample.offline) = Ret v /\
       failure_indicator v).
Proof.
  split; [reflexivity|]. intros (v & Hv & Hf).
  rewrite publish_label_event_returns_none in Hv. injection Hv as <-.
  apply (Hf Sample.world_pget "hash123" true Sample.online).
  - vm_compute. reflexivity.
  - apply publish_label_event_returns_none.
Qed.

(** C8, amended.  On a handler that is not connected,
    [publish_label_event] logs one warning and returns [None] with the
    state as before: the transport is not asked to send and nothing is
    waited for.  [None] is what every call returns. *)
Theorem publish_label_event_offline
    (w : world) (hash_ : string) (success : bool) (s : state) :
  connected s = false ->
  MQTT.publish_label_event w hash_ success s =
  (Ret PyNone, s,
   [ Log "MQTT" WARNING "Cannot publish label event - MQTT not connected" ]) /\
  List.filter is_publish (events (MQTT.publish_label_event w hash_ success s)) = [] /\
  List.filter is_sleep (events (MQTT.publish_label_event w hash_ success s)) = [] /\
  (forall (w' : world) (s' : state),
     outcome (MQTT.publish_label_event w' hash_ success s') = Ret PyNone).
Proof.
  intros Hc.
  assert (Heq : MQTT.publish_label_event w hash_ success s =
                (Ret PyNone, s,
                 [ Log "MQTT" WARNING "Cannot publish label event - MQTT not connected" ])).
  { unfold MQTT.publish_label_event, MQTT.log, bind, get, emit, ret.
    rewrite Hc. reflexivity. }
  rewrite Heq. repeat split.
  intros w' s'. apply publish_label_event_returns_none.
Qed.

Lemma publish_label_event_offline_witness :
  MQTT.publish_label_event Sample.world_pget "hash123" true Sample.offline =
  (Ret PyNone, Sample.offline,
   [ Log "MQTT" WARNING "Cannot publish label event - MQTT not connected" ]).
Proof.
  exact (proj1 (publish_label_event_offline Sample.world_pget "hash123" true
                  Sample.offline eq_refl)).
Defined.


(** * Further properties of the transfer executor *)

(** X1.  The destination directory does not exist: [transfer_file] returns
    [False] after asking only whether it is a directory; it enters no
    directory, does not look for [lftp], starts no child process and leaves
    the state as it was. *)
Theorem transfer_file_missing_directory
    (w : world) (cfg : Config.settings) (m : gmap string string)
    (target hash_ typecode d : string) (s : state) :
  destination m typecode = Some d ->
  os_path_isdir w (cwd s) d = false ->
  outcome (Transfer.transfer_file w cfg m target hash_ typecode s) = Ret false /\
  final (Transfer.transfer_file w cfg m target hash_ typecode s) = s /\
  requests (events (Transfer.transfer_file w cfg m target hash_ typecode s)) =
  [IsDir d].
Proof.
  intros Hd Hdir.
  rewrite (transfer_file_resolved w cfg m target hash_ typecode d s Hd).
  rewrite (transfer_to_missing w cfg target typecode d s Hdir).
  unfold prepend, outcome, final, events. cbn [fst snd].
  rewrite requests_app, requests_resolution_log. repeat split.
Qed.

Lemma transfer_file_missing_directory_witness :
  requests (events (Transfer.transfer_file Sample.world_no_dir Sample.cfg
                      Sample.types "movie.mkv" "hash123" "MOV" Sample.online)) =
  [IsDir "/d/movies"].
Proof.
  exact (proj2 (proj2 (transfer_file_missing_directory Sample.world_no_dir
                         Sample.cfg Sample.types "movie.mkv" "hash123" "MOV"
                         "/d/movies" Sample.online eq_refl eq_refl))).
Defined.

(** X2.  The destination directory exists but cannot be entered:
    [transfer_file] returns [False], the working directory is the one
    before the call, and neither [lftp] is looked for nor a child process
    started nor a permission set. *)
Theorem transfer_file_chdir_refused
    (w : world) (cfg : Config.settings) (m : gmap string string)
    (target hash_ typecode d : string) (s : state) :
  destination m typecode = Some d ->
  os_path_isdir w (cwd s) d = true ->
  os_chdir w (cwd s) d = false ->
  outcome (Transfer.transfer_file w cfg m target hash_ typecode s) = Ret false /\
  final (Transfer.transfer_file w cfg m target hash_ typecode s) = s /\
  requests (events (Transfer.transfer_file w cfg m target hash_ typecode s)) =
  [IsDir d; Chdir d].
Proof.
  intros Hd Hdir Hch.
  rewrite (transfer_file_resolved w cfg m target hash_ typecode d s Hd).
  rewrite (transfer_to_unentered w cfg target typecode d s Hdir Hch).
  unfold prepend, outcome, final, events. cbn [fst snd].
  rewrite requests_app, requests_resolution_log. repeat split.
Qed.

Lemma transfer_file_chdir_refused_witness :
  final (Transfer.transfer_file Sample.world_no_entry Sample.cfg
           Sample.types "movie.mkv" "hash123" "MOV" Sample.online) =
  Sample.online.
Proof.
  exact (proj1 (proj2 (transfer_file_chdir_refused Sample.world_no_entry
                         Sample.cfg Sample.types "movie.mkv" "hash123" "MOV"
                         "/d/movies" Sample.online eq_refl eq_refl eq_refl))).
Defined.

(** X3.  [lftp] is not on the path: [transfer_file] returns [False] without
    starting a child process or setting a permission, but only after it has
    entered the destination directory, which stays the working directory. *)
Theorem transfer_file_without_lftp
    (w : world) (cfg : Config.settings) (m : gmap string string)
    (target hash_ typecode d : string) (s : state) :
  destination m typecode = Some d ->
  os_path_isdir w (cwd s) d = true ->
  os_chdir w (cwd s) d = true ->
  opt_truthy (shutil_which w "lftp") = false ->
  outcome (Transfer.transfer_file w cfg m target hash_ typecode s) = Ret false /\
  final (Transfer.transfer_file w cfg m target hash_ typecode s) =
    set_cwd (path_join (cwd s) d) s /\
  requests (events (Transfer.transfer_file w cfg m target hash_ typecode s)) =
  [IsDir d; Chdir d; Which "lftp"].
Proof.
  intros Hd Hdir Hch Hw.
  rewrite (transfer_file_resolved w cfg m target hash_ typecode d s Hd).
  rewrite (transfer_to_changed w cfg target typecode d s Hdir Hch).
  rewrite (transfer_here_no_lftp w cfg target d _ Hw).
  unfold prepend, outcome, final, events. cbn [fst snd].
  rewrite !requests_app, requests_resolution_log. repeat split.
Qed.

Lemma transfer_file_without_lftp_witness :
  cwd (final (Transfer.transfer_file Sample.world_no_lftp Sample.cfg
                Sample.types "movie.mkv" "hash123" "MOV" Sample.online)) =
  "/d/movies".
Proof.
  exact (f_equal cwd
           (proj1 (proj2 (transfer_file_without_lftp Sample.world_no_lftp
                            Sample.cfg Sample.types "movie.mkv" "hash123" "MOV"
                            "/d/movies" Sample.online
                            eq_refl eq_refl eq_refl eq_refl)))).
Defined.

(** X4.  What [os.chmod] answers has no influence on [transfer_file]: with
    any other answer the call has the same outcome, leaves the same state
    and makes the same requests. *)
Theorem transfer_file_ignores_chmod
    (w : world) (f : string -> string -> Z -> bool)
    (cfg : Config.settings) (m : gmap string string)
    (target hash_ typecode : string) (s : state) :
  outcome (Transfer.transfer_file (with_chmod f w) cfg m target hash_ typecode s) =
  outcome (Transfer.transfer_file w cfg m target hash_ typecode s) /\
  final (Transfer.transfer_file (with_chmod f w) cfg m target hash_ typecode s) =
  final (Transfer.transfer_file w cfg m target hash_ typecode s) /\
  requests (events (Transfer.transfer_file (with_chmod f w) cfg m target hash_ typecode s)) =
  requests (events (Transfer.transfer_file w cfg m target hash_ typecode s)).
Proof.
  pose proof (transfer_file_cases w cfg m target hash_ typecode s) as C.
  pose proof (transfer_file_cases (with_chmod f w) cfg m target hash_ typecode s) as C'.
  change (os_path_isdir (with_chmod f w)) with (os_path_isdir w) in C'.
  change (os_chdir (with_chmod f w)) with (os_chdir w) in C'.
  change (shutil_which (with_chmod f w)) with (shutil_which w) in C'.
  change (Transfer.attempt (with_chmod f w)) with (Transfer.attempt w) in C'.
  open_cases; try congruence;
    try (repeat split; congruence).
  match goal with
  | H1 : destination m typecode = Some ?d1,
    H2 : destination m typecode = Some ?d2 |- _ =>
      assert (d1 = d2) by congruence; subst d1
  end.
  match goal with
  | H1 : Transfer.transfer_file w _ _ _ _ _ _ = _,
    H2 : Transfer.transfer_file (with_chmod f w) _ _ _ _ _ _ = _ |- _ =>
      rewrite H1, H2
  end.
  rewrite !outcome_prepend, !final_prepend, !events_prepend, !requests_app.
  match goal with
  | |- context [bind (Transfer.attempt w cfg target) (Transfer.finish w target ?d) ?s1] =>
      pose proof (core_cases w cfg target d s1) as K;
      pose proof (core_cases (with_chmod f w) cfg target d s1) as K'
  end.
  change (Transfer.attempt (with_chmod f w)) with (Transfer.attempt w) in K'.
  open_cases; try congruence.
  - match goal with
    | H1 : Transfer.attempt w cfg target _ = (Ret ?b1, ?s1, ?t1),
      H2 : Transfer.attempt w cfg target _ = (Ret ?b2, ?s2, ?t2) |- _ =>
        assert (b1 = b2 /\ s1 = s2 /\ t1 = t2) as (-> & -> & ->)
          by (repeat split; congruence)
    end.
    repeat split; congruence.
  - match goal with
    | H1 : bind _ _ _ = (Raise _, _, _), H2 : bind _ _ _ = (Raise _, _, _) |- _ =>
        rewrite H1, H2
    end.
    match goal with
    | H1 : Transfer.attempt w cfg target _ = (Raise ?e1, ?s1, ?t1),
      H2 : Transfer.attempt w cfg target _ = (Raise ?e2, ?s2, ?t2) |- _ =>
        assert (e1 = e2 /\ s1 = s2 /\ t1 = t2) as (-> & -> & ->)
          by (repeat split; congruence)
    end.
    repeat split.
Qed.

(** X5.  A call that comes to the transfer attempt and returns has built
    both commands and makes its requests in this order: the directory
    check, the change of directory, the search for [lftp], the mirror, the
    pget if there is one, and last a single [chmod] of the base name of the
    target to mode 0o666, also when the value returned is [False]. *)
Theorem transfer_file_requests_in_order
    (w : world) (cfg : Config.settings) (m : gmap string string)
    (target hash_ typecode d : string) (s : state) (b : bool) :
  destination m typecode = Some d ->
  os_path_isdir w (cwd s) d = true ->
  os_chdir w (cwd s) d = true ->
  opt_truthy (shutil_which w "lftp") = true ->
  outcome (Transfer.transfer_file w cfg m target hash_ typecode s) = Ret b ->
  exists mirror pget,
    coutcome (Transfer.mirror_cmd cfg target) = Ret mirror /\
    coutcome (Transfer.pget_cmd cfg target) = Ret pget /\
    (requests (events (Transfer.transfer_file w cfg m target hash_ typecode s)) =
       [ IsDir d; Chdir d; Which "lftp"; Run mirror;
         Chmod (basename target) 438 ] \/
     requests (events (Transfer.transfer_file w cfg m target hash_ typecode s)) =
       [ IsDir d; Chdir d; Which "lftp"; Run mirror; Run pget;
         Chmod (basename target) 438 ]).
Proof.
  intros Hd Hdir Hch Hw.
  destruct (transfer_file_attempted w cfg m target hash_ typecode d s
              Hd Hdir Hch Hw) as (Ho & _ & Hr).
  cbv zeta in Ho, Hr. rewrite Ho, Hr. clear Ho Hr. intros Hout.
  destruct (attempt_paths w cfg target (set_cwd (path_join (cwd s) d) s)) as [P|P];
    open_cases; try congruence;
    match goal with
    | H1 : coutcome (Transfer.mirror_cmd cfg target) = Ret ?m1,
      H2 : coutcome (Transfer.pget_cmd cfg target) = Ret ?p1 |- _ =>
        exists m1, p1; split; [exact H1|split; [exact H2|]]
    end;
    observed; [left|right]; reflexivity.
Qed.

Lemma transfer_file_requests_in_order_witness :
  exists mirror pget,
    requests (events (Transfer.transfer_file Sample.world_pget Sample.cfg
                        Sample.types "dir/movie.mkv" "hash123" "MOV" Sample.online)) =
    [ IsDir "/d/movies"; Chdir "/d/movies"; Which "lftp";
      Run mirror; Run pget; Chmod "movie.mkv" 438 ].
Proof.
  destruct (transfer_file_requests_in_order Sample.world_pget Sample.cfg
              Sample.types "dir/movie.mkv" "hash123" "MOV" "/d/movies"
              Sample.online true eq_refl eq_refl eq_refl eq_refl
              ltac:(vm_compute; reflexivity))
    as (mirror & pget & _ & _ & [H|H]).
  - vm_compute in H. discriminate H.
  - exists mirror, pget. exact H.
Defined.

(** X6.  Whatever the world answers, one call of [transfer_file] starts no
    child process, or the mirror alone, or the mirror and then the pget:
    never more than two, and never the pget without the mirror; and the
    commands are those that lines 71-75 and 97-100 build. *)
Theorem transfer_file_at_most_two_children
    (w : world) (cfg : Config.settings) (m : gmap string string)
    (target hash_ typecode : string) (s : state) :
  List.filter is_run
    (events (Transfer.transfer_file w cfg m target hash_ typecode s)) = [] \/
  exists mirror,
    coutcome (Transfer.mirror_cmd cfg target) = Ret mirror /\
    (List.filter is_run
       (events (Transfer.transfer_file w cfg m target hash_ typecode s)) =
       [Run mirror] \/
     exists pget,
       coutcome (Transfer.pget_cmd cfg target) = Ret pget /\
       List.filter is_run
         (events (Transfer.transfer_file w cfg m target hash_ typecode s)) =
         [Run mirror; Run pget]).
Proof.
  rewrite <- filter_run_requests.
  pose proof (transfer_file_cases w cfg m target hash_ typecode s) as C.
  open_cases;
    try (match goal with
         | H : requests (events _) = _ |- _ => rewrite H
         end; left; reflexivity).
  match goal with
  | H1 : destination m typecode = Some ?d, H2 : os_path_isdir _ _ _ = true,
    H3 : os_chdir _ _ _ = true, H4 : opt_truthy _ = true |- _ =>
      destruct (transfer_file_attempted w cfg m target hash_ typecode d s
                  H1 H2 H3 H4) as (_ & _ & Hr)
  end.
  cbv zeta in Hr. rewrite Hr. clear Hr.
  match goal with
  | |- context [Transfer.attempt w cfg target ?s1] =>
      pose proof (attempt_paths w cfg target s1) as P
  end.
  open_cases; observed;
    try (left; reflexivity);
    right;
    match goal with
    | H1 : coutcome (Transfer.mirror_cmd cfg target) = Ret ?m1,
      H2 : coutcome (Transfer.pget_cmd cfg target) = Ret ?p1 |- _ =>
        exists m1; split; [exact H1|];
        first [ left; reflexivity
              | right; exists p1; split; [exact H2|reflexivity] ]
    end.
Qed.

(** X7.  [transfer_file] leaves the fields of the handler alone, connected
    flag, running flag and the three delays, and every event of the call is
    a log record of the transfer logger, a log record of the configuration
    it reads, or a request to the operating system: nothing is published
    and nothing is waited for. *)
Theorem transfer_file_keeps_handler
    (w : world) (cfg : Config.settings) (m : gmap string string)
    (target hash_ typecode : string) (s : state) :
  handler_fields (final (Transfer.transfer_file w cfg m target hash_ typecode s)) =
  handler_fields s /\
  Forall (fun e =>
            match e with
            | Log logger _ _ => logger = "Transfer" \/ logger = "Config"
            | IsDir _ | Chdir _ | Which _ | Run _ | Chmod _ _ => True
            | _ => False
            end)
         (events (Transfer.transfer_file w cfg m target hash_ typecode s)).
Proof.
  apply (transfer_file_respects w cfg m
           (fun s' => handler_fields s' = handler_fields s)
           (fun e =>
              match e with
              | Log logger _ _ => logger = "Transfer" \/ logger = "Config"
              | IsDir _ | Chdir _ | Which _ | Run _ | Chmod _ _ => True
              | _ => False
              end)
           target hash_ typecode);
    auto.
  intros e He. destruct e; try discriminate He; try exact Logic.I.
  cbn in He. apply orb_true_iff in He as [He|He]; apply String.eqb_eq in He; auto.
Qed.

(** The log records of the configuration do occur: under the sample
    configuration a transfer that comes to the mirror has read [CREDS]. *)
Example transfer_file_reads_configuration :
  In (Log "Config" DEBUG "Getting config value for key: %s (env var: %s)")
     (events (Transfer.transfer_file Sample.world_pget Sample.cfg Sample.types
                "movie.mkv" "hash123" "MOV" Sample.online)).
Proof. vm_compute. auto 20. Qed.

(** X8.  [transfer_file] returns [True] only when the destination was bound,
    exists, was entered, [lftp] was found, the commands were built and one
    of the two child processes exited with status 0 and with output that is
    text. *)
Theorem transfer_file_true_only_after_success
    (w : world) (cfg : Config.settings) (m : gmap string string)
    (target hash_ typecode : string) (s : state) :
  outcome (Transfer.transfer_file w cfg m target hash_ typecode s) = Ret true ->
  exists d mirror pget,
    destination m typecode = Some d /\
    os_path_isdir w (cwd s) d = true /\
    os_chdir w (cwd s) d = true /\
    opt_truthy (shutil_which w "lftp") = true /\
    coutcome (Transfer.mirror_cmd cfg target) = Ret mirror /\
    coutcome (Transfer.pget_cmd cfg target) = Ret pget /\
    ((exists out err,
        subprocess_run w (spawned s) (path_join (cwd s) d) mirror =
        Exited 0 out err) \/
     (exists out err,
        subprocess_run w (S (spawned s)) (path_join (cwd s) d) pget =
        Exited 0 out err)).
Proof.
  intros Hout.
  pose proof (transfer_file_cases w cfg m target hash_ typecode s) as C.
  open_cases; try congruence.
  match goal with
  | H1 : destination m typecode = Some ?d, H2 : os_path_isdir _ _ _ = true,
    H3 : os_chdir _ _ _ = true, H4 : opt_truthy _ = true |- _ =>
      destruct (transfer_file_attempted w cfg m target hash_ typecode d s
                  H1 H2 H3 H4) as (Ho & _ & _);
      exists d
  end.
  cbv zeta in Ho. rewrite Ho in Hout. clear Ho.
  match type of Hout with
  | context [Transfer.attempt w cfg target ?s1] =>
      pose proof (attempt_paths w cfg target s1) as P
  end.
  open_cases; try congruence;
    match goal with
    | H1 : coutcome (Transfer.mirror_cmd cfg target) = Ret ?m1,
      H2 : coutcome (Transfer.pget_cmd cfg target) = Ret ?p1 |- _ =>
        exists m1, p1
    end;
    repeat (split; [assumption|]);
    cbn [cwd spawned set_cwd] in *.
  - left. eauto.
  - right.
    match goal with
    | H : outcome _ = Ret (Z.eqb ?rc 0) |- _ =>
        rewrite H in Hout; injection Hout as Hout; apply Z.eqb_eq in Hout;
        subst rc
    end.
    eauto.
Qed.

Lemma transfer_file_true_only_after_success_witness :
  exists d, destination Sample.types "MOV" = Some d /\
            os_path_isdir Sample.world_pget (cwd Sample.online) d = true.
Proof.
  destruct (transfer_file_true_only_after_success Sample.world_pget Sample.cfg
              Sample.types "movie.mkv" "hash123" "MOV" Sample.online
              ltac:(vm_compute; reflexivity))
    as (d & mirror & pget & H1 & H2 & _).
  exists d. split; assumption.
Defined.

(** * Further properties of the dispatcher *)

Lemma transfer_events_quiet (t : list event) :
  Forall (fun e => transfer_event e = true) t ->
  List.filter is_publish t = [].
Proof.
  intros H. apply filter_none. eapply List.Forall_impl; [|exact H].
  intros e He. destruct e; try reflexivity; discriminate He.
Qed.

Section Acknowledge.

Context (w : world) (cfg : Config.settings).

(** On a connected handler the label goes to the transport once, and the
    call returns [None] with the state as before whatever the transport
    does. *)
Lemma publish_label_event_online (hash_ : string) (success : bool) (s : state) :
  connected s = true ->
  outcome (MQTT.publish_label_event w hash_ success s) = Ret PyNone /\
  final (MQTT.publish_label_event w hash_ success s) = s /\
  requests (events (MQTT.publish_label_event w hash_ success s)) =
  [ Publish MQTT.LABEL_CHANNEL
      (hash_ +:+ String TAB EmptyString +:+ (if success then MQTT.ACK else MQTT.NACK))
      2 ].
Proof.
  intros Hc.
  unfold MQTT.publish_label_event, MQTT.publish, MQTT.log, bind, try_except,
    get, emit, ret, raise, outcome, final, events, requests.
  rewrite Hc. cbn.
  destruct (client_publish w _ _ _) as [rc mid|]; cbn; [|repeat split].
  destruct (Z.eqb rc MQTT.MQTT_ERR_SUCCESS); cbn; repeat split.
Qed.

(** On a handler that is not connected nothing goes to the transport. *)
Lemma publish_label_event_offline_requests
    (hash_ : string) (success : bool) (s : state) :
  connected s = false ->
  outcome (MQTT.publish_label_event w hash_ success s) = Ret PyNone /\
  final (MQTT.publish_label_event w hash_ success s) = s /\
  requests (events (MQTT.publish_label_event w hash_ success s)) = [].
Proof.
  intros Hc.
  unfold MQTT.publish_label_event, MQTT.log, bind, get, emit, ret,
    outcome, final, events, requests.
  rewrite Hc. cbn. repeat split.
Qed.

(** What follows the transfer, when [labelling] reads true and for a hash
    that is not ["NotUsed"]. *)
Lemma acknowledge_labelled (hash_ : string) (success : bool) (s : state) :
  coutcome (Config.labelling cfg) = Ret true ->
  hash_ <> "NotUsed" ->
  outcome (MQTT.acknowledge w cfg hash_ success s) = Ret PyNone /\
  final (MQTT.acknowledge w cfg hash_ success s) = s /\
  requests (events (MQTT.acknowledge w cfg hash_ success s)) =
  if connected s
  then [ Publish MQTT.LABEL_CHANNEL
           (hash_ +:+ String TAB EmptyString +:+ (if success then MQTT.ACK else MQTT.NACK))
           2 ]
  else [].
Proof.
  intros Hl Hne. unfold MQTT.acknowledge.
  rewrite bind_mqtt_log, (bind_lift_ret _ true _ _ Hl).
  cbn [andb]. rewrite (proj2 (String.eqb_neq hash_ "NotUsed") Hne). cbn [negb].
  rewrite !outcome_prepend, !final_prepend, !events_prepend, !requests_app,
    quiet_requests by auto with quiet.
  unfold MQTT.publish_label_event, MQTT.publish, MQTT.log,
    bind, try_except, get, emit, ret, raise, outcome, final, events, requests.
  destruct (connected s); cbn; [|repeat split].
  destruct (client_publish w _ _ _) as [rc mid|]; cbn; [|repeat split].
  destruct (Z.eqb rc MQTT.MQTT_ERR_SUCCESS); cbn; repeat split.
Qed.

(** What follows the transfer raises only what the read of [labelling]
    raises. *)
Lemma acknowledge_outcome (hash_ : string) (success : bool) (s : state) :
  outcome (MQTT.acknowledge w cfg hash_ success s) =
  match coutcome (Config.labelling cfg) with
  | Ret _ => Ret PyNone
  | Raise e => Raise e
  end.
Proof.
  unfold MQTT.acknowledge. rewrite bind_mqtt_log, outcome_prepend.
  destruct (coutcome (Config.labelling cfg)) as [b|e] eqn:Hl.
  2:{ rewrite (bind_lift_raise _ e _ _ Hl). reflexivity. }
  rewrite (bind_lift_ret _ b _ _ Hl), outcome_prepend.
  destruct (b && negb (String.eqb hash_ "NotUsed")).
  - rewrite bind_eq, bind_mqtt_log, bind_eq.
    pose proof (publish_label_event_returns_none w hash_ success s) as Hn.
    destruct (MQTT.publish_label_event w hash_ success s) as [[[v|e] s1] t1];
      [reflexivity|discriminate Hn].
  - rewrite bind_eq, (bind_lift_ret _ b _ _ Hl). reflexivity.
Qed.

End Acknowledge.

Lemma requests_dispatch_log (rest : list string) :
  requests (dispatch_log rest) = [].
Proof. unfold dispatch_log. destruct rest; reflexivity. Qed.

(** X9.  Fields after the third have no influence on [on_message]: two
    payloads with the same first three fields give the same outcome, leave
    the same state and make the same requests, transfers and publish
    alike. *)
Theorem on_message_ignores_extra_fields
    (w : world) (cfg : Config.settings) (m : gmap string string)
    (p1 p2 : list Byte.byte) (s : state)
    (f h t : string) (rest1 rest2 : list string) :
  utf8_valid (map Byte.to_N p1) = true ->
  utf8_valid (map Byte.to_N p2) = true ->
  split TAB (string_of_list_byte p1) = f :: h :: t :: rest1 ->
  split TAB (string_of_list_byte p2) = f :: h :: t :: rest2 ->
  outcome (MQTT.on_message w cfg m p1 s) = outcome (MQTT.on_message w cfg m p2 s) /\
  final (MQTT.on_message w cfg m p1 s) = final (MQTT.on_message w cfg m p2 s) /\
  requests (events (MQTT.on_message w cfg m p1 s)) =
  requests (events (MQTT.on_message w cfg m p2 s)).
Proof.
  intros Hv1 Hv2 Hs1 Hs2.
  rewrite (on_message_dispatch w cfg m p1 s f h t rest1 Hv1 Hs1).
  rewrite (on_message_dispatch w cfg m p2 s f h t rest2 Hv2 Hs2).
  rewrite !outcome_prepend, !final_prepend, !events_prepend, !requests_app,
    !requests_dispatch_log.
  repeat split.
Qed.

Lemma on_message_ignores_extra_fields_witness :
  requests (events (MQTT.on_message Sample.world_pget Sample.cfg Sample.types
                      Sample.movie_extra Sample.online)) =
  requests (events (MQTT.on_message Sample.world_pget Sample.cfg Sample.types
                      Sample.movie Sample.online)).
Proof.
  exact (proj2 (proj2 (on_message_ignores_extra_fields Sample.world_pget
                         Sample.cfg Sample.types Sample.movie_extra Sample.movie
                         Sample.online "movie.mkv" "hash123" "MOV"
                         ["extra"; "fields"] []
                         eq_refl eq_refl eq_refl eq_refl))).
Defined.

(** X10.  When [labelling] reads true, for a hash other than ["NotUsed"]
    and a transfer that returns: [on_message] returns [None], and on a
    connected handler it publishes exactly one message, the hash with
    ["DONE"] when the transfer returned [True] and with ["NOPE"] when it
    returned [False]; on a handler that is not connected it publishes
    nothing. *)
Theorem on_message_acknowledges_outcome
    (w : world) (cfg : Config.settings) (m : gmap string string)
    (payload : list Byte.byte) (s : state)
    (f h t : string) (rest : list string) (b : bool) :
  utf8_valid (map Byte.to_N payload) = true ->
  split TAB (string_of_list_byte payload) = f :: h :: t :: rest ->
  coutcome (Config.labelling cfg) = Ret true ->
  h <> "NotUsed" ->
  outcome (Transfer.transfer_file w cfg m f h t s) = Ret b ->
  outcome (MQTT.on_message w cfg m payload s) = Ret PyNone /\
  List.filter is_publish (events (MQTT.on_message w cfg m payload s)) =
  if connected s
  then [ Publish MQTT.LABEL_CHANNEL
           (h +:+ String TAB EmptyString +:+ (if b then MQTT.ACK else MQTT.NACK)) 2 ]
  else [].
Proof.
  intros Hv Hsplit Hl Hne Hb.
  rewrite (on_message_dispatch w cfg m payload s f h t rest Hv Hsplit).
  rewrite outcome_prepend, events_prepend, List.filter_app,
    (filter_none _ _ (dispatch_log_quiet rest)).
  cbn [app].
  destruct (transfer_file_respects w cfg m
              (fun s' => connected s' = connected s)
              (fun e => transfer_event e = true) f h t
              ltac:(auto) ltac:(auto) ltac:(auto) s eq_refl) as [Hc Hev].
  rewrite bind_eq.
  destruct (Transfer.transfer_file w cfg m f h t s) as [[r s1] t1].
  unfold outcome in Hb; cbn [fst] in Hb. subst r.
  unfold final in Hc; cbn [fst snd] in Hc.
  unfold events in Hev; cbn [snd] in Hev.
  destruct (acknowledge_labelled w cfg h b s1 Hl Hne) as (Ho & _ & Hr).
  rewrite outcome_prepend, events_prepend, List.filter_app,
    (transfer_events_quiet t1 Hev), <- filter_publish_requests, Hr, Hc.
  split; [exact Ho|]. destruct (connected s); reflexivity.
Qed.

Lemma on_message_acknowledges_outcome_witness :
  List.filter is_publish
    (events (MQTT.on_message Sample.world_no_dir Sample.cfg Sample.types
               Sample.movie Sample.online)) =
  [ Publish "Label" ("hash123" +:+ String TAB EmptyString +:+ "NOPE") 2 ].
Proof.
  exact (proj2 (on_message_acknowledges_outcome Sample.world_no_dir Sample.cfg
                  Sample.types Sample.movie Sample.online
                  "movie.mkv" "hash123" "MOV" [] false
                  eq_refl eq_refl ltac:(vm_compute; reflexivity)
                  ltac:(discriminate) eq_refl)).
Defined.

(** X11.  On a connected handler [publish_label_event] hands the label to
    the transport exactly once, at QoS 2 on ["Label"], and returns [None]
    with the state as before whatever the transport does: a publish that
    raises is logged as an error, one that reports a nonzero code as a
    warning, and nothing is tried again. *)
Theorem publish_label_event_sends_once
    (w : world) (hash_ : string) (success : bool) (s : state) :
  connected s = true ->
  outcome (MQTT.publish_label_event w hash_ success s) = Ret PyNone /\
  final (MQTT.publish_label_event w hash_ success s) = s /\
  requests (events (MQTT.publish_label_event w hash_ success s)) =
  [ Publish "Label"
      (hash_ +:+ String TAB EmptyString +:+ (if success then "DONE" else "NOPE")) 2 ] /\
  (client_publish w "Label"
     (hash_ +:+ String TAB EmptyString +:+ (if success then "DONE" else "NOPE")) 2 =
   PublishError ->
   In (Log "MQTT" ERROR "Exception while publishing label event: %s")
      (events (MQTT.publish_label_event w hash_ success s))) /\
  (forall rc mid,
     client_publish w "Label"
       (hash_ +:+ String TAB EmptyString +:+ (if success then "DONE" else "NOPE")) 2 =
     MessageInfo rc mid ->
     rc <> 0 ->
     In (Log "MQTT" WARNING "Failed to publish label event, return code: %d")
        (events (MQTT.publish_label_event w hash_ success s))).
Proof.
  intros Hc.
  unfold MQTT.publish_label_event, MQTT.publish, MQTT.log, bind, try_except,
    get, emit, ret, raise, outcome, final, events, requests,
    MQTT.LABEL_CHANNEL, MQTT.ACK, MQTT.NACK.
  rewrite Hc. cbn.
  destruct (client_publish w _ _ _) as [rc mid|]; cbn.
  - destruct (Z.eqb_spec rc MQTT.MQTT_ERR_SUCCESS) as [->|Hrc]; cbn;
      repeat split; try discriminate.
    + intros rc' mid' H Hrc'. injection H as <- _. contradiction.
    + intros rc' mid' H Hrc'. auto 10.
  - repeat split; try discriminate. intros _. auto 10.
Qed.

Lemma publish_label_event_sends_once_witness :
  requests (events (MQTT.publish_label_event Sample.world_publish_error
                      "hash123" false Sample.online)) =
  [ Publish "Label" ("hash123" +:+ String TAB EmptyString +:+ "NOPE") 2 ].
Proof.
  exact (proj1 (proj2 (proj2 (publish_label_event_sends_once
                                Sample.world_publish_error "hash123" false
                                Sample.online eq_refl)))).
Defined.

(** [on_message] produces log records of its own, the events of the
    transfer and publishes, and touches only the working directory and the
    count of child processes. *)
Lemma on_message_events_respect
    (w : world) (cfg : Config.settings) (m : gmap string string)
    (I : state -> Prop) (E : event -> Prop) (payload : list Byte.byte) :
  (forall d s, I s -> I (set_cwd d s)) ->
  (forall s, I s -> I (incr_spawned s)) ->
  (forall e, transfer_event e = true -> E e) ->
  (forall lv fmt, E (Log "MQTT" lv fmt)) ->
  (forall e, is_publish e = true -> E e) ->
  respects I E (MQTT.on_message w cfg m payload).
Proof.
  intros Hcwd Hspawn HT HL HP.
  unfold MQTT.on_message, MQTT.bytes_decode, MQTT.acknowledge,
    MQTT.publish_label_event, MQTT.publish, MQTT.log.
  respects_split;
    try solve [ apply respects_emit, HL
              | apply respects_emit, HP; reflexivity
              | intros e0 He0; apply HT, config_is_transfer_event, He0 ].
  apply transfer_file_respects; assumption.
Qed.

(** X12.  [on_message] leaves the fields of the handler alone, and it never
    connects, subscribes, disconnects or waits: whatever the payload, its
    events are log records, requests of the transfer and publishes. *)
Theorem on_message_keeps_handler
    (w : world) (cfg : Config.settings) (m : gmap string string)
    (payload : list Byte.byte) (s : state) :
  handler_fields (final (MQTT.on_message w cfg m payload s)) = handler_fields s /\
  Forall (fun e => is_connect e = false /\ is_subscribe e = false /\
                   is_disconnect e = false /\ is_sleep e = false)
         (events (MQTT.on_message w cfg m payload s)).
Proof.
  apply (on_message_events_respect w cfg m
           (fun s' => handler_fields s' = handler_fields s)
           (fun e => is_connect e = false /\ is_subscribe e = false /\
                     is_disconnect e = false /\ is_sleep e = false)
           payload); auto;
    intros e He; destruct e; try discriminate He; auto.
Qed.


(** * Further properties of the connection supervisor *)

(** X13.  [on_connect] marks the handler connected exactly for result code
    0.  For that code it sets the delay to the initial one and asks once
    for the subscription to ["Down"] at QoS 2; the flag and the delay are
    set before the request, so the handler stays marked connected whatever
    the client answers, a failure code or an exception, and an exception of
    [subscribe] leaves [on_connect] as it is.  For any other code it asks
    for nothing, leaves the delay as it was and returns [None].  The
    running flag and the two configured delays are never changed. *)
Theorem on_connect_marks_connected (w : world) (rc : Z) (s : state) :
  outcome (MQTT.on_connect w rc s) =
    (if Z.eqb rc 0
     then match client_subscribe w "Down" 2 with
          | Subscribed _ _ => Ret PyNone
          | SubscribeError e => Raise e
          end
     else Ret PyNone) /\
  connected (final (MQTT.on_connect w rc s)) = Z.eqb rc 0 /\
  current_reconnect_delay (final (MQTT.on_connect w rc s)) =
    (if Z.eqb rc 0 then reconnect_delay s else current_reconnect_delay s) /\
  requests (events (MQTT.on_connect w rc s)) =
    (if Z.eqb rc 0 then [Subscribe "Down" 2] else []) /\
  running (final (MQTT.on_connect w rc s)) = running s /\
  reconnect_delay (final (MQTT.on_connect w rc s)) = reconnect_delay s /\
  max_reconnect_delay (final (MQTT.on_connect w rc s)) = max_reconnect_delay s.
Proof.
  unfold MQTT.on_connect, MQTT.subscribe, MQTT.log, MQTT.queue_channel,
    bind, get, emit, modify, ret, raise, outcome, final, events, requests.
  destruct (Z.eqb rc 0); cbn; [|repeat split].
  destruct (client_subscribe w "Down" 2) as [r mid|e]; cbn; [|repeat split].
  destruct (Z.eqb r MQTT.MQTT_ERR_SUCCESS); cbn; repeat split.
Qed.

(** A client that raises on [subscribe]: the exception leaves [on_connect],
    and the handler is marked connected all the same. *)
Example on_connect_subscribe_raises :
  outcome (MQTT.on_connect Sample.world_subscribe_error 0 Sample.offline) =
    Raise OSError /\
  connected (final (MQTT.on_connect Sample.world_subscribe_error 0 Sample.offline)) =
    true.
Proof. split; reflexivity. Qed.

(** A turn of the supervising loop on a running handler that is not
    connected: a warning, the connect loop, and the poll interval once the
    loop has been left. *)
Lemma poll_reconnects (w : world) (cfg : Config.settings) (m : gmap string string)
    (answers : list bool) (s : state) :
  running s = true ->
  connected s = false ->
  events (MQTT.perform w cfg m (MQTT.Poll answers) s) =
  Log "MQTT" WARNING "MQTT connection lost, attempting to reconnect..."
  :: (events (MQTT._connect_with_retry cfg answers s)
      ++ match outcome (MQTT._connect_with_retry cfg answers s) with
         | Ret true => [Sleep 1]
         | _ => []
         end)%list.
Proof.
  intros Hr Hc.
  unfold MQTT.perform, MQTT.log, bind, get, emit, ret, when, outcome, events.
  rewrite Hr, Hc. cbv beta iota delta [negb fst snd].
  destruct (MQTT._connect_with_retry cfg answers s) as [[[[|]|e] s1] t1];
    cbn; rewrite ?app_nil_r; reflexivity.
Qed.

(** What [on_disconnect] leaves behind. *)
Lemma on_disconnect_result (rc : Z) (s : state) :
  outcome (MQTT.on_disconnect rc s) = Ret PyNone /\
  final (MQTT.on_disconnect rc s) = set_connected false s /\
  requests (events (MQTT.on_disconnect rc s)) = [].
Proof.
  unfold MQTT.on_disconnect, MQTT.log, bind, get, emit, modify, ret, when,
    outcome, final, events, requests.
  destruct (Z.eqb rc 0); cbn; [repeat split|].
  destruct (running s); cbn; repeat split.
Qed.

(** X14.  [on_disconnect] clears the connected flag for every result code
    and does nothing else to the state; it makes no request itself.  After
    it no label is handed to the transport, and on a running handler the
    next turn of the supervising loop logs the loss and enters the [try] of
    the connect loop; when the configuration gives the host and the port of
    the broker, it calls [client.connect] with them. *)
Theorem on_disconnect_hands_over_to_supervisor (rc : Z) (s : state) :
  outcome (MQTT.on_disconnect rc s) = Ret PyNone /\
  final (MQTT.on_disconnect rc s) = set_connected false s /\
  requests (events (MQTT.on_disconnect rc s)) = [] /\
  (forall (w : world) (hash_ : string) (success : bool),
     requests (events (MQTT.publish_label_event w hash_ success
                         (final (MQTT.on_disconnect rc s)))) = []) /\
  (running s = true ->
   forall (w : world) (cfg : Config.settings) (m : gmap string string)
          (ok : bool) (answers : list bool),
   exists rest,
     events (MQTT.perform w cfg m (MQTT.Poll (ok :: answers))
               (final (MQTT.on_disconnect rc s))) =
     (Log "MQTT" WARNING "MQTT connection lost, attempting to reconnect..."
      :: events (MQTT.connect cfg ok (final (MQTT.on_disconnect rc s)))
      ++ rest)%list) /\
  (running s = true ->
   forall (w : world) (cfg : Config.settings) (m : gmap string string)
          (ok : bool) (answers : list bool) (host : string) (port : Z),
     coutcome (Config.bus_host cfg) = Ret host ->
     coutcome (Config.bus_port cfg) = Ret port ->
     In (Connect host port 60)
        (events (MQTT.perform w cfg m (MQTT.Poll (ok :: answers))
                   (final (MQTT.on_disconnect rc s))))).
Proof.
  destruct (on_disconnect_result rc s) as (Ho & Hf & Hr).
  rewrite Ho, Hf, Hr.
  split; [reflexivity|split; [reflexivity|split; [reflexivity|split; [|split]]]].
  - intros w hash_ success.
    apply (publish_label_event_offline_requests w hash_ success
             (set_connected false s) eq_refl).
  - intros Hrun w cfg m ok answers.
    rewrite (poll_reconnects w cfg m (ok :: answers) (set_connected false s)
               Hrun eq_refl).
    rewrite connect_with_retry_turn by (cbn; auto).
    destruct (outcome (MQTT.connect cfg ok (set_connected false s))).
    + eexists. reflexivity.
    + rewrite outcome_prepend, events_prepend. eexists.
      rewrite <- !app_assoc. reflexivity.
  - intros Hrun w cfg m ok answers host port Hh Hp.
    rewrite (poll_reconnects w cfg m (ok :: answers) (set_connected false s)
               Hrun eq_refl).
    apply in_cons, in_or_app. left.
    assert (Hin : In (Connect host port 60)
                    (events (MQTT.connect cfg ok (set_connected false s)))).
    { pose proof (proj2 (connect_called cfg ok (set_connected false s) host port
                           Hh Hp)) as Hreq.
      assert (H : In (Connect host port 60)
                    (requests (events (MQTT.connect cfg ok (set_connected false s)))))
        by (rewrite Hreq; left; reflexivity).
      apply List.filter_In in H. apply H. }
    rewrite connect_with_retry_turn by (cbn; auto).
    destruct (outcome (MQTT.connect cfg ok (set_connected false s))).
    + exact Hin.
    + rewrite events_prepend. apply in_or_app. left.
      apply in_or_app. left. exact Hin.
Qed.

Lemma on_disconnect_hands_over_to_supervisor_witness :
  In (Connect "broker.example" 1883 60)
     (events (MQTT.perform Sample.world_pget Sample.cfg Sample.types
                (MQTT.Poll [true]) (final (MQTT.on_disconnect 7 Sample.online)))).
Proof.
  exact (proj2 (proj2 (proj2 (proj2 (proj2
           (on_disconnect_hands_over_to_supervisor 7 Sample.online)))))
           eq_refl Sample.world_pget Sample.cfg Sample.types true []
           "broker.example" 1883
           ltac:(vm_compute; reflexivity) ltac:(vm_compute; reflexivity)).
Defined.

(** What [stop] leaves behind. *)
Lemma stop_result (s : state) :
  outcome (MQTT.stop s) = Ret PyNone /\
  final (MQTT.stop s) = set_running false s /\
  requests (events (MQTT.stop s)) =
    (if connected s then [LoopStop; Disconnect] else [LoopStop]).
Proof.
  unfold MQTT.stop, MQTT.log, bind, get, emit, modify, ret, when,
    outcome, final, events, requests.
  cbn. destruct (connected s); cbn; repeat split.
Qed.

(** X15.  [stop] clears the running flag, stops the network loop and asks
    for a disconnect exactly when the handler is marked connected; it
    leaves the connected flag as it was.  After [stop] neither the connect
    loop nor a turn of the supervising loop does anything, whatever
    answers the broker would give.  A second [stop] leaves the same state
    and repeats the same requests. *)
Theorem stop_ends_reconnection (s : state) :
  outcome (MQTT.stop s) = Ret PyNone /\
  final (MQTT.stop s) = set_running false s /\
  requests (events (MQTT.stop s)) =
    (if connected s then [LoopStop; Disconnect] else [LoopStop]) /\
  (forall (cfg : Config.settings) (answers : list bool),
     MQTT._connect_with_retry cfg answers (final (MQTT.stop s)) =
     (Ret true, final (MQTT.stop s), [])) /\
  (forall (w : world) (cfg : Config.settings) (m : gmap string string) (answers : list bool),
     MQTT.perform w cfg m (MQTT.Poll answers) (final (MQTT.stop s)) =
     (Ret tt, final (MQTT.stop s), [])) /\
  final (MQTT.stop (final (MQTT.stop s))) = final (MQTT.stop s) /\
  requests (events (MQTT.stop (final (MQTT.stop s)))) = requests (events (MQTT.stop s)).
Proof.
  destruct (stop_result s) as (Ho & Hf & Hr).
  destruct (stop_result (set_running false s)) as (Ho' & Hf' & Hr').
  rewrite Ho, Hf, Hr, Hf', Hr'.
  split; [reflexivity|split; [reflexivity|split; [reflexivity|]]].
  split; [|split; [|split; reflexivity]].
  - intros cfg answers. apply connect_with_retry_skipped. reflexivity.
  - intros w cfg m answers. reflexivity.
Qed.

Lemma doubled_delay (c M : Z) (i : nat) :
  0 < c <= M ->
  Z.min (Z.min (c * 2) M * 2 ^ Z.of_nat i) M =
  Z.min (c * 2 ^ Z.of_nat (S i)) M.
Proof.
  intros Hc.
  rewrite Nat2Z.inj_succ, Z.pow_succ_r by lia.
  assert (Hp : 0 < 2 ^ Z.of_nat i) by (apply Z.pow_pos_nonneg; lia).
  set (p := 2 ^ Z.of_nat i) in *.
  destruct (Z.le_gt_cases (c * 2) M) as [H|H].
  - rewrite (Z.min_l (c * 2) M) by lia. f_equal. ring.
  - rewrite (Z.min_r (c * 2) M) by lia.
    assert (H1 : M <= M * p) by nia.
    assert (H2 : M <= c * (2 * p)).
    { replace (c * (2 * p)) with (c * 2 * p) by ring.
      assert (c * 2 <= c * 2 * p) by nia. lia. }
    rewrite (Z.min_r (M * p) M H1), (Z.min_r (c * (2 * p)) M H2). reflexivity.
Qed.

(** The body of the [try] of the connect loop waits for nothing. *)
Lemma connect_no_wait (cfg : Config.settings) (ok : bool) (s : state) :
  List.filter is_sleep (events (MQTT.connect cfg ok s)) = [].
Proof.
  apply filter_none.
  apply (connect_respects cfg (fun _ => True) (fun e => is_sleep e = false) ok);
    [|exact Logic.I].
  intros e He. destruct e; try discriminate He; reflexivity.
Qed.

(** X16.  From a delay [c] with [0 < c <= max], [n] connect attempts that
    all fail make the handler wait [min (c * 2^i) max] seconds after the
    attempt of index [i], for [i] from 0 to [n - 1], and leave the delay at
    [min (c * 2^n) max]; the loop is then still going. *)
Theorem connect_with_retry_waits (cfg : Config.settings) (n : nat) (s : state) :
  running s = true ->
  connected s = false ->
  0 < current_reconnect_delay s <= max_reconnect_delay s ->
  List.filter is_sleep
    (events (MQTT._connect_with_retry cfg (List.repeat false n) s)) =
  List.map (fun i => Sleep (Z.min (current_reconnect_delay s * 2 ^ Z.of_nat i)
                              (max_reconnect_delay s)))
           (List.seq 0 n) /\
  current_reconnect_delay
    (final (MQTT._connect_with_retry cfg (List.repeat false n) s)) =
  Z.min (current_reconnect_delay s * 2 ^ Z.of_nat n) (max_reconnect_delay s) /\
  outcome (MQTT._connect_with_retry cfg (List.repeat false n) s) = Ret false.
Proof.
  revert s. induction n as [|n IH]; intros s Hr Hc Hd.
  - cbn [List.repeat MQTT._connect_with_retry].
    unfold bind, get, ret, outcome, final, events. rewrite Hr, Hc. cbn.
    rewrite Z.mul_1_r, Z.min_l by lia. repeat split.
  - cbn [List.repeat].
    rewrite connect_with_retry_failed by assumption.
    rewrite outcome_prepend, final_prepend, events_prepend, !List.filter_app,
      connect_no_wait.
    set (s' := set_current_reconnect_delay
                 (Z.min (current_reconnect_delay s * 2) (max_reconnect_delay s)) s).
    destruct (IH s' Hr Hc) as (Hw & Hf & Ho).
    { subst s'. cbn. lia. }
    rewrite Hw, Hf, Ho.
    change (current_reconnect_delay s')
      with (Z.min (current_reconnect_delay s * 2) (max_reconnect_delay s)).
    change (max_reconnect_delay s') with (max_reconnect_delay s).
    split; [|split; [apply doubled_delay; exact Hd|reflexivity]].
    cbn [List.filter is_sleep app List.seq List.map].
    change (2 ^ Z.of_nat 0) with 1.
    rewrite Z.mul_1_r, (Z.min_l (current_reconnect_delay s)) by lia. f_equal.
    rewrite <- List.seq_shift, List.map_map.
    apply List.map_ext. intros i. f_equal. apply doubled_delay. exact Hd.
Qed.

Lemma connect_with_retry_waits_witness :
  List.filter is_sleep
    (events (MQTT._connect_with_retry Sample.cfg (List.repeat false 5) Sample.offline)) =
  [Sleep 5; Sleep 10; Sleep 20; Sleep 40; Sleep 60].
Proof.
  exact (proj1 (connect_with_retry_waits Sample.cfg 5 Sample.offline
                  eq_refl eq_refl ltac:(cbn; lia))).
Defined.

(** X17.  Once the connect loop has been left, further answers of the
    broker are not looked at: the loop stops at the first connect attempt
    that returns. *)
Theorem connect_with_retry_stops_at_first_return
    (cfg : Config.settings) (answers rest : list bool) (s : state) :
  outcome (MQTT._connect_with_retry cfg answers s) = Ret true ->
  MQTT._connect_with_retry cfg (answers ++ rest) s =
  MQTT._connect_with_retry cfg answers s.
Proof.
  revert s. induction answers as [|ok answers IH]; intros s Hout;
    destruct (running s && negb (connected s)) eqn:Hg;
    try (rewrite !connect_with_retry_skipped by exact Hg; reflexivity).
  - cbn [MQTT._connect_with_retry] in Hout.
    unfold bind, get, ret, outcome in Hout. rewrite Hg in Hout.
    discriminate Hout.
  - apply andb_true_iff in Hg as [Hr Hc]. apply negb_true_iff in Hc.
    cbn [app].
    rewrite connect_with_retry_turn in Hout by assumption.
    rewrite !connect_with_retry_turn by assumption.
    destruct (outcome (MQTT.connect cfg ok s)); [reflexivity|].
    rewrite outcome_prepend in Hout.
    rewrite (IH _ Hout). reflexivity.
Qed.

Lemma connect_with_retry_stops_at_first_return_witness :
  MQTT._connect_with_retry Sample.cfg ([false; true] ++ [false; false]) Sample.offline =
  MQTT._connect_with_retry Sample.cfg [false; true] Sample.offline.
Proof.
  exact (connect_with_retry_stops_at_first_return Sample.cfg [false; true]
           [false; false] Sample.offline eq_refl).
Defined.

(** The connect loop changes the current delay and nothing else, and it
    never raises. *)
Lemma connect_with_retry_frame (cfg : Config.settings) (answers : list bool) (s : state) :
  (connected (final (MQTT._connect_with_retry cfg answers s)) = connected s /\
   running (final (MQTT._connect_with_retry cfg answers s)) = running s /\
   reconnect_delay (final (MQTT._connect_with_retry cfg answers s)) = reconnect_delay s /\
   max_reconnect_delay (final (MQTT._connect_with_retry cfg answers s)) =
     max_reconnect_delay s /\
   cwd (final (MQTT._connect_with_retry cfg answers s)) = cwd s /\
   spawned (final (MQTT._connect_with_retry cfg answers s)) = spawned s) /\
  exists b, outcome (MQTT._connect_with_retry cfg answers s) = Ret b.
Proof.
  revert s. induction answers as [|ok answers IH]; intros s;
    destruct (running s && negb (connected s)) eqn:Hg;
    try (rewrite !connect_with_retry_skipped by exact Hg;
         split; [repeat split|exists true; reflexivity]).
  - cbn [MQTT._connect_with_retry]. unfold bind, get, ret. rewrite Hg.
    split; [repeat split|exists false; reflexivity].
  - apply andb_true_iff in Hg as [Hr Hc]. apply negb_true_iff in Hc.
    rewrite connect_with_retry_turn by assumption.
    destruct (outcome (MQTT.connect cfg ok s)).
    + split; [repeat split|exists true; reflexivity].
    + rewrite outcome_prepend, final_prepend.
      exact (IH (set_current_reconnect_delay
                   (Z.min (current_reconnect_delay s * 2) (max_reconnect_delay s)) s)).
Qed.

#[local] Arguments MQTT.connect : simpl never.

(** A turn of the supervising loop on a running handler that is not
    connected, when [client.connect] returns: the call is made, the loop is
    left, and the handler waits for the poll interval; the connected flag
    is as before. *)
Lemma poll_connects (w : world) (cfg : Config.settings) (m : gmap string string)
    (answers : list bool) (s : state) (host : string) (port : Z) :
  running s = true ->
  connected s = false ->
  coutcome (Config.bus_host cfg) = Ret host ->
  coutcome (Config.bus_port cfg) = Ret port ->
  outcome (MQTT.perform w cfg m (MQTT.Poll (true :: answers)) s) = Ret tt /\
  final (MQTT.perform w cfg m (MQTT.Poll (true :: answers)) s) = s /\
  requests (events (MQTT.perform w cfg m (MQTT.Poll (true :: answers)) s)) =
  [Connect host port 60; Sleep 1].
Proof.
  intros Hr Hc Hh Hp.
  destruct (connect_called cfg true s host port Hh Hp) as (Ho & Hreq).
  pose proof (connect_with_retry_turn cfg true answers s Hr Hc) as Ht.
  rewrite Ho in Ht.
  unfold MQTT.perform, MQTT.log, bind, get, emit, ret, when,
    outcome, final, events.
  rewrite Hr, Hc. cbv beta iota delta [negb fst snd]. rewrite Ht. cbn.
  repeat split.
  change (requests (snd (MQTT.connect cfg true s) ++ [Sleep 1]) =
          [Connect host port 60; Sleep 1]).
  rewrite requests_app. unfold events in Hreq. rewrite Hreq. reflexivity.
Qed.

(** X18.  The connect loop never raises and never changes the connected
    flag, the running flag, the configured delays or the process: a
    [client.connect] that returns does not mark the handler connected.  So
    on a running handler that is not connected, two turns of the
    supervising loop without a connect acknowledgment between them call
    [client.connect] twice. *)
Theorem connect_with_retry_leaves_flags (cfg : Config.settings) (s : state) :
  (forall answers,
     (exists b, outcome (MQTT._connect_with_retry cfg answers s) = Ret b) /\
     connected (final (MQTT._connect_with_retry cfg answers s)) = connected s /\
     running (final (MQTT._connect_with_retry cfg answers s)) = running s /\
     reconnect_delay (final (MQTT._connect_with_retry cfg answers s)) = reconnect_delay s /\
     max_reconnect_delay (final (MQTT._connect_with_retry cfg answers s)) =
       max_reconnect_delay s /\
     cwd (final (MQTT._connect_with_retry cfg answers s)) = cwd s /\
     spawned (final (MQTT._connect_with_retry cfg answers s)) = spawned s) /\
  (running s = true -> connected s = false ->
   forall (w : world) (m : gmap string string) (a b : list bool)
          (host : string) (port : Z),
     coutcome (Config.bus_host cfg) = Ret host ->
     coutcome (Config.bus_port cfg) = Ret port ->
     requests (events (MQTT.session w cfg m
                         [MQTT.Poll (true :: a); MQTT.Poll (true :: b)] s)) =
     [ Connect host port 60; Sleep 1; Connect host port 60; Sleep 1 ]).
Proof.
  split.
  - intros answers.
    destruct (connect_with_retry_frame cfg answers s) as [H [b Hb]].
    split; [exists b; exact Hb|exact H].
  - intros Hr Hc w m a b host port Hh Hp.
    destruct (poll_connects w cfg m a s host port Hr Hc Hh Hp) as (Ho1 & Hf1 & Hr1).
    destruct (poll_connects w cfg m b s host port Hr Hc Hh Hp) as (Ho2 & Hf2 & Hr2).
    cbn [MQTT.session]. rewrite bind_eq.
    destruct (MQTT.perform w cfg m (MQTT.Poll (true :: a)) s) as [[[u|e] s1] t1];
      unfold outcome, final, events in Ho1, Hf1, Hr1; cbn [fst snd] in Ho1, Hf1, Hr1;
      [|discriminate Ho1].
    subst s1. rewrite events_prepend, requests_app, Hr1, bind_eq.
    destruct (MQTT.perform w cfg m (MQTT.Poll (true :: b)) s) as [[[u'|e] s2] t2];
      unfold outcome, final, events in Ho2, Hf2, Hr2; cbn [fst snd] in Ho2, Hf2, Hr2;
      [|discriminate Ho2].
    rewrite events_prepend, requests_app, Hr2. reflexivity.
Qed.

Lemma connect_with_retry_leaves_flags_witness :
  requests (events (MQTT.session Sample.world_pget Sample.cfg Sample.types
                      [MQTT.Poll [true]; MQTT.Poll [true]] Sample.offline)) =
  [ Connect "broker.example" 1883 60; Sleep 1;
    Connect "broker.example" 1883 60; Sleep 1 ].
Proof.
  exact (proj2 (connect_with_retry_leaves_flags Sample.cfg Sample.offline)
           eq_refl eq_refl Sample.world_pget Sample.types [] []
           "broker.example" 1883
           ltac:(vm_compute; reflexivity) ltac:(vm_compute; reflexivity)).
Defined.

(** A configuration without [BUS_HOST]: the read raises inside the [try],
    [client.connect] is not called, and the turn is a failed attempt like
    any other. *)
Example connect_without_host :
  requests (events (MQTT._connect_with_retry Sample.cfg_no_host [true; true]
                      Sample.offline)) =
  [Sleep 5; Sleep 10] /\
  outcome (MQTT._connect_with_retry Sample.cfg_no_host [true; true]
             Sample.offline) = Ret false.
Proof. split; vm_compute; reflexivity. Qed.

(** * Further properties of the payload parser *)

Lemma split_cons (sep : ascii) (s : string) :
  exists f fs, split sep s = f :: fs.
Proof.
  destruct s as [|c r]; cbn; [eauto|].
  destruct (Ascii.eqb c sep); [eauto|].
  destruct (split sep r); eauto.
Qed.

Lemma tab_byte (b : Byte.byte) :
  Ascii.eqb (ascii_of_byte b) TAB = Byte.eqb Byte.x09 b.
Proof. destruct b; reflexivity. Qed.

(** A payload has one field more than it has tab bytes. *)
Lemma fields_of_payload (payload : list Byte.byte) :
  length (split TAB (string_of_list_byte payload)) = S (tabs payload).
Proof.
  unfold string_of_list_byte, tabs.
  induction payload as [|b p IH]; [reflexivity|].
  cbn [List.map string_of_list_ascii split List.filter].
  rewrite tab_byte. destruct (Byte.eqb Byte.x09 b).
  - cbn [length]. rewrite IH. reflexivity.
  - destruct (split_cons TAB (string_of_list_ascii (List.map ascii_of_byte p)))
      as (f & fs & Hs).
    rewrite Hs in *. exact IH.
Qed.

Lemma transfer_file_starts
    (w : world) (cfg : Config.settings) (m : gmap string string)
    (target hash_ typecode : string) (s : state) :
  In (Log "Transfer" DEBUG "Starting transfer - target: %s, hash: %s, typecode: %s")
     (events (Transfer.transfer_file w cfg m target hash_ typecode s)).
Proof.
  unfold Transfer.transfer_file. rewrite bind_eq.
  unfold Transfer.log at 1, emit at 1. cbv beta iota.
  rewrite events_prepend. left. reflexivity.
Qed.

(** X19.  A payload that decodes is dropped as malformed exactly when it
    has fewer than two tab bytes.  With two or more, [on_message] calls
    [transfer_file] on the first three fields, empty or not, and as many
    fields are left over as there are further tabs. *)
Theorem on_message_needs_two_tabs
    (w : world) (cfg : Config.settings) (m : gmap string string)
    (payload : list Byte.byte) (s : state) :
  utf8_valid (map Byte.to_N payload) = true ->
  ((tabs payload < 2)%nat ->
   MQTT.on_message w cfg m payload s =
   (Ret PyNone, s,
    [ Log "MQTT" INFO "Event received: %s";
      Log "MQTT" DEBUG "Message topic: %s, QoS: %d, retain: %s";
      Log "MQTT" ERROR "Malformed event: %s";
      Log "MQTT" DEBUG "Expected at least 3 fields, got %d: %s" ])) /\
  ((2 <= tabs payload)%nat ->
   exists f h t rest,
     split TAB (string_of_list_byte payload) = f :: h :: t :: rest /\
     length rest = (tabs payload - 2)%nat /\
     MQTT.on_message w cfg m payload s =
     prepend (dispatch_log rest)
       (bind (Transfer.transfer_file w cfg m f h t) (MQTT.acknowledge w cfg h) s) /\
     In (Log "Transfer" DEBUG "Starting transfer - target: %s, hash: %s, typecode: %s")
        (events (MQTT.on_message w cfg m payload s))).
Proof.
  intros Hv. pose proof (fields_of_payload payload) as Hlen. split.
  - intros Ht. apply on_message_malformed; [exact Hv|].
    apply Nat.ltb_lt. lia.
  - intros Ht.
    destruct (three_fields (split TAB (string_of_list_byte payload)))
      as (f & h & t & rest & Hsplit).
    { apply Nat.ltb_ge. lia. }
    exists f, h, t, rest. split; [exact Hsplit|].
    split; [rewrite Hsplit in Hlen; cbn [length] in Hlen; lia|].
    pose proof (on_message_dispatch w cfg m payload s f h t rest Hv Hsplit) as Heq.
    split; [exact Heq|].
    rewrite Heq, events_prepend. apply in_or_app. right.
    rewrite bind_eq.
    pose proof (transfer_file_starts w cfg m f h t s) as Hin.
    destruct (Transfer.transfer_file w cfg m f h t s) as [[[b|e] s1] t1];
      unfold events in Hin; cbn [snd] in Hin.
    + rewrite events_prepend. apply in_or_app. left. exact Hin.
    + exact Hin.
Qed.

Lemma on_message_needs_two_tabs_witness :
  In (Log "Transfer" DEBUG "Starting transfer - target: %s, hash: %s, typecode: %s")
     (events (MQTT.on_message Sample.world_pget Sample.cfg Sample.types
                [Byte.x09; Byte.x09] Sample.online)).
Proof.
  destruct (proj2 (on_message_needs_two_tabs Sample.world_pget Sample.cfg
                     Sample.types [Byte.x09; Byte.x09] Sample.online eq_refl)
              ltac:(cbn; lia))
    as (f & h & t & rest & _ & _ & _ & H).
  exact H.
Defined.

(** X20.  Splitting loses nothing and leaves no separator behind: the
    fields joined with the separator give the string back, and no field
    holds the separator.  So the target, hash and type code handed to
    [transfer_file] are free of tabs. *)
Theorem split_concat (sep : ascii) (s : string) :
  String.concat (String sep EmptyString) (split sep s) = s /\
  Forall (fun f => ~ In sep (list_ascii_of_string f)) (split sep s).
Proof.
  induction s as [|c r [IHc IHf]].
  - split; [reflexivity|]. repeat constructor. intros [].
  - cbn [split]. destruct (Ascii.eqb_spec c sep) as [->|Hne].
    + destruct (split_cons sep r) as (f & fs & Hs). rewrite Hs in *.
      split.
      * cbn [String.concat]. cbn. rewrite <- IHc. reflexivity.
      * apply List.Forall_cons; [intros []|exact IHf].
    + destruct (split_cons sep r) as (f & fs & Hs). rewrite Hs in *.
      split.
      * rewrite <- IHc. destruct fs; reflexivity.
      * apply List.Forall_cons.
        -- cbn. intros [H|H]; [congruence|].
           exact (List.Forall_inv IHf H).
        -- exact (List.Forall_inv_tail IHf).
Qed.

(** * Where exceptions come from *)

(** X21.  [on_message] raises in three cases only: the payload is not
    UTF-8, and then it raises [UnicodeDecodeError]; or the payload has three
    fields or more and [transfer_file] raises on the first three, and then
    it raises the same exception; or the transfer returns and the read of
    the property [labelling] raises, and then it raises that exception.  A
    malformed payload, a failed transfer and a failed publish never make it
    raise. *)
Theorem on_message_raises_only
    (w : world) (cfg : Config.settings) (m : gmap string string)
    (payload : list Byte.byte) (s : state) (e : exn) :
  outcome (MQTT.on_message w cfg m payload s) = Raise e <->
  (utf8_valid (map Byte.to_N payload) = false /\ e = UnicodeDecodeError) \/
  (utf8_valid (map Byte.to_N payload) = true /\
   exists f h t rest,
     split TAB (string_of_list_byte payload) = f :: h :: t :: rest /\
     (outcome (Transfer.transfer_file w cfg m f h t s) = Raise e \/
      ((exists b, outcome (Transfer.transfer_file w cfg m f h t s) = Ret b) /\
       coutcome (Config.labelling cfg) = Raise e))).
Proof.
  destruct (utf8_valid (map Byte.to_N payload)) eqn:Hv.
  2:{ rewrite on_message_undecodable by exact Hv. split.
      - intros H. injection H as <-. left. auto.
      - intros [[_ ->]|[H _]]; [reflexivity|discriminate H]. }
  destruct (length (split TAB (string_of_list_byte payload)) <? 3)%nat eqn:Hlen.
  { rewrite on_message_malformed by assumption. split.
    - discriminate.
    - intros [[H _]|[_ (f & h & t & rest & Hs & _)]]; [discriminate H|].
      rewrite Hs in Hlen. discriminate Hlen. }
  destruct (three_fields _ Hlen) as (f & h & t & rest & Hsplit).
  rewrite (on_message_dispatch w cfg m payload s f h t rest Hv Hsplit).
  rewrite outcome_prepend, bind_eq.
  split.
  - intros H. right. split; [reflexivity|]. exists f, h, t, rest.
    split; [exact Hsplit|].
    destruct (Transfer.transfer_file w cfg m f h t s) as [[[b|e'] s1] t1].
    + right. split; [exists b; reflexivity|].
      rewrite outcome_prepend, acknowledge_outcome in H.
      destruct (coutcome (Config.labelling cfg)); [discriminate H|].
      injection H as ->. reflexivity.
    + left. unfold outcome in *. cbn [fst] in *. congruence.
  - intros [[H _]|[_ (f' & h' & t' & rest' & Hs & H)]]; [discriminate H|].
    rewrite Hsplit in Hs. injection Hs as <- <- <- <-.
    destruct (Transfer.transfer_file w cfg m f h t s) as [[[b|e'] s1] t1].
    + destruct H as [H|[_ H]]; [discriminate H|].
      rewrite outcome_prepend, acknowledge_outcome, H. reflexivity.
    + destruct H as [H|[[b H] _]]; [|discriminate H].
      unfold outcome in *. cbn [fst] in *. congruence.
Qed.

Lemma on_message_raises_only_witness :
  exists f h t rest,
    split TAB (string_of_list_byte Sample.movie) = f :: h :: t :: rest /\
    (outcome (Transfer.transfer_file Sample.world_no_spawn Sample.cfg Sample.types
                f h t Sample.online) = Raise OSError \/
     ((exists b, outcome (Transfer.transfer_file Sample.world_no_spawn Sample.cfg
                            Sample.types f h t Sample.online) = Ret b) /\
      coutcome (Config.labelling Sample.cfg) = Raise OSError)).
Proof.
  destruct (proj1 (on_message_raises_only Sample.world_no_spawn Sample.cfg
                     Sample.types Sample.movie Sample.online OSError)
              ltac:(vm_compute; reflexivity))
    as [[H _]|[_ H]].
  - vm_compute in H. discriminate H.
  - exact H.
Defined.



(** * Properties of the configuration *)

Section ConfigChecks.

Context (E : Config.settings).

(** [_get] raises [InterpolationError] or [Q4DConfigError], never the
    [ValueError] that the checks catch. *)
Lemma found_no_value_error (key : string) :
  Config.found E key <> Raise ValueError.
Proof.
  unfold Config.found.
  destruct (Config.environ E !! ("Q4D_" +:+ key)); [discriminate|].
  destruct (Config.has_option E key).
  - destruct (Config.get_option E key); discriminate.
  - destruct (String.eqb key "PATH"); discriminate.
Qed.

Lemma check_port_outcome (errors : list string) :
  coutcome (Config.check_port E errors) =
  match Config.found E "BUS_PORT" with
  | Raise e => Raise e
  | Ret v =>
      match Config.int_of E v with
      | Some port =>
          if (1 <=? port)%Z && (port <=? 65535)%Z then Ret errors
          else Ret (errors ++ ["BUS_PORT must be between 1 and 65535, got "
                               +:+ str_of_int port])%list
      | None => Ret (errors ++ ["BUS_PORT must be an integer, got '"
                                +:+ v +:+ "'"])%list
      end
  end.
Proof.
  unfold Config.check_port. rewrite coutcome_ctry, coutcome_cbind, get_found.
  pose proof (found_no_value_error "BUS_PORT") as Hne.
  destruct (Config.found E "BUS_PORT") as [v|e] eqn:Hf.
  2:{ destruct e; try reflexivity. congruence. }
  rewrite coutcome_cbind. unfold Config.int_ at 1.
  destruct (Config.int_of E v) as [port|]; cbn [coutcome cret craise fst].
  - rewrite coutcome_cbind. cbn [coutcome Config.log fst].
    destruct ((1 <=? port)%Z && (port <=? 65535)%Z); reflexivity.
  - rewrite !coutcome_cbind. cbn [coutcome Config.log fst].
    rewrite get_found, Hf. reflexivity.
Qed.

Lemma check_positive_outcome (name : string) (errors : list string) :
  coutcome (Config.check_positive E name errors) =
  match Config.found E name with
  | Raise e => Raise e
  | Ret v =>
      match Config.int_of E v with
      | Some n =>
          if (1 <=? n)%Z then Ret errors
          else Ret (errors ++ [name +:+ " must be a positive integer, got "
                               +:+ str_of_int n])%list
      | None => Ret (errors ++ [name +:+ " must be an integer, got '"
                                +:+ v +:+ "'"])%list
      end
  end.
Proof.
  unfold Config.check_positive. rewrite coutcome_ctry, coutcome_cbind, get_found.
  pose proof (found_no_value_error name) as Hne.
  destruct (Config.found E name) as [v|e] eqn:Hf.
  2:{ destruct e; try reflexivity. congruence. }
  rewrite coutcome_cbind. unfold Config.int_ at 1.
  destruct (Config.int_of E v) as [n|]; cbn [coutcome cret craise fst].
  - rewrite coutcome_cbind. cbn [coutcome Config.log fst].
    rewrite Z.ltb_antisym. destruct (1 <=? n)%Z; reflexivity.
  - rewrite !coutcome_cbind. cbn [coutcome Config.log fst].
    rewrite get_found, Hf. reflexivity.
Qed.

(** The check of [PATH] raises what [path_raises] says, and adds one
    message when the directory is not there and cannot be made. *)
Lemma check_path_outcome (errors : list string) :
  match Config.path_raises E with
  | Some e => coutcome (Config.check_path E errors) = Raise e
  | None =>
      exists extra,
        coutcome (Config.check_path E errors) = Ret (errors ++ extra)%list /\
        length extra = if Config.path_ok E then 0%nat else 1%nat
  end.
Proof.
  unfold Config.check_path, Config.path_raises, Config.path_ok.
  rewrite coutcome_cbind, get_found.
  destruct (Config.found E "PATH") as [v|e]; [|reflexivity].
  rewrite coutcome_cbind.
  destruct (Config.expanduser E v) as [p|]; cbn [coutcome cret craise fst];
    [|reflexivity].
  rewrite !coutcome_cbind. cbn [coutcome Config.log fst].
  destruct (Config.path_exists E p) as [[|]|]; cbn [coutcome cret craise fst negb];
    [| |reflexivity].
  - exists []. rewrite coutcome_cbind, app_nil_r. split; reflexivity.
  - rewrite coutcome_cbind. cbn [coutcome Config.log fst].
    destruct (Config.path_mkdir E p) as [|text|].
    + exists []. rewrite coutcome_cbind, app_nil_r. split; reflexivity.
    + eexists [_]. rewrite coutcome_cbind. split; reflexivity.
    + reflexivity.
Qed.

Lemma path_raises_not_ok (e : exn) :
  Config.path_raises E = Some e -> Config.path_ok E = false.
Proof.
  unfold Config.path_raises, Config.path_ok.
  destruct (Config.found E "PATH") as [v|]; [|reflexivity].
  destruct (Config.expanduser E v) as [p|]; [|reflexivity].
  destruct (Config.path_exists E p) as [[|]|]; try reflexivity; [discriminate|].
  destruct (Config.path_mkdir E p); try reflexivity; discriminate.
Qed.

Lemma coutcome_log_errors (errors : list string) :
  coutcome (Config.log_errors errors) = Ret tt.
Proof.
  induction errors as [|e errors IH]; [reflexivity|].
  cbn [Config.log_errors]. rewrite coutcome_cbind. exact IH.
Qed.

Lemma check_port_adds (errors : list string) (v : string) :
  Config.found E "BUS_PORT" = Ret v ->
  exists extra,
    coutcome (Config.check_port E errors) = Ret (errors ++ extra)%list /\
    length extra = if Config.port_ok E then 0%nat else 1%nat.
Proof.
  intros Hf. rewrite check_port_outcome. unfold Config.port_ok. rewrite Hf.
  destruct (Config.int_of E v) as [port|].
  - destruct ((1 <=? port)%Z && (port <=? 65535)%Z).
    + exists []. rewrite app_nil_r. split; reflexivity.
    + eexists [_]. split; reflexivity.
  - eexists [_]. split; reflexivity.
Qed.

Lemma check_positive_adds (name : string) (errors : list string) (v : string) :
  Config.found E name = Ret v ->
  exists extra,
    coutcome (Config.check_positive E name errors) = Ret (errors ++ extra)%list /\
    length extra = if Config.positive_ok E name then 0%nat else 1%nat.
Proof.
  intros Hf. rewrite check_positive_outcome. unfold Config.positive_ok. rewrite Hf.
  destruct (Config.int_of E v) as [n|].
  - destruct (1 <=? n)%Z.
    + exists []. rewrite app_nil_r. split; reflexivity.
    + eexists [_]. split; reflexivity.
  - eexists [_]. split; reflexivity.
Qed.

(** With the three integer keys read and a check of [PATH] that does not
    raise, validation collects one message for each failed check and
    raises once, at the end. *)
Lemma validate_collects (vp vt vs : string) :
  Config.found E "BUS_PORT" = Ret vp ->
  Config.found E "THREADS" = Ret vt ->
  Config.found E "SEGMENTS" = Ret vs ->
  Config.path_raises E = None ->
  exists errors,
    length errors = Config.failures E /\
    coutcome (Config._validate_config E) =
    match errors with
    | [] => Ret tt
    | _ :: _ =>
        Raise (Q4DConfigError
                 ("Configuration validation failed:" +:+ Config.NEWLINE +:+
                  String.concat Config.NEWLINE
                    (List.map (fun error => "  - " +:+ error) errors)))
    end.
Proof.
  intros Hp Ht Hs Hpath.
  destruct (check_port_adds [] vp Hp) as (e1 & H1 & L1).
  destruct (check_positive_adds "THREADS" ([] ++ e1) vt Ht) as (e2 & H2 & L2).
  destruct (check_positive_adds "SEGMENTS" (([] ++ e1) ++ e2) vs Hs)
    as (e3 & H3 & L3).
  pose proof (check_path_outcome ((([] ++ e1) ++ e2) ++ e3)) as H4.
  rewrite Hpath in H4. destruct H4 as (e4 & H4 & L4).
  exists (((([] ++ e1) ++ e2) ++ e3) ++ e4)%list. split.
  - rewrite !length_app, L1, L2, L3, L4. reflexivity.
  - unfold Config._validate_config.
    rewrite coutcome_cbind, H1, coutcome_cbind, H2, coutcome_cbind, H3,
      coutcome_cbind, H4.
    destruct (((([] ++ e1) ++ e2) ++ e3) ++ e4)%list; [reflexivity|].
    rewrite !coutcome_cbind. cbn [coutcome Config.log fst].
    rewrite coutcome_log_errors. reflexivity.
Qed.

(** The first read or check that raises ends validation with its
    exception, whatever was collected before. *)
Lemma validate_raises (e : exn) :
  (Config.found E "BUS_PORT" = Raise e ->
   coutcome (Config._validate_config E) = Raise e) /\
  (forall vp, Config.found E "BUS_PORT" = Ret vp ->
              Config.found E "THREADS" = Raise e ->
              coutcome (Config._validate_config E) = Raise e) /\
  (forall vp vt, Config.found E "BUS_PORT" = Ret vp ->
                 Config.found E "THREADS" = Ret vt ->
                 Config.found E "SEGMENTS" = Raise e ->
                 coutcome (Config._validate_config E) = Raise e) /\
  (forall vp vt vs, Config.found E "BUS_PORT" = Ret vp ->
                    Config.found E "THREADS" = Ret vt ->
                    Config.found E "SEGMENTS" = Ret vs ->
                    Config.path_raises E = Some e ->
                    coutcome (Config._validate_config E) = Raise e).
Proof.
  unfold Config._validate_config.
  split; [|split; [|split]].
  - intros Hp. rewrite coutcome_cbind, check_port_outcome, Hp. reflexivity.
  - intros vp Hp Ht.
    destruct (check_port_adds [] vp Hp) as (e1 & H1 & _).
    rewrite coutcome_cbind, H1, coutcome_cbind, check_positive_outcome, Ht.
    reflexivity.
  - intros vp vt Hp Ht Hs.
    destruct (check_port_adds [] vp Hp) as (e1 & H1 & _).
    destruct (check_positive_adds "THREADS" ([] ++ e1) vt Ht) as (e2 & H2 & _).
    rewrite coutcome_cbind, H1, coutcome_cbind, H2, coutcome_cbind,
      check_positive_outcome, Hs.
    reflexivity.
  - intros vp vt vs Hp Ht Hs Hpath.
    destruct (check_port_adds [] vp Hp) as (e1 & H1 & _).
    destruct (check_positive_adds "THREADS" ([] ++ e1) vt Ht) as (e2 & H2 & _).
    destruct (check_positive_adds "SEGMENTS" (([] ++ e1) ++ e2) vs Hs)
      as (e3 & H3 & _).
    pose proof (check_path_outcome ((([] ++ e1) ++ e2) ++ e3)) as H4.
    rewrite Hpath in H4.
    rewrite coutcome_cbind, H1, coutcome_cbind, H2, coutcome_cbind, H3,
      coutcome_cbind, H4.
    reflexivity.
Qed.

End ConfigChecks.

(** X23.  [_get] looks in the environment first, under the name prefixed by
    [Q4D_], then in the file, then at the default, which exists for [PATH]
    only.  A value in the environment hides the others and is returned as
    it is.  A value of the file goes through the interpolation of the
    parser, and [_get] raises [InterpolationError] when that fails.  A key
    found nowhere raises [Q4DConfigError] naming the key; [PATH] is never
    reported missing. *)
Theorem get_precedence (E : Config.settings) (key : string) :
  (forall v, Config.environ E !! ("Q4D_" +:+ key) = Some v ->
             coutcome (Config._get E key) = Ret v) /\
  (Config.environ E !! ("Q4D_" +:+ key) = None ->
   Config.has_option E key = true ->
   coutcome (Config._get E key) =
   match Config.get_option E key with
   | Some v => Ret v
   | None => Raise InterpolationError
   end) /\
  (Config.environ E !! ("Q4D_" +:+ key) = None ->
   Config.has_option E key = false ->
   coutcome (Config._get E key) =
   if String.eqb key "PATH" then Ret (Config.default_path E)
   else Raise (Q4DConfigError ("Missing required configuration value: " +:+ key))) /\
  (forall msg, coutcome (Config._get E "PATH") <> Raise (Q4DConfigError msg)).
Proof.
  rewrite !get_found. unfold Config.found.
  split; [|split; [|split]].
  - intros v ->. reflexivity.
  - intros -> ->. reflexivity.
  - intros -> ->. reflexivity.
  - intros msg.
    destruct (Config.environ E !! ("Q4D_" +:+ "PATH")); [discriminate|].
    destruct (Config.has_option E "PATH"); [|discriminate].
    destruct (Config.get_option E "PATH"); discriminate.
Qed.

Lemma get_precedence_witness :
  coutcome (Config._get Config.sample "BUS_PORT") = Ret "1883" /\
  coutcome (Config._get Config.sample_percent "THREADS") = Raise InterpolationError.
Proof.
  split.
  - exact (proj1 (get_precedence Config.sample "BUS_PORT") "1883" eq_refl).
  - exact (proj1 (proj2 (get_precedence Config.sample_percent "THREADS"))
             eq_refl eq_refl).
Defined.

(** Validation returns exactly when the four checks pass. *)
Lemma validate_returns (E : Config.settings) :
  coutcome (Config._validate_config E) = Ret tt <->
  Config.port_ok E = true /\
  Config.positive_ok E "THREADS" = true /\
  Config.positive_ok E "SEGMENTS" = true /\
  Config.path_ok E = true.
Proof.
  destruct (Config.found E "BUS_PORT") as [vp|e] eqn:Hp.
  2:{ rewrite (proj1 (validate_raises E e) Hp).
      unfold Config.port_ok. rewrite Hp. split; [discriminate|].
      intros [H _]; discriminate H. }
  destruct (Config.found E "THREADS") as [vt|e] eqn:Ht.
  2:{ rewrite (proj1 (proj2 (validate_raises E e)) vp Hp Ht).
      unfold Config.positive_ok at 1. rewrite Ht. split; [discriminate|].
      intros (_ & H & _); discriminate H. }
  destruct (Config.found E "SEGMENTS") as [vs|e] eqn:Hs.
  2:{ rewrite (proj1 (proj2 (proj2 (validate_raises E e))) vp vt Hp Ht Hs).
      unfold Config.positive_ok at 2. rewrite Hs. split; [discriminate|].
      intros (_ & _ & H & _); discriminate H. }
  destruct (Config.path_raises E) as [e|] eqn:Hpath.
  { rewrite (proj2 (proj2 (proj2 (validate_raises E e))) vp vt vs Hp Ht Hs Hpath).
    rewrite (path_raises_not_ok E e Hpath). split; [discriminate|].
    intros (_ & _ & _ & H); discriminate H. }
  destruct (validate_collects E vp vt vs Hp Ht Hs Hpath) as (errors & Hlen & Hout).
  rewrite Hout. unfold Config.failures in Hlen.
  destruct errors as [|e errors]; cbn [length] in Hlen.
  - split; [intros _|reflexivity].
    destruct (Config.port_ok E), (Config.positive_ok E "THREADS"),
      (Config.positive_ok E "SEGMENTS"), (Config.path_ok E);
      cbn in Hlen; try discriminate Hlen; auto.
  - split; [discriminate|].
    intros (H1 & H2 & H3 & H4). rewrite H1, H2, H3, H4 in Hlen.
    discriminate Hlen.
Qed.

(** X24.  Validation returns exactly when the port is read, is an integer
    and lies between 1 and 65535, the threads and the segments are read and
    are integers of at least 1, and the path is read and expanded and its
    directory exists or can be made.  A read that raises, as for a value of
    the file that cannot be interpolated, makes validation raise. *)
Theorem validate_accepts_iff (E : Config.settings) :
  coutcome (Config._validate_config E) = Ret tt <->
  (exists vp port,
     Config.found E "BUS_PORT" = Ret vp /\ Config.int_of E vp = Some port /\
     1 <= port <= 65535) /\
  (exists vt n,
     Config.found E "THREADS" = Ret vt /\ Config.int_of E vt = Some n /\ 1 <= n) /\
  (exists vs k,
     Config.found E "SEGMENTS" = Ret vs /\ Config.int_of E vs = Some k /\ 1 <= k) /\
  (exists v p,
     Config.found E "PATH" = Ret v /\ Config.expanduser E v = Some p /\
     (Config.path_exists E p = Some true \/
      (Config.path_exists E p = Some false /\
       Config.path_mkdir E p = Config.Created))).
Proof.
  rewrite validate_returns.
  unfold Config.port_ok, Config.positive_ok, Config.path_ok.
  split.
  - intros (Hp & Ht & Hs & Hd).
    destruct (Config.found E "BUS_PORT") as [vp|]; [|discriminate Hp].
    destruct (Config.int_of E vp) as [port|] eqn:Ip; [|discriminate Hp].
    destruct (Config.found E "THREADS") as [vt|]; [|discriminate Ht].
    destruct (Config.int_of E vt) as [n|] eqn:It; [|discriminate Ht].
    destruct (Config.found E "SEGMENTS") as [vs|]; [|discriminate Hs].
    destruct (Config.int_of E vs) as [k|] eqn:Is; [|discriminate Hs].
    destruct (Config.found E "PATH") as [v|]; [|discriminate Hd].
    destruct (Config.expanduser E v) as [p|] eqn:Ex; [|discriminate Hd].
    split; [exists vp, port; repeat split; [exact Ip|lia..]|].
    split; [exists vt, n; repeat split; [exact It|lia]|].
    split; [exists vs, k; repeat split; [exact Is|lia]|].
    exists v, p. split; [reflexivity|split; [exact Ex|]].
    destruct (Config.path_exists E p) as [[|]|]; [auto| |discriminate Hd].
    destruct (Config.path_mkdir E p); try discriminate Hd. auto.
  - intros ((vp & port & -> & -> & Hp) & (vt & n & -> & -> & Ht) &
            (vs & k & -> & -> & Hs) & (v & p & -> & -> & Hd)).
    repeat split; try lia.
    destruct Hd as [->|[-> ->]]; reflexivity.
Qed.

(** A value of the file with a stray [%]: every condition on the value is
    beside the point, validation raises what the parser raises. *)
Example validate_percent :
  coutcome (Config._validate_config Config.sample_percent) =
  Raise InterpolationError.
Proof. vm_compute. reflexivity. Qed.

(** X25.  Validation does not stop at the first failed check: when the
    three integer keys are read and the check of the path does not raise,
    it raises one [Q4DConfigError] whose message has one line for each
    failed check, or returns when there is none.  But the first read or
    check that raises ends it at once with that exception, whatever was
    collected before: a key that is set nowhere, a value of the file that
    cannot be interpolated, a path that cannot be expanded or examined. *)
Theorem validate_collects_errors (E : Config.settings) :
  (forall vp vt vs,
     Config.found E "BUS_PORT" = Ret vp ->
     Config.found E "THREADS" = Ret vt ->
     Config.found E "SEGMENTS" = Ret vs ->
     Config.path_raises E = None ->
     exists errors,
       length errors = Config.failures E /\
       coutcome (Config._validate_config E) =
       match errors with
       | [] => Ret tt
       | _ :: _ =>
           Raise
             (Q4DConfigError
                ("Configuration validation failed:" +:+ Config.NEWLINE +:+
                 String.concat Config.NEWLINE
                   (List.map (fun error => "  - " +:+ error) errors)))
       end) /\
  (forall e,
     Config.found E "BUS_PORT" = Raise e ->
     coutcome (Config._validate_config E) = Raise e) /\
  (forall e vp,
     Config.found E "BUS_PORT" = Ret vp ->
     Config.found E "THREADS" = Raise e ->
     coutcome (Config._validate_config E) = Raise e) /\
  (forall e vp vt,
     Config.found E "BUS_PORT" = Ret vp ->
     Config.found E "THREADS" = Ret vt ->
     Config.found E "SEGMENTS" = Raise e ->
     coutcome (Config._validate_config E) = Raise e) /\
  (forall e vp vt vs,
     Config.found E "BUS_PORT" = Ret vp ->
     Config.found E "THREADS" = Ret vt ->
     Config.found E "SEGMENTS" = Ret vs ->
     Config.path_raises E = Some e ->
     coutcome (Config._validate_config E) = Raise e).
Proof.
  split; [|split; [|split; [|split]]].
  - intros vp vt vs. apply validate_collects.
  - intros e. apply (proj1 (validate_raises E e)).
  - intros e. apply (proj1 (proj2 (validate_raises E e))).
  - intros e. apply (proj1 (proj2 (proj2 (validate_raises E e)))).
  - intros e. apply (proj2 (proj2 (proj2 (validate_raises E e)))).
Qed.

Lemma validate_collects_errors_witness :
  (exists errors,
     length errors = 3%nat /\
     coutcome (Config._validate_config Config.sample_bad) =
     match errors with
     | [] => Ret tt
     | _ :: _ =>
         Raise
           (Q4DConfigError
              ("Configuration validation failed:" +:+ Config.NEWLINE +:+
               String.concat Config.NEWLINE
                 (List.map (fun error => "  - " +:+ error) errors)))
     end) /\
  coutcome (Config._validate_config Config.sample_missing) =
  Raise (Q4DConfigError "Missing required configuration value: SEGMENTS").
Proof.
  split.
  - exact (proj1 (validate_collects_errors Config.sample_bad)
             "70000" "0" "many" eq_refl eq_refl eq_refl eq_refl).
  - exact (proj1 (proj2 (proj2 (proj2 (validate_collects_errors Config.sample_missing))))
             (Q4DConfigError "Missing required configuration value: SEGMENTS")
             "70000" "0" eq_refl eq_refl eq_refl).
Defined.

(** The message of the sample with three failed checks. *)
Example validate_sample_bad :
  coutcome (Config._validate_config Config.sample_bad) =
  Raise
    (Q4DConfigError
       ("Configuration validation failed:" +:+ Config.NEWLINE +:+
        "  - BUS_PORT must be between 1 and 65535, got 70000" +:+ Config.NEWLINE +:+
        "  - THREADS must be a positive integer, got 0" +:+ Config.NEWLINE +:+
        "  - SEGMENTS must be an integer, got 'many'")).
Proof. vm_compute. reflexivity. Qed.

(** X26.  Under settings that pass validation the properties [bus_port],
    [threads] and [segments] return integers, the port between 1 and 65535
    and the other two at least 1. *)
Theorem validated_numbers_in_range (E : Config.settings) :
  coutcome (Config._validate_config E) = Ret tt ->
  exists port n k,
    coutcome (Config.bus_port E) = Ret port /\
    1 <= port <= 65535 /\
    coutcome (Config.threads E) = Ret n /\ 1 <= n /\
    coutcome (Config.segments E) = Ret k /\ 1 <= k.
Proof.
  intros Hv. apply validate_returns in Hv as (Hp & Ht & Hs & _).
  unfold Config.port_ok in Hp. unfold Config.positive_ok in Ht, Hs.
  unfold Config.bus_port, Config.threads, Config.segments, Config.int_.
  rewrite !coutcome_cbind, !get_found.
  destruct (Config.found E "BUS_PORT") as [vp|]; [|discriminate Hp].
  destruct (Config.found E "THREADS") as [vt|]; [|discriminate Ht].
  destruct (Config.found E "SEGMENTS") as [vs|]; [|discriminate Hs].
  destruct (Config.int_of E vp) as [port|]; [|discriminate Hp].
  destruct (Config.int_of E vt) as [n|]; [|discriminate Ht].
  destruct (Config.int_of E vs) as [k|]; [|discriminate Hs].
  exists port, n, k. cbn. repeat split; lia.
Qed.

Lemma validated_numbers_in_range_witness :
  exists port n k,
    coutcome (Config.bus_port Config.sample) = Ret port /\
    1 <= port <= 65535 /\
    coutcome (Config.threads Config.sample) = Ret n /\ 1 <= n /\
    coutcome (Config.segments Config.sample) = Ret k /\ 1 <= k.
Proof.
  exact (validated_numbers_in_range Config.sample ltac:(vm_compute; reflexivity)).
Defined.
